(** * obsidian-github: the synchronisation driver and the note materializer

    A shallow embedding of the plugin class [GitHubPlugin] (the version with
    stars, pull requests and templates) and of [normalizeTag], with the
    properties of the incremental synchronisation protocol proved about it.

    Conventions of the embedding:
    - a JavaScript string is a [string]; its characters are the code units
      below U+0100 (Latin-1), which is where the source's literals, regular
      expressions and GitHub's identifiers live;
    - [null] and [undefined] fields are [None];
    - an [async] method is a computation in the monad [M]: it reads and
      writes the plugin state, may throw, and emits the calls that leave the
      plugin (notices, console, HTTP requests, vault writes) as a trace;
    - what the plugin cannot decide (the remote listing, the clock, the
      template engine, whether a vault write or the saving of the settings
      fails) is a field of [Host]. *)

From Stdlib Require Import String Ascii List Bool Arith Lia.
From stdpp Require Import gmap strings list fin_maps pretty.

Local Open Scope string_scope.
Local Open Scope list_scope.
Local Open Scope nat_scope.

(** ** JavaScript string primitives used by the plugin *)

Module JS.

Definition code (c : ascii) : nat := nat_of_ascii c.

Definition between (lo hi : nat) (c : ascii) : bool :=
  (lo <=? code c) && (code c <=? hi).

(** [String.prototype.toLowerCase] on one code unit: A-Z, and the Latin-1
    capitals U+00C0..U+00DE except the multiplication sign U+00D7. *)
Definition lowerChar (c : ascii) : ascii :=
  if between 65 90 c then ascii_of_nat (code c + 32)
  else if between 192 222 c && negb (code c =? 215) then ascii_of_nat (code c + 32)
  else c.

Fixpoint mapChars (f : ascii -> ascii) (s : string) : string :=
  match s with
  | EmptyString => EmptyString
  | String c r => String (f c) (mapChars f r)
  end.

Definition toLowerCase (s : string) : string := mapChars lowerChar s.

(** The class [\s] (and what [trim] strips) below U+0100. *)
Definition isSpace (c : ascii) : bool :=
  between 9 13 c || (code c =? 32) || (code c =? 160).

(** [s.trim()] used as a condition: true when something other than white
    space is left. *)
Fixpoint trimTruthy (s : string) : bool :=
  match s with
  | EmptyString => false
  | String c r => negb (isSpace c) || trimTruthy r
  end.

(** [s.replace(c, d)] with a string pattern: the first occurrence only. *)
Fixpoint replaceFirst (c d : ascii) (s : string) : string :=
  match s with
  | EmptyString => EmptyString
  | String x r => if Ascii.eqb x c then String d r else String x (replaceFirst c d r)
  end.

(** [s.replace(/\s+/g, d)]: every maximal run of white space becomes one
    [d]. [inRun] tells that the previous character was white space. *)
Fixpoint replaceSpaceRuns (d : ascii) (inRun : bool) (s : string) : string :=
  match s with
  | EmptyString => EmptyString
  | String x r =>
      if isSpace x
      then (if inRun then replaceSpaceRuns d true r
            else String d (replaceSpaceRuns d true r))
      else String x (replaceSpaceRuns d false r)
  end.

(** [s.split(c)]; never empty: splitting the empty string gives one empty
    part. *)
Fixpoint split (c : ascii) (s : string) : list string :=
  match s with
  | EmptyString => [EmptyString]
  | String x r =>
      if Ascii.eqb x c then EmptyString :: split c r
      else match split c r with
           | [] => [String x EmptyString]
           | p :: ps => String x p :: ps
           end
  end.

(** [s.substring(0, n)]. *)
Fixpoint substring0 (n : nat) (s : string) : string :=
  match n, s with
  | O, _ => EmptyString
  | _, EmptyString => EmptyString
  | S m, String x r => String x (substring0 m r)
  end.

Definition dquote : ascii := ascii_of_nat 34.
Definition backslash : ascii := ascii_of_nat 92.

(** [s.replace] of every double quote by a backslash and a double quote. *)
Fixpoint escapeQuotes (s : string) : string :=
  match s with
  | EmptyString => EmptyString
  | String x r =>
      if Ascii.eqb x dquote then String backslash (String dquote (escapeQuotes r))
      else String x (escapeQuotes r)
  end.

(** Truthiness of a possibly-null string: [null] and [''] are falsy. *)
Definition truthy (o : option string) : bool :=
  match o with
  | Some (String _ _) => true
  | _ => false
  end.

(** [o || d] on a possibly-null string. *)
Definition orElse (o : option string) (d : string) : string :=
  match o with
  | Some (String c r) => String c r
  | _ => d
  end.

(** [a[i]] inside a template literal: a missing element prints as
    [undefined]. [i] is given as an offset from the end, [a[a.length - k]]. *)
Definition fromEnd (k : nat) (a : list string) : string :=
  if k <=? length a then nth (length a - k) a "undefined" else "undefined".

Definition ofNat (n : nat) : string := pretty n.

End JS.

(** ** [normalizeTag] *)

(** The characters the pattern [[^a-z0-9/_-]] leaves alone. *)
Definition supported (c : ascii) : bool :=
  JS.between 97 122 c || JS.between 48 57 c
  || (JS.code c =? 47) || (JS.code c =? 95) || (JS.code c =? 45).

Definition replaceUnsupported (s : string) : string :=
  JS.mapChars (fun c => if supported c then c else "_"%char) s.

(** normalizeTag will replace all not supported symbols to [_] and make
    string lower-case. *)
Definition normalizeTag (tag : string) : string :=
  replaceUnsupported (JS.toLowerCase tag).


(** ** Data model *)

Record GitHubPluginSettings := {
  apiToken : string;
  username : string;
  targetDirectory : string;
  lastFetchDate : string;
  syncEnabled : bool;
  syncPullRequests : bool;
  lastPRFetchDate : string;
  prDirectory : string;
  useDefaultTemplateStar : bool;
  templatePathStar : string;
  useDefaultTemplatePR : bool;
  templatePathPR : string
}.

Definition DEFAULT_SETTINGS : GitHubPluginSettings := {|
  apiToken := "";
  username := "";
  targetDirectory := "";
  lastFetchDate := "";
  syncEnabled := true;
  syncPullRequests := true;
  lastPRFetchDate := "";
  prDirectory := "";
  useDefaultTemplateStar := true;
  templatePathStar := "";
  useDefaultTemplatePR := true;
  templatePathPR := ""
|}.

Record Owner := { login : string; avatar_url : string }.

(** [description], [language] and [topics] come as [null] from GitHub when
    they are not set, whatever the interface declares. *)
Record StarredRepo := {
  name : string;
  full_name : string;
  html_url : string;
  description : option string;
  created_at : string;
  updated_at : string;
  language : option string;
  stargazers_count : nat;
  topics : option (list string);
  owner : Owner
}.

(** Of the nested [pull_request] object only [merged_at] is consumed. *)
Record PullRequest := {
  pr_id : nat;
  pr_number : nat;
  pr_title : string;
  pr_html_url : string;
  pr_state : string;
  pr_created_at : string;
  pr_updated_at : string;
  pr_closed_at : option string;
  pr_merged_at : option string;
  pr_draft : bool;
  pr_pull_request : option (option string);
  pr_repository_url : string;
  pr_labels : option (list string)
}.

(** A value stored in a note's metadata block. *)
Inductive FMValue :=
| FMString (s : string)
| FMNumber (n : nat)
| FMBool (b : bool)
| FMList (l : list string).

(** A note: the structured metadata block and the free text after it. *)
Record Note := { frontmatter : list (string * FMValue); body : string }.

Inductive Entry :=
| TFile (n : Note)
| TFolder.

(** The plugin object together with what it can reach: the settings in
    memory, the settings as last saved with [saveData], and the vault. *)
Record World := {
  settings : GitHubPluginSettings;
  data : GitHubPluginSettings;
  vault : gmap string Entry
}.

Inductive Result (A : Type) :=
| Ok (a : A)
| Throw (message : string).
Arguments Ok {A} a.
Arguments Throw {A} message.

Inductive Endpoint := Starred | SearchPRs.

(** Calls that leave the plugin, in the order they are made. [EvCreated] is
    the value a driver loop binds to [created] after a materializer call. *)
Inductive Event :=
| EvNotice (msg : string)
| EvConsoleError (msg : string) (error : string)
| EvRequest (ep : Endpoint) (user : string) (page : nat) (authorized : bool)
| EvCreateFolder (path : string)
| EvCreate (path : string)
| EvFrontMatter (path : string)
| EvSaveData (s : GitHubPluginSettings)
| EvCreated (item : string) (created : bool).

(** What the plugin does not decide. A listing is the sequence of answers to
    the requests for page 1, 2, ...; a page past its end is the empty array.
    The clock readings and the failures are those of one stretch of time: a
    property that compares calls made at different times takes a host for
    each. *)
Record Host := {
  starredPages : list (Result (list StarredRepo));
  pullRequestPages : list (Result (list PullRequest));
  handlebarsStar : string -> StarredRepo -> Result string;
  handlebarsPR : string -> PullRequest -> Result string;
  noteOfText : string -> Note;
  textOfNote : Note -> string;
  createFails : string -> bool;
  createFolderFails : string -> bool;
  processFrontMatterFails : string -> bool;
  saveDataFails : GitHubPluginSettings -> bool;
  toISOString : string;
  toLocaleString : string;
  localDate : string -> string;
  today : string
}.

(** ** The monad of plugin methods *)

Definition M (A : Type) : Type := World -> Result A * World * list Event.

Definition ret {A} (a : A) : M A := fun w => (Ok a, w, []).

Definition throw {A} (e : string) : M A := fun w => (Throw e, w, []).

Definition bind {A B} (m : M A) (k : A -> M B) : M B :=
  fun w =>
    match m w with
    | (Ok a, w1, t1) =>
        match k a w1 with
        | (r, w2, t2) => (r, w2, t1 ++ t2)
        end
    | (Throw e, w1, t1) => (Throw e, w1, t1)
    end.

(** [try { m } catch (error) { handler error }] *)
Definition tryCatch {A} (m : M A) (handler : string -> M A) : M A :=
  fun w =>
    match m w with
    | (Ok a, w1, t1) => (Ok a, w1, t1)
    | (Throw e, w1, t1) =>
        match handler e w1 with
        | (r, w2, t2) => (r, w2, t1 ++ t2)
        end
    end.

Definition emit (e : Event) : M unit := fun w => (Ok tt, w, [e]).

Definition getSettings : M GitHubPluginSettings := fun w => (Ok (settings w), w, []).

Definition setSettings (s : GitHubPluginSettings) : M unit :=
  fun w => (Ok tt, {| settings := s; data := data w; vault := vault w |}, []).

Definition liftResult {A} (r : Result A) : M A := fun w => (r, w, []).

Notation "'do' x <- m ; k" := (bind m (fun x => k))
  (at level 10, x name, m at level 100, k at level 200).
Notation "'do' ' p <- m ; k" := (bind m (fun x => match x with p => k end))
  (at level 10, p pattern, m at level 100, k at level 200).
Notation "'run' m ; k" := (bind m (fun _ => k))
  (at level 10, m at level 100, k at level 200).

Definition result {A} (o : Result A * World * list Event) : Result A := fst (fst o).
Definition world {A} (o : Result A * World * list Event) : World := snd (fst o).
Definition trace {A} (o : Result A * World * list Event) : list Event := snd o.

(** ** Host primitives *)

Definition Notice (msg : string) : M unit := emit (EvNotice msg).

Definition consoleError (msg error : string) : M unit := emit (EvConsoleError msg error).

Definition setVault (v : gmap string Entry) : M unit :=
  fun w => (Ok tt, {| settings := settings w; data := data w; vault := v |}, []).

Definition getVault : M (gmap string Entry) := fun w => (Ok (vault w), w, []).

(** [vault.adapter.exists(path)]: true for files and folders alike. *)
Definition adapterExists (path : string) : M bool :=
  do v <- getVault;
  ret (match v !! path with Some _ => true | None => false end).

(** [vault.getAbstractFileByPath(path)] *)
Definition getAbstractFileByPath (path : string) : M (option Entry) :=
  do v <- getVault; ret (v !! path).

(** [vault.adapter.read(path)] *)
Definition adapterRead (h : Host) (path : string) : M string :=
  do v <- getVault;
  match v !! path with
  | Some (TFile n) => ret (textOfNote h n)
  | _ => throw ("Cannot read " +:+ path)
  end.

(** [vault.createFolder(path)] *)
Definition createFolder (h : Host) (path : string) : M unit :=
  do v <- getVault;
  if createFolderFails h path then throw ("Failed to create folder " +:+ path)
  else match v !! path with
       | Some _ => throw "Folder already exists."
       | None => run setVault (<[path := TFolder]> v); emit (EvCreateFolder path)
       end.

(** [vault.create(path, text)]; the file handle it returns is the path. *)
Definition vaultCreate (h : Host) (path text : string) : M string :=
  do v <- getVault;
  if createFails h path then throw ("Failed to create " +:+ path)
  else match v !! path with
       | Some _ => throw "File already exists."
       | None =>
           run setVault (<[path := TFile (noteOfText h text)]> v);
           run emit (EvCreate path);
           ret path
       end.

(** [frontmatter[k] = v] on the metadata mapping. *)
Fixpoint setField (k : string) (v : FMValue) (fm : list (string * FMValue))
  : list (string * FMValue) :=
  match fm with
  | [] => [(k, v)]
  | (k', v') :: rest =>
      if String.eqb k k' then (k, v) :: rest else (k', v') :: setField k v rest
  end.

Definition setFields (fields fm : list (string * FMValue)) : list (string * FMValue) :=
  fold_left (fun acc kv => setField (fst kv) (snd kv) acc) fields fm.

(** [fileManager.processFrontMatter(file, fn)] for a callback [fn] that only
    assigns [fields]: the metadata block is rewritten, the body is not. *)
Definition processFrontMatter (h : Host) (file : string)
    (fields : list (string * FMValue)) : M unit :=
  do v <- getVault;
  if processFrontMatterFails h file then throw ("Failed to process " +:+ file)
  else match v !! file with
       | Some (TFile n) =>
           run setVault (<[file := TFile {| frontmatter := setFields fields (frontmatter n);
                                            body := body n |}]> v);
           emit (EvFrontMatter file)
       | _ => throw ("Not a file: " +:+ file)
       end.

Definition saveDataError : string := "Failed to save data".

(** [saveSettings]: [saveData(this.settings)]; the promise of [saveData]
    may reject, and then nothing is written. *)
Definition saveSettings (h : Host) : M unit :=
  fun w =>
    if saveDataFails h (settings w) then (Throw saveDataError, w, [])
    else (Ok tt, {| settings := settings w; data := settings w; vault := vault w |},
          [EvSaveData (settings w)]).

(** ** The plugin *)

Definition nl : string := String (ascii_of_nat 10) EmptyString.

(** [a || b] on strings. *)
Definition orString (a b : string) : string :=
  match a with
  | EmptyString => b
  | _ => a
  end.

Definition nonEmpty (s : string) : bool :=
  match s with
  | EmptyString => false
  | _ => true
  end.

Definition settingsAreValid : M bool :=
  do s <- getSettings;
  ret (nonEmpty (username s) && nonEmpty (targetDirectory s)).

(** The loop shared by [ensureTargetDirectoryExists],
    [ensurePRDirectoryExists] and [ensureDirectoryExists]. *)
Fixpoint ensureDirs (h : Host) (currentPath : string) (dirs : list string) : M unit :=
  match dirs with
  | [] => ret tt
  | dir :: rest =>
      let currentPath' :=
        if nonEmpty currentPath then currentPath +:+ "/" +:+ dir else dir in
      do present <- adapterExists currentPath';
      run (if negb present then createFolder h currentPath' else ret tt);
      ensureDirs h currentPath' rest
  end.

Definition ensureDirectoryExists (h : Host) (dirPath : string) : M unit :=
  ensureDirs h "" (List.filter JS.trimTruthy (JS.split "/" dirPath)).

Definition ensureTargetDirectoryExists (h : Host) : M unit :=
  do s <- getSettings;
  ensureDirectoryExists h (targetDirectory s).

Definition ensurePRDirectoryExists (h : Host) : M unit :=
  do s <- getSettings;
  ensureDirectoryExists h (orString (prDirectory s) (targetDirectory s)).

Definition perPage : nat := 100.

(** The answer to the next request: the head of what is left of the
    listing, the empty array past its end. *)
Definition headPage {Item} (listing : list (Result (list Item))) : Result (list Item) :=
  match listing with
  | [] => Ok []
  | response :: _ => response
  end.

(** [requestUrl] on the next answer of a listing. *)
Definition requestPage {Item} (ep : Endpoint) (listing : list (Result (list Item)))
    (page : nat) : M (list Item) :=
  do s <- getSettings;
  run emit (EvRequest ep (username s) page (nonEmpty (apiToken s)));
  liftResult (headPage listing).

(** [listing] is what is left of the remote listing from [page] on. *)
Definition getStarredRepos (listing : list (Result (list StarredRepo))) (page : nat)
  : M (list StarredRepo * bool) :=
  do stars <- requestPage Starred listing page;
  ret (stars, length stars =? perPage).

Definition getPullRequests (listing : list (Result (list PullRequest))) (page : nat)
  : M (list PullRequest * bool) :=
  do items <- requestPage SearchPRs listing page;
  ret (items, length items =? perPage).

Definition readTemplate (h : Host) (forceDefault : bool) (templatePath defaultTemplate : string)
  : M string :=
  if forceDefault then ret defaultTemplate
  else if negb (nonEmpty templatePath) then
    run Notice "Template path not set. Use default template.";
    ret defaultTemplate
  else
    do present <- adapterExists templatePath;
    if negb present then
      run Notice ("Template not found: " +:+ templatePath +:+ ". Using default.");
      ret defaultTemplate
    else adapterRead h templatePath.

Definition renderTemplate {T} (h : Host) (handlebars : string -> T -> Result string)
    (forceDefault : bool) (templatePath defaultTemplate : string) (obj : T) : M string :=
  do templateContent <- readTemplate h forceDefault templatePath defaultTemplate;
  liftResult (handlebars templateContent obj).

(** The body of the [try] block both materializers share: get hold of the
    file, creating it from the template when it is not there, then write the
    metadata block when the built-in template is selected. *)
Definition writeNote (h : Host) (fileName : string) (here : bool)
    (useDefaultTemplate : bool) (render : M string)
    (fields : list (string * FMValue)) : M unit :=
  do file <- (if here then
                do existingFile <- getAbstractFileByPath fileName;
                match existingFile with
                | Some (TFile _) => ret fileName
                | _ => throw ("File exists but couldn't be accessed: " +:+ fileName)
                end
              else
                do fileContent <- render;
                vaultCreate h fileName fileContent);
  if useDefaultTemplate then processFrontMatter h file fields else ret tt.

Definition repoFileName (s : GitHubPluginSettings) (repo : StarredRepo) : string :=
  targetDirectory s +:+ "/" +:+ JS.replaceFirst "/" "-" (full_name repo) +:+ ".md".

Definition repoTagsList (repo : StarredRepo) : list string :=
  ["type/github-star"]
  ++ (if JS.truthy (language repo)
      then ["github/language/" +:+ normalizeTag (JS.orElse (language repo) "")]
      else [])
  ++ map (fun topic => "github/topic/" +:+ normalizeTag topic)
         (match topics repo with Some ts => ts | None => [] end).

Definition repoFrontMatter (h : Host) (repo : StarredRepo) : list (string * FMValue) :=
  [ ("tags", FMList (repoTagsList repo));
    ("aliases", FMList [name repo]);
    ("description", FMString (JS.escapeQuotes (JS.orElse (description repo) "No description")));
    ("url", FMString (html_url repo));
    ("owner", FMString ("https://github.com/" +:+ login (owner repo)));
    ("language", FMString (JS.orElse (language repo) "Not specified"));
    ("stars", FMNumber (stargazers_count repo));
    ("created", FMString (localDate h (created_at repo)));
    ("modified", FMString (today h));
    ("lastUpdated", FMString (toLocaleString h)) ].

Definition repoErrorMessage (repo : StarredRepo) : string :=
  "Error creating note for " +:+ name repo +:+ ":".

(** The [try] block of [createNoteForRepo]; [here] is its [exists]. *)
Definition writeRepoNote (h : Host) (s : GitHubPluginSettings) (repo : StarredRepo)
    (here : bool) : M unit :=
  writeNote h (repoFileName s repo) here (useDefaultTemplateStar s)
    (renderTemplate h (handlebarsStar h) (useDefaultTemplateStar s)
       (templatePathStar s) ("# {{ name }}" +:+ nl +:+ nl) repo)
    (repoFrontMatter h repo).

Definition createNoteForRepo (h : Host) (repo : StarredRepo) : M bool :=
  do s <- getSettings;
  let fileName := repoFileName s repo in
  do here <- adapterExists fileName;
  run tryCatch (writeRepoNote h s repo here)
        (fun error => consoleError (repoErrorMessage repo) error);
  ret (negb here).

Definition unsafeFileChar (c : ascii) : bool :=
  existsb (fun n => JS.code c =? n) [92; 47; 58; 42; 63; 34; 60; 62; 124].

Definition safePrTitle (pr : PullRequest) : string :=
  JS.substring0 50
    (JS.replaceSpaceRuns "_" false
       (JS.mapChars (fun c => if unsafeFileChar c then "-"%char else c) (pr_title pr))).

Definition repoOwner (pr : PullRequest) : string :=
  JS.fromEnd 2 (JS.split "/" (pr_repository_url pr)).

Definition repoName (pr : PullRequest) : string :=
  JS.fromEnd 1 (JS.split "/" (pr_repository_url pr)).

Definition prRepoDir (s : GitHubPluginSettings) (pr : PullRequest) : string :=
  orString (prDirectory s) (targetDirectory s) +:+ "/" +:+ repoOwner pr +:+ "/" +:+ repoName pr.

Definition prFileName (s : GitHubPluginSettings) (pr : PullRequest) : string :=
  prRepoDir s pr +:+ "/" +:+ JS.ofNat (pr_number pr) +:+ "_" +:+ safePrTitle pr +:+ ".md".

(** [pr.pull_request?.merged_at || pr.merged_at] *)
Definition mergedAt (pr : PullRequest) : option string :=
  match pr_pull_request pr with
  | Some m => if JS.truthy m then m else pr_merged_at pr
  | None => pr_merged_at pr
  end.

Definition prTagsList (pr : PullRequest) : list string :=
  ["type/github-pr"]
  ++ ["github/pr-state/" +:+ pr_state pr]
  ++ (if pr_draft pr then ["github/pr-draft"] else [])
  ++ (if JS.truthy (mergedAt pr) then ["github/pr-merged"] else [])
  ++ map (fun label => "github/pr-label/" +:+ JS.replaceSpaceRuns "-" false (JS.toLowerCase label))
         (match pr_labels pr with Some ls => ls | None => [] end).

Definition prFrontMatter (h : Host) (pr : PullRequest) : list (string * FMValue) :=
  let repoFullName := repoOwner pr +:+ "/" +:+ repoName pr in
  [ ("tags", FMList (prTagsList pr));
    ("title", FMString (JS.escapeQuotes (pr_title pr)));
    ("url", FMString (pr_html_url pr));
    ("repository", FMString repoFullName);
    ("repository_url", FMString ("https://github.com/" +:+ repoFullName));
    ("owner", FMString ("https://github.com/" +:+ repoOwner pr));
    ("pr_number", FMNumber (pr_number pr));
    ("state", FMString (pr_state pr));
    ("draft", FMBool (pr_draft pr));
    ("closed_at", FMString (JS.orElse (pr_closed_at pr) "Not closed"));
    ("merged_at", FMString (JS.orElse (mergedAt pr) "Not merged"));
    ("lastUpdated", FMString (toLocaleString h)) ].

Definition prErrorMessage (pr : PullRequest) : string :=
  "Error creating note for PR #" +:+ JS.ofNat (pr_number pr) +:+ ":".

(** The [try] block of [createNoteForPR]; [here] is its [exists]. *)
Definition writePRNote (h : Host) (s : GitHubPluginSettings) (pr : PullRequest)
    (here : bool) : M unit :=
  writeNote h (prFileName s pr) here (useDefaultTemplatePR s)
    (renderTemplate h (handlebarsPR h) (useDefaultTemplatePR s)
       (templatePathPR s) ("# {{ title }}" +:+ nl +:+ nl) pr)
    (prFrontMatter h pr).

Definition createNoteForPR (h : Host) (pr : PullRequest) : M bool :=
  do s <- getSettings;
  let fileName := prFileName s pr in
  run ensureDirectoryExists h (prRepoDir s pr);
  do here <- adapterExists fileName;
  run tryCatch (writePRNote h s pr here)
        (fun error => consoleError (prErrorMessage pr) error);
  ret (negb here).

(** *** The synchronisation driver

    [fetchStars] and [fetchPullRequests] run the same page loop, over
    different listings and materializers. *)

Section Driver.

Context {Item : Type}.
Variable getPage : list (Result (list Item)) -> nat -> M (list Item * bool).
Variable createNote : Item -> M bool.
Variable itemName : Item -> string.
Variable fetchedNotice : nat -> string.
Variable firstFetch : bool.

(** The [for ... of] loop over one page. Returns [continueFetch] and the
    running count. *)
Fixpoint itemLoop (items : list Item) (count : nat) : M (bool * nat) :=
  match items with
  | [] => ret (true, count)
  | item :: rest =>
      do created <- createNote item;
      run emit (EvCreated (itemName item) created);
      if negb firstFetch && negb created then ret (false, count)
      else itemLoop rest (S count)
  end.

(** One turn of the [while] loop on the page being requested. Returns
    whether the loop goes round again, and the running count. *)
Definition pageStep (listing : list (Result (list Item))) (page count : nat)
  : M (bool * nat) :=
  do '(items, hasMore) <- getPage listing page;
  do '(continueFetch, count') <- itemLoop items count;
  run (if negb (count' =? 0) then Notice (fetchedNotice count') else ret tt);
  if negb hasMore then ret (false, count')
  else ret (firstFetch || continueFetch, count').

(** The [while (firstFetch || continueFetch)] loop; it is entered with
    [continueFetch] true. *)
Fixpoint pageLoop (listing : list (Result (list Item))) (page count : nat) : M nat :=
  do '(again, count') <- pageStep listing page count;
  match listing with
  | [] => ret count'
  | _ :: rest => if again then pageLoop rest (S page) count' else ret count'
  end.

End Driver.

Definition withLastFetchDate (s : GitHubPluginSettings) (d : string) : GitHubPluginSettings :=
  {| apiToken := apiToken s; username := username s;
     targetDirectory := targetDirectory s; lastFetchDate := d;
     syncEnabled := syncEnabled s; syncPullRequests := syncPullRequests s;
     lastPRFetchDate := lastPRFetchDate s; prDirectory := prDirectory s;
     useDefaultTemplateStar := useDefaultTemplateStar s;
     templatePathStar := templatePathStar s;
     useDefaultTemplatePR := useDefaultTemplatePR s;
     templatePathPR := templatePathPR s |}.

Definition withLastPRFetchDate (s : GitHubPluginSettings) (d : string) : GitHubPluginSettings :=
  {| apiToken := apiToken s; username := username s;
     targetDirectory := targetDirectory s; lastFetchDate := lastFetchDate s;
     syncEnabled := syncEnabled s; syncPullRequests := syncPullRequests s;
     lastPRFetchDate := d; prDirectory := prDirectory s;
     useDefaultTemplateStar := useDefaultTemplateStar s;
     templatePathStar := templatePathStar s;
     useDefaultTemplatePR := useDefaultTemplatePR s;
     templatePathPR := templatePathPR s |}.

Definition starsLoop (h : Host) (firstFetch : bool) : M nat :=
  pageLoop getStarredRepos (createNoteForRepo h) full_name
    (fun n => "Fetched " +:+ JS.ofNat n +:+ " GitHub stars") firstFetch
    (starredPages h) 1 0.

(** The name under which a pull request appears in [EvCreated]. *)
Definition prItemName (pr : PullRequest) : string :=
  pr_repository_url pr +:+ "#" +:+ JS.ofNat (pr_number pr).

Definition prsLoop (h : Host) (firstFetch : bool) : M nat :=
  pageLoop getPullRequests (createNoteForPR h) prItemName
    (fun n => "Fetched " +:+ JS.ofNat n +:+ " pull requests") firstFetch
    (pullRequestPages h) 1 0.

Definition fetchStars (h : Host) : M unit :=
  do s <- getSettings;
  if negb (syncEnabled s) then
    Notice "Sync is disabled. Enable it in settings to fetch stars."
  else
    do valid <- settingsAreValid;
    if negb valid then
      Notice "Please set both GitHub username and target directory in settings."
    else
      tryCatch
        (run ensureTargetDirectoryExists h;
         do s <- getSettings;
         let firstFetch := String.eqb (lastFetchDate s) "" in
         do reposCount <- starsLoop h firstFetch;
         do s <- getSettings;
         run setSettings (withLastFetchDate s (toISOString h));
         run saveSettings h;
         if negb (reposCount =? 0)
         then Notice ("Total " +:+ JS.ofNat reposCount +:+ " GitHub stars")
         else ret tt)
        (fun error =>
           run consoleError "Error fetching GitHub stars:" error;
           Notice ("Error fetching GitHub stars: " +:+ error)).

Definition fetchPullRequests (h : Host) : M unit :=
  do s <- getSettings;
  if negb (syncEnabled s) then
    Notice "Sync is disabled. Enable it in settings to fetch pull requests."
  else
    do valid <- settingsAreValid;
    if negb valid then
      Notice "Please set both GitHub username and target directory in settings."
    else
      tryCatch
        (run ensurePRDirectoryExists h;
         do s <- getSettings;
         let firstFetch := String.eqb (lastPRFetchDate s) "" in
         do prsCount <- prsLoop h firstFetch;
         do s <- getSettings;
         run setSettings (withLastPRFetchDate s (toISOString h));
         run saveSettings h;
         if negb (prsCount =? 0)
         then Notice ("Total " +:+ JS.ofNat prsCount +:+ " pull requests")
         else ret tt)
        (fun error =>
           run consoleError "Error fetching pull requests:" error;
           Notice ("Error fetching pull requests: " +:+ error)).

(** The command [github-fetch-stars-force] (and the settings button). *)
Definition fetchStarsForce (h : Host) : M unit :=
  do s <- getSettings;
  run setSettings (withLastFetchDate s "");
  run saveSettings h;
  fetchStars h.

(** The command [github-fetch-prs-force] (and the settings button). *)
Definition fetchPullRequestsForce (h : Host) : M unit :=
  do s <- getSettings;
  run setSettings (withLastPRFetchDate s "");
  run saveSettings h;
  fetchPullRequests h.

(** ** Start-up: settings on disk and the background sync *)

(** What [loadData] returns: the object last written to [data.json], in
    which any key may be missing (no file at all: every key is). *)
Record LoadedData := {
  ld_apiToken : option string;
  ld_username : option string;
  ld_targetDirectory : option string;
  ld_lastFetchDate : option string;
  ld_syncEnabled : option bool;
  ld_syncPullRequests : option bool;
  ld_lastPRFetchDate : option string;
  ld_prDirectory : option string;
  ld_useDefaultTemplateStar : option bool;
  ld_templatePathStar : option string;
  ld_useDefaultTemplatePR : option bool;
  ld_templatePathPR : option string
}.

(** One key of [Object.assign(target, source)]. *)
Definition assignKey {A} (target : A) (source : option A) : A :=
  match source with
  | Some v => v
  | None => target
  end.

(** [loadSettings]: [Object.assign({}, DEFAULT_SETTINGS, await this.loadData())]. *)
Definition loadSettings (loaded : LoadedData) : GitHubPluginSettings := {|
  apiToken := assignKey (apiToken DEFAULT_SETTINGS) (ld_apiToken loaded);
  username := assignKey (username DEFAULT_SETTINGS) (ld_username loaded);
  targetDirectory := assignKey (targetDirectory DEFAULT_SETTINGS) (ld_targetDirectory loaded);
  lastFetchDate := assignKey (lastFetchDate DEFAULT_SETTINGS) (ld_lastFetchDate loaded);
  syncEnabled := assignKey (syncEnabled DEFAULT_SETTINGS) (ld_syncEnabled loaded);
  syncPullRequests := assignKey (syncPullRequests DEFAULT_SETTINGS) (ld_syncPullRequests loaded);
  lastPRFetchDate := assignKey (lastPRFetchDate DEFAULT_SETTINGS) (ld_lastPRFetchDate loaded);
  prDirectory := assignKey (prDirectory DEFAULT_SETTINGS) (ld_prDirectory loaded);
  useDefaultTemplateStar :=
    assignKey (useDefaultTemplateStar DEFAULT_SETTINGS) (ld_useDefaultTemplateStar loaded);
  templatePathStar := assignKey (templatePathStar DEFAULT_SETTINGS) (ld_templatePathStar loaded);
  useDefaultTemplatePR :=
    assignKey (useDefaultTemplatePR DEFAULT_SETTINGS) (ld_useDefaultTemplatePR loaded);
  templatePathPR := assignKey (templatePathPR DEFAULT_SETTINGS) (ld_templatePathPR loaded)
|}.

(** The object the first version of the plugin wrote: three keys. *)
Definition firstVersionData (token user dir : string) : LoadedData := {|
  ld_apiToken := Some token;
  ld_username := Some user;
  ld_targetDirectory := Some dir;
  ld_lastFetchDate := None;
  ld_syncEnabled := None;
  ld_syncPullRequests := None;
  ld_lastPRFetchDate := None;
  ld_prDirectory := None;
  ld_useDefaultTemplateStar := None;
  ld_templatePathStar := None;
  ld_useDefaultTemplatePR := None;
  ld_templatePathPR := None
|}.

(** The timer callback of [onload], behind its guard
    [this.settings.syncEnabled && this.settingsAreValid()]. *)
Definition backgroundSync (h : Host) : M unit :=
  do s <- getSettings;
  do settingsValid <- settingsAreValid;
  if syncEnabled s && settingsValid then
    tryCatch
      (run fetchStars h;
       do s <- getSettings;
       if syncPullRequests s then fetchPullRequests h else ret tt)
      (fun error => consoleError "Background sync failed:" error)
  else ret tt.

(** [parts.join('/')] *)
Fixpoint joinPath (parts : list string) : string :=
  match parts with
  | [] => EmptyString
  | [p] => p
  | p :: rest => p +:+ "/" +:+ joinPath rest
  end.

Definition isSlash (c : ascii) : bool := JS.code c =? 47.

Definition isDigit (c : ascii) : bool := JS.between 48 57 c.

(** A string of decimal digits. *)
Definition digits (s : string) : bool := forallb isDigit (list_ascii_of_string s).

(** The keys of a star note whose value is read from the clock or computed
    through the local time zone at every call. *)
Definition stampKeys : list string := ["created"; "modified"; "lastUpdated"].

(** The keys a metadata callback assigns. *)
Definition keysOf (fields : list (string * FMValue)) : list string := map fst fields.

(** A world keeps what another holds: every entry is still there, a file
    with the same body, a folder as a folder. *)
Definition keeps (w w' : World) : Prop :=
  forall p,
    (forall n, vault w !! p = Some (TFile n) ->
               exists n', vault w' !! p = Some (TFile n') /\ body n' = body n) /\
    (vault w !! p = Some TFolder -> vault w' !! p = Some TFolder).

(** ** The two halves of a run *)

Definition valid (s : GitHubPluginSettings) : bool :=
  syncEnabled s && nonEmpty (username s) && nonEmpty (targetDirectory s).

(** The part of [fetchStars]'s [try] block up to the end of the page loop,
    and the same for [fetchPullRequests]. *)
Definition starsPhase (h : Host) : M nat :=
  run ensureTargetDirectoryExists h;
  do s <- getSettings;
  starsLoop h (String.eqb (lastFetchDate s) "").

Definition prsPhase (h : Host) : M nat :=
  run ensurePRDirectoryExists h;
  do s <- getSettings;
  prsLoop h (String.eqb (lastPRFetchDate s) "").

(** What [fetchStars] makes of the outcome of its page loop: the watermark
    is set and then saved when the loop returned, the error is logged and
    shown when it threw, and also when the saving did. *)
Definition finishStars (h : Host) (o : Result nat * World * list Event)
  : Result unit * World * list Event :=
  match o with
  | (Ok reposCount, w1, t1) =>
      let s := withLastFetchDate (settings w1) (toISOString h) in
      if saveDataFails h s then
        (Ok tt, {| settings := s; data := data w1; vault := vault w1 |},
         t1 ++ [EvConsoleError "Error fetching GitHub stars:" saveDataError;
                EvNotice ("Error fetching GitHub stars: " +:+ saveDataError)])
      else
        (Ok tt, {| settings := s; data := s; vault := vault w1 |},
         t1 ++ EvSaveData s ::
           (if negb (reposCount =? 0)
            then [EvNotice ("Total " +:+ JS.ofNat reposCount +:+ " GitHub stars")]
            else []))
  | (Throw e, w1, t1) =>
      (Ok tt, w1,
       t1 ++ [EvConsoleError "Error fetching GitHub stars:" e;
              EvNotice ("Error fetching GitHub stars: " +:+ e)])
  end.

Definition finishPRs (h : Host) (o : Result nat * World * list Event)
  : Result unit * World * list Event :=
  match o with
  | (Ok prsCount, w1, t1) =>
      let s := withLastPRFetchDate (settings w1) (toISOString h) in
      if saveDataFails h s then
        (Ok tt, {| settings := s; data := data w1; vault := vault w1 |},
         t1 ++ [EvConsoleError "Error fetching pull requests:" saveDataError;
                EvNotice ("Error fetching pull requests: " +:+ saveDataError)])
      else
        (Ok tt, {| settings := s; data := s; vault := vault w1 |},
         t1 ++ EvSaveData s ::
           (if negb (prsCount =? 0)
            then [EvNotice ("Total " +:+ JS.ofNat prsCount +:+ " pull requests")]
            else []))
  | (Throw e, w1, t1) =>
      (Ok tt, w1,
       t1 ++ [EvConsoleError "Error fetching pull requests:" e;
              EvNotice ("Error fetching pull requests: " +:+ e)])
  end.

(** The world the forced commands hand to the fetch: the watermark of the
    stars cleared, in memory and on disk. *)
Definition clearedStars (w : World) : World :=
  {| settings := withLastFetchDate (settings w) "";
     data := withLastFetchDate (settings w) "";
     vault := vault w |}.

(** The same for the watermark of the pull requests. *)
Definition clearedPRs (w : World) : World :=
  {| settings := withLastPRFetchDate (settings w) "";
     data := withLastPRFetchDate (settings w) "";
     vault := vault w |}.

(** ** Observations on worlds and traces *)

Definition present (w : World) (path : string) : bool :=
  match vault w !! path with
  | Some _ => true
  | None => false
  end.

(** [w] with the entry at [path] replaced. *)
Definition setEntry (w : World) (path : string) (e : Entry) : World :=
  {| settings := settings w; data := data w; vault := <[path := e]> (vault w) |}.

(** The note [processFrontMatter] leaves when it sets [fields] on [n]. *)
Definition withFields (fields : list (string * FMValue)) (n : Note) : Note :=
  {| frontmatter := setFields fields (frontmatter n); body := body n |}.

Definition lookupField (k : string) (fm : list (string * FMValue)) : option FMValue :=
  match List.find (fun kv => String.eqb k (fst kv)) fm with
  | Some kv => Some (snd kv)
  | None => None
  end.

(** Events after which nothing was fetched or written: notices, the
    console and the saving of the settings. *)
Definition quiet (e : Event) : bool :=
  match e with
  | EvNotice _ | EvConsoleError _ _ | EvSaveData _ => true
  | _ => false
  end.

(** Events a materializer may emit. *)
Definition vaultEvent (e : Event) : bool :=
  match e with
  | EvNotice _ | EvConsoleError _ _ | EvCreateFolder _ | EvCreate _ | EvFrontMatter _ => true
  | _ => false
  end.

(** Events of the page loops: everything but the saving of the settings. *)
Definition loopEvent (e : Event) : bool :=
  match e with
  | EvSaveData _ => false
  | _ => true
  end.

Definition folderEvent (e : Event) : bool :=
  match e with
  | EvCreateFolder _ => true
  | _ => false
  end.

Definition isNotice (e : Event) : bool :=
  match e with
  | EvNotice _ => true
  | _ => false
  end.

Definition isStop (e : Event) : bool :=
  match e with
  | EvCreated _ false => true
  | _ => false
  end.

(** The event of the request for [page] made in world [w]. *)
Definition requestEvent (ep : Endpoint) (w : World) (page : nat) : Event :=
  EvRequest ep (username (settings w)) page (nonEmpty (apiToken (settings w))).

Definition isRequest (e : Event) : bool :=
  match e with
  | EvRequest _ _ _ _ => true
  | _ => false
  end.

(** An event that, when it is a request, goes to [ep] for the user of the
    settings [s], with the token when and only when [s] has one. *)
Definition requestOf (ep : Endpoint) (s : GitHubPluginSettings) (e : Event) : Prop :=
  match e with
  | EvRequest ep' user _ authorized =>
      ep' = ep /\ user = username s /\ authorized = nonEmpty (apiToken s)
  | _ => True
  end.

(** The notice a page loop shows after a page. *)
Definition fetchedEvents (fetchedNotice : nat -> string) (count : nat) : list Event :=
  if count =? 0 then [] else [EvNotice (fetchedNotice count)].

Fixpoint requestedPages (t : list Event) : list nat :=
  match t with
  | [] => []
  | EvRequest _ _ page _ :: r => page :: requestedPages r
  | _ :: r => requestedPages r
  end.

Fixpoint materialized (t : list Event) : list string :=
  match t with
  | [] => []
  | EvCreated item _ :: r => item :: materialized r
  | _ :: r => materialized r
  end.

Fixpoint createdFiles (t : list Event) : list string :=
  match t with
  | [] => []
  | EvCreate path :: r => path :: createdFiles r
  | _ :: r => createdFiles r
  end.

Fixpoint consoleErrors (t : list Event) : list string :=
  match t with
  | [] => []
  | EvConsoleError _ e :: r => e :: consoleErrors r
  | _ :: r => consoleErrors r
  end.

Definition noStop (t : list Event) : bool := forallb (fun e => negb (isStop e)) t.

(** In a trace, nothing but quiet events follows an item that a driver loop
    saw as already existing. *)
Definition quietAfterStop (t : list Event) : Prop :=
  forall t1 item t2,
    t = t1 ++ EvCreated item false :: t2 -> Forall (fun e => quiet e = true) t2.

Fixpoint quietAfterStopb (t : list Event) : bool :=
  match t with
  | [] => true
  | e :: r => if isStop e then forallb quiet r else quietAfterStopb r
  end.

(** The pages a full backfill asks for: every page up to and including the
    first one that is not full or fails; the empty page past the end of the
    listing when every page is full. *)
Fixpoint pagesFetched {Item} (listing : list (Result (list Item))) : list (Result (list Item)) :=
  match listing with
  | [] => [Ok []]
  | Ok items :: rest =>
      if length items =? perPage then Ok items :: pagesFetched rest else [Ok items]
  | Throw e :: _ => [Throw e]
  end.

Fixpoint itemsOf {Item} (pages : list (Result (list Item))) : list Item :=
  match pages with
  | [] => []
  | Ok items :: rest => items ++ itemsOf rest
  | Throw _ :: rest => itemsOf rest
  end.

(** The remote honours [per_page]: no page holds more than [perPage] items. *)
Definition honoursPerPage {Item} (listing : list (Result (list Item))) : Prop :=
  forall items, In (Ok items) listing -> length items <= perPage.

(** The paths [ensureDirs] visits, in order. *)
Fixpoint dirPaths (currentPath : string) (dirs : list string) : list string :=
  match dirs with
  | [] => []
  | dir :: rest =>
      let currentPath' :=
        if nonEmpty currentPath then currentPath +:+ "/" +:+ dir else dir in
      currentPath' :: dirPaths currentPath' rest
  end.

Definition dirsOf (dirPath : string) : list string :=
  dirPaths "" (List.filter JS.trimTruthy (JS.split "/" dirPath)).

(** Total length of the parts of a path, each counted with its separator. *)
Definition partsLength (parts : list string) : nat :=
  list_sum (map (fun p => S (String.length p)) parts).

Definition allSupported (tag : string) : bool :=
  forallb supported (list_ascii_of_string tag).


Definition noneOf (f : ascii -> bool) (s : string) : bool :=
  forallb (fun c => negb (f c)) (list_ascii_of_string s).

(** [w'] is [w] after materializer calls only: the settings are the same,
    what was a file is still a file with the same body, what was a folder is
    still a folder. *)
Definition evolves (w w' : World) : Prop :=
  settings w' = settings w /\ data w' = data w /\
  forall p,
    (forall n, vault w !! p = Some (TFile n) ->
               exists n', vault w' !! p = Some (TFile n') /\ body n' = body n) /\
    (vault w !! p = Some TFolder -> vault w' !! p = Some TFolder).

(** A method that only evolves the world, only emits events in [P], and
    leaves no file that was not there before or created by it. *)
Definition Safe {A} (P : Event -> bool) (m : M A) : Prop :=
  forall w,
    evolves w (world (m w)) /\
    Forall (fun e => P e = true) (trace (m w)) /\
    forall p n, vault (world (m w)) !! p = Some (TFile n) ->
                (exists n0, vault w !! p = Some (TFile n0)) \/
                In p (createdFiles (trace (m w))).

(** A computation that reads the world and at most shows notices. *)
Definition ReadOnly {A} (m : M A) : Prop :=
  forall w, world (m w) = w /\ Forall (fun e => isNotice e = true) (trace (m w)).

(** ** Hosts, vaults and records for the examples *)

Definition demoHost (stars : list (Result (list StarredRepo)))
    (prs : list (Result (list PullRequest))) : Host := {|
  starredPages := stars;
  pullRequestPages := prs;
  handlebarsStar := fun _ repo => Ok ("# " +:+ name repo +:+ nl +:+ nl);
  handlebarsPR := fun _ pr => Ok ("# " +:+ pr_title pr +:+ nl +:+ nl);
  noteOfText := fun text => {| frontmatter := []; body := text |};
  textOfNote := body;
  createFails := fun _ => false;
  createFolderFails := fun _ => false;
  processFrontMatterFails := fun _ => false;
  saveDataFails := fun _ => false;
  toISOString := "2025-01-02T03:04:05.000Z";
  toLocaleString := "1/2/2025, 3:04:05 AM";
  localDate := JS.substring0 10;
  today := "2025-01-02"
|}.

(** A host whose metadata writer rejects every file, as Obsidian does for a
    note whose metadata block is not valid YAML. *)
Definition brokenYamlHost (stars : list (Result (list StarredRepo)))
    (prs : list (Result (list PullRequest))) : Host := {|
  starredPages := stars;
  pullRequestPages := prs;
  handlebarsStar := handlebarsStar (demoHost stars prs);
  handlebarsPR := handlebarsPR (demoHost stars prs);
  noteOfText := noteOfText (demoHost stars prs);
  textOfNote := textOfNote (demoHost stars prs);
  createFails := fun _ => false;
  createFolderFails := fun _ => false;
  processFrontMatterFails := fun _ => true;
  saveDataFails := fun _ => false;
  toISOString := toISOString (demoHost stars prs);
  toLocaleString := toLocaleString (demoHost stars prs);
  localDate := localDate (demoHost stars prs);
  today := today (demoHost stars prs)
|}.

(** The host of the examples a day later. *)
Definition nextDayHost (stars : list (Result (list StarredRepo)))
    (prs : list (Result (list PullRequest))) : Host := {|
  starredPages := stars;
  pullRequestPages := prs;
  handlebarsStar := handlebarsStar (demoHost stars prs);
  handlebarsPR := handlebarsPR (demoHost stars prs);
  noteOfText := noteOfText (demoHost stars prs);
  textOfNote := textOfNote (demoHost stars prs);
  createFails := fun _ => false;
  createFolderFails := fun _ => false;
  processFrontMatterFails := fun _ => false;
  saveDataFails := fun _ => false;
  toISOString := "2025-01-03T08:00:00.000Z";
  toLocaleString := "1/3/2025, 8:00:00 AM";
  localDate := localDate (demoHost stars prs);
  today := "2025-01-03"
|}.

(** A host on which [saveData] rejects: a vault whose [data.json] cannot be
    written. *)
Definition unsavedHost (stars : list (Result (list StarredRepo)))
    (prs : list (Result (list PullRequest))) : Host := {|
  starredPages := stars;
  pullRequestPages := prs;
  handlebarsStar := handlebarsStar (demoHost stars prs);
  handlebarsPR := handlebarsPR (demoHost stars prs);
  noteOfText := noteOfText (demoHost stars prs);
  textOfNote := textOfNote (demoHost stars prs);
  createFails := fun _ => false;
  createFolderFails := fun _ => false;
  processFrontMatterFails := fun _ => false;
  saveDataFails := fun _ => true;
  toISOString := toISOString (demoHost stars prs);
  toLocaleString := toLocaleString (demoHost stars prs);
  localDate := localDate (demoHost stars prs);
  today := today (demoHost stars prs)
|}.

Definition mkRepo (o n : string) (lang : option string) (ts : list string) : StarredRepo := {|
  name := n;
  full_name := o +:+ "/" +:+ n;
  html_url := "https://github.com/" +:+ o +:+ "/" +:+ n;
  description := None;
  created_at := "2024-05-06T07:08:09Z";
  updated_at := "2024-06-06T07:08:09Z";
  language := lang;
  stargazers_count := 7;
  topics := Some ts;
  owner := {| login := o; avatar_url := "" |}
|}.

Definition mkPR (o n : string) (num : nat) (title state : string) (labels : list string)
  : PullRequest := {|
  pr_id := num;
  pr_number := num;
  pr_title := title;
  pr_html_url := "https://github.com/" +:+ o +:+ "/" +:+ n +:+ "/pull/" +:+ JS.ofNat num;
  pr_state := state;
  pr_created_at := "2024-05-06T07:08:09Z";
  pr_updated_at := "2024-06-06T07:08:09Z";
  pr_closed_at := None;
  pr_merged_at := None;
  pr_draft := false;
  pr_pull_request := Some None;
  pr_repository_url := "https://api.github.com/repos/" +:+ o +:+ "/" +:+ n;
  pr_labels := Some labels
|}.

Definition aliceSettings (watermark : string) : GitHubPluginSettings := {|
  apiToken := "";
  username := "alice";
  targetDirectory := "GitHub/Stars";
  lastFetchDate := watermark;
  syncEnabled := true;
  syncPullRequests := true;
  lastPRFetchDate := watermark;
  prDirectory := "";
  useDefaultTemplateStar := true;
  templatePathStar := "";
  useDefaultTemplatePR := true;
  templatePathPR := ""
|}.

Definition aliceWorld (watermark : string) (v : gmap string Entry) : World :=
  {| settings := aliceSettings watermark; data := aliceSettings watermark; vault := v |}.

(** The plugin as installed: default settings, nothing saved, empty vault. *)
Definition freshWorld : World :=
  {| settings := DEFAULT_SETTINGS; data := DEFAULT_SETTINGS; vault := ∅ |}.

Definition lastWeek : string := "2024-12-26T03:04:05.000Z".

Definition threeRepos : list StarredRepo :=
  [ mkRepo "rust-lang" "rust" (Some "Rust") ["compiler"];
    mkRepo "rocq-prover" "rocq" (Some "OCaml") ["proof assistant"];
    mkRepo "torvalds" "linux" (Some "C") [] ].

Definition rustRepo : StarredRepo := mkRepo "rust-lang" "rust" (Some "Rust") ["compiler"].

Definition editedNote : Note := {| frontmatter := []; body := "my own notes" |}.

(** A vault in which the note of [rustRepo] is already there. *)
Definition rustVault : gmap string Entry :=
  <["GitHub/Stars/rust-lang-rust.md" := TFile editedNote]>
    (<["GitHub/Stars" := TFolder]> (<["GitHub" := TFolder]> ∅)).

Definition rustWorld : World := aliceWorld lastWeek rustVault.

(** A vault in which the note of the second of [threeRepos] is there. *)
Definition rocqVault : gmap string Entry :=
  <["GitHub/Stars/rocq-prover-rocq.md" := TFile editedNote]>
    (<["GitHub/Stars" := TFolder]> (<["GitHub" := TFolder]> ∅)).

Definition rocqWorld : World := aliceWorld lastWeek rocqVault.

Definition toolPR : PullRequest :=
  mkPR "alice" "tool" 12 "Fix: the <thing>  now" "OPEN" ["Bug Fix!"].

(** A page of [perPage] repositories, and a remote that is rate limited
    after it. *)
Definition fullPage : list StarredRepo :=
  map (fun i => mkRepo "octo" ("repo" +:+ JS.ofNat i) None []) (seq 0 perPage).

Definition twoPages : list (Result (list StarredRepo)) := [Ok fullPage; Ok threeRepos].

Definition rateLimited : string := "Request failed, status 403".

(** Alice with a template of her own for the stars. *)
Definition templateWorld (path : string) (v : gmap string Entry) : World :=
  {| settings :=
       {| apiToken := ""; username := "alice"; targetDirectory := "GitHub/Stars";
          lastFetchDate := lastWeek; syncEnabled := true; syncPullRequests := true;
          lastPRFetchDate := lastWeek; prDirectory := "";
          useDefaultTemplateStar := false; templatePathStar := path;
          useDefaultTemplatePR := true; templatePathPR := "" |};
     data := aliceSettings lastWeek;
     vault := v |}.

Definition starTemplate : Note := {| frontmatter := []; body := "Starred: {{ name }}" |}.

(** * Properties *)

(** ** The string primitives on examples *)

Example normalizeTag_cpp : normalizeTag "C++" = "c__".
Proof. reflexivity. Qed.

Example normalizeTag_topic :
  normalizeTag "Machine Learning/v2-x" = "machine_learning/v2-x".
Proof. reflexivity. Qed.

Example split_repository_url :
  JS.split "/" "https://api.github.com/repos/alice/tool"
  = ["https:"; EmptyString; "api.github.com"; "repos"; "alice"; "tool"].
Proof. reflexivity. Qed.

Example fromEnd_short : JS.fromEnd 2 (JS.split "/" "tool") = "undefined".
Proof. reflexivity. Qed.

Example replaceFirst_once : JS.replaceFirst "/" "-" "a/b/c" = "a-b/c".
Proof. reflexivity. Qed.

Example prFileName_toolPR :
  prFileName (aliceSettings EmptyString) toolPR
  = "GitHub/Stars/alice/tool/12_Fix-_the_-thing-_now.md".
Proof. vm_compute. reflexivity. Qed.

Example dirsOf_nested : dirsOf "GitHub//Stars/ /x" = ["GitHub"; "GitHub/Stars"; "GitHub/Stars/x"].
Proof. reflexivity. Qed.

(** ** The monad *)

Lemma trace_of {A} (r : Result A) w t : trace (r, w, t) = t.
Proof. reflexivity. Qed.

Lemma world_of {A} (r : Result A) w t : world (r, w, t) = w.
Proof. reflexivity. Qed.

Lemma tryCatch_Throw {A} (m : M A) handler w e w1 t1 :
  m w = (Throw e, w1, t1) ->
  tryCatch m handler w
  = (result (handler e w1), world (handler e w1), t1 ++ trace (handler e w1)).
Proof.
  intros H. unfold tryCatch, result, world, trace. rewrite H.
  destruct (handler e w1) as [[r w2] t2]. reflexivity.
Qed.

(** ** Worlds that evolve *)

Lemma evolves_refl w : evolves w w.
Proof.
  repeat split; try reflexivity.
  - intros n H. exists n. split; [exact H | reflexivity].
  - intros H. exact H.
Qed.

Lemma evolves_trans w1 w2 w3 : evolves w1 w2 -> evolves w2 w3 -> evolves w1 w3.
Proof.
  intros (Hs1 & Hd1 & Hv1) (Hs2 & Hd2 & Hv2).
  split; [congruence|]. split; [congruence|].
  intros p. split.
  - intros n Hn. destruct (proj1 (Hv1 p) n Hn) as (n1 & Hn1 & Hb1).
    destruct (proj1 (Hv2 p) n1 Hn1) as (n2 & Hn2 & Hb2).
    exists n2. split; [exact Hn2 | congruence].
  - intros Hf. apply (proj2 (Hv2 p)), (proj2 (Hv1 p)), Hf.
Qed.

Lemma evolves_present w w' p : evolves w w' -> present w p = true -> present w' p = true.
Proof.
  intros (_ & _ & Hv). unfold present.
  destruct (vault w !! p) as [[n|]|] eqn:E; [| |discriminate]; intros _.
  - destruct (proj1 (Hv p) n E) as (n' & -> & _). reflexivity.
  - rewrite (proj2 (Hv p) E). reflexivity.
Qed.

(** Adding an entry at a free path evolves the world. *)
Lemma evolves_insert_fresh w p e :
  vault w !! p = None ->
  evolves w {| settings := settings w; data := data w; vault := <[p := e]> (vault w) |}.
Proof.
  intros Hfree. repeat split; simpl.
  - intros n Hn. destruct (decide (p = p0)) as [->|Hne]; [congruence|].
    exists n. rewrite lookup_insert_ne by exact Hne. split; [exact Hn | reflexivity].
  - intros Hf. destruct (decide (p = p0)) as [->|Hne]; [congruence|].
    rewrite lookup_insert_ne by exact Hne. exact Hf.
Qed.

(** Rewriting the metadata block of a file evolves the world. *)
Lemma evolves_frontmatter w p n fm :
  vault w !! p = Some (TFile n) ->
  evolves w {| settings := settings w; data := data w;
               vault := <[p := TFile {| frontmatter := fm; body := body n |}]> (vault w) |}.
Proof.
  intros Hfile. repeat split; simpl.
  - intros n0 Hn. destruct (decide (p = p0)) as [->|Hne].
    + rewrite lookup_insert_eq. eexists. split; [reflexivity|]. simpl. congruence.
    + exists n0. rewrite lookup_insert_ne by exact Hne. split; [exact Hn | reflexivity].
  - intros Hf. destruct (decide (p = p0)) as [->|Hne]; [congruence|].
    rewrite lookup_insert_ne by exact Hne. exact Hf.
Qed.

Lemma consoleErrors_app t1 t2 : consoleErrors (t1 ++ t2) = consoleErrors t1 ++ consoleErrors t2.
Proof.
  induction t1 as [|e t1 IH]; [reflexivity|].
  destruct e; simpl; rewrite ?IH; reflexivity.
Qed.

Lemma createdFiles_app t1 t2 : createdFiles (t1 ++ t2) = createdFiles t1 ++ createdFiles t2.
Proof.
  induction t1 as [|e t1 IH]; [reflexivity|].
  destruct e; simpl; rewrite ?IH; reflexivity.
Qed.

(** ** Safe methods *)

Section SafeRules.

Variable P : Event -> bool.

(** A method that leaves the world as it is and emits nothing. *)
Lemma Safe_silent {A} (m : M A) :
  (forall w, world (m w) = w /\ trace (m w) = []) -> Safe P m.
Proof.
  intros H w. destruct (H w) as [-> ->]. split; [apply evolves_refl|].
  split; [constructor|]. intros p n Hn. left. exists n. exact Hn.
Qed.

Lemma Safe_ret {A} (a : A) : Safe P (ret a).
Proof. apply Safe_silent. intros w. split; reflexivity. Qed.

Lemma Safe_throw {A} e : Safe P (@throw A e).
Proof. apply Safe_silent. intros w. split; reflexivity. Qed.

Lemma Safe_liftResult {A} (r : Result A) : Safe P (liftResult r).
Proof. apply Safe_silent. intros w. split; reflexivity. Qed.

Lemma Safe_getSettings : Safe P getSettings.
Proof. apply Safe_silent. intros w. split; reflexivity. Qed.

Lemma Safe_getVault : Safe P getVault.
Proof. apply Safe_silent. intros w. split; reflexivity. Qed.

Lemma Safe_emit e : P e = true -> Safe P (emit e).
Proof.
  intros H w. split; [apply evolves_refl|]. split; [repeat constructor; exact H|].
  intros p n Hn. left. exists n. exact Hn.
Qed.

Lemma Safe_bind {A B} (m : M A) (k : A -> M B) :
  Safe P m -> (forall a, Safe P (k a)) -> Safe P (bind m k).
Proof.
  intros Hm Hk w. specialize (Hm w). unfold bind.
  destruct (m w) as [[[a|e] w1] t1]; simpl in *.
  - specialize (Hk a w1). destruct (k a w1) as [[r w2] t2]; simpl in *.
    destruct Hm as (Hm1 & Hm2 & Hm3), Hk as (Hk1 & Hk2 & Hk3). split; [|split].
    + eapply evolves_trans; eassumption.
    + apply Forall_app; split; assumption.
    + intros p n Hn. rewrite createdFiles_app.
      destruct (Hk3 p n Hn) as [[n1 Hn1]|Hin]; [|right; apply in_or_app; right; exact Hin].
      destruct (Hm3 p n1 Hn1) as [Hold|Hin]; [left; exact Hold|].
      right. apply in_or_app. left. exact Hin.
  - exact Hm.
Qed.

Lemma Safe_tryCatch {A} (m : M A) handler :
  Safe P m -> (forall e, Safe P (handler e)) -> Safe P (tryCatch m handler).
Proof.
  intros Hm Hk w. specialize (Hm w). unfold tryCatch.
  destruct (m w) as [[[a|e] w1] t1]; simpl in *.
  - exact Hm.
  - specialize (Hk e w1). destruct (handler e w1) as [[r w2] t2]; simpl in *.
    destruct Hm as (Hm1 & Hm2 & Hm3), Hk as (Hk1 & Hk2 & Hk3). split; [|split].
    + eapply evolves_trans; eassumption.
    + apply Forall_app; split; assumption.
    + intros p n Hn. rewrite createdFiles_app.
      destruct (Hk3 p n Hn) as [[n1 Hn1]|Hin]; [|right; apply in_or_app; right; exact Hin].
      destruct (Hm3 p n1 Hn1) as [Hold|Hin]; [left; exact Hold|].
      right. apply in_or_app. left. exact Hin.
Qed.

Lemma Safe_if {A} (b : bool) (m1 m2 : M A) :
  Safe P m1 -> Safe P m2 -> Safe P (if b then m1 else m2).
Proof. destruct b; auto. Qed.

Lemma Safe_adapterExists path : Safe P (adapterExists path).
Proof. apply Safe_silent. intros w. split; reflexivity. Qed.

Lemma Safe_getAbstractFileByPath path : Safe P (getAbstractFileByPath path).
Proof. apply Safe_silent. intros w. split; reflexivity. Qed.

Lemma Safe_adapterRead h path : Safe P (adapterRead h path).
Proof.
  apply Safe_silent. intros w.
  unfold adapterRead, bind, getVault, ret, throw, world, trace.
  destruct (vault w !! path) as [[n|]|]; simpl; split; reflexivity.
Qed.

Lemma Safe_createFolder h path :
  P (EvCreateFolder path) = true -> Safe P (createFolder h path).
Proof.
  intros HP w. unfold createFolder, bind, getVault, setVault, emit, throw, world, trace.
  simpl. destruct (createFolderFails h path); simpl.
  - apply (Safe_ret tt w).
  - destruct (vault w !! path) eqn:E; simpl.
    + apply (Safe_ret tt w).
    + split; [apply evolves_insert_fresh; exact E|].
      split; [repeat constructor; exact HP|].
      intros p n Hn. left. exists n.
      destruct (decide (path = p)) as [->|Hne].
      * rewrite lookup_insert_eq in Hn. discriminate Hn.
      * rewrite lookup_insert_ne in Hn by exact Hne. exact Hn.
Qed.

Lemma Safe_vaultCreate h path text :
  P (EvCreate path) = true -> Safe P (vaultCreate h path text).
Proof.
  intros HP w. unfold vaultCreate, bind, getVault, setVault, emit, throw, ret, world, trace.
  simpl. destruct (createFails h path); simpl.
  - apply (Safe_ret tt w).
  - destruct (vault w !! path) eqn:E; simpl.
    + apply (Safe_ret tt w).
    + split; [apply evolves_insert_fresh; exact E|].
      split; [repeat constructor; exact HP|].
      intros p n Hn.
      destruct (decide (path = p)) as [->|Hne].
      * right. left. reflexivity.
      * rewrite lookup_insert_ne in Hn by exact Hne. left. exists n. exact Hn.
Qed.

Lemma Safe_processFrontMatter h file fields :
  P (EvFrontMatter file) = true -> Safe P (processFrontMatter h file fields).
Proof.
  intros HP w. unfold processFrontMatter, bind, getVault, setVault, emit, throw, world, trace.
  simpl. destruct (processFrontMatterFails h file); simpl.
  - apply (Safe_ret tt w).
  - destruct (vault w !! file) as [[n|]|] eqn:E; simpl.
    + split; [apply evolves_frontmatter; exact E|].
      split; [repeat constructor; exact HP|].
      intros p n' Hn. left.
      destruct (decide (file = p)) as [->|Hne].
      * exists n. exact E.
      * rewrite lookup_insert_ne in Hn by exact Hne. exists n'. exact Hn.
    + apply (Safe_ret tt w).
    + apply (Safe_ret tt w).
Qed.

End SafeRules.

Lemma Safe_weaken {A} (P Q : Event -> bool) (m : M A) :
  (forall e, P e = true -> Q e = true) -> Safe P m -> Safe Q m.
Proof.
  intros HPQ Hm w. destruct (Hm w) as (H1 & H2 & H3). split; [exact H1|].
  split; [|exact H3].
  eapply Forall_impl; [exact H2 | exact HPQ].
Qed.

Create HintDb safe discriminated.
#[local] Hint Resolve Safe_ret Safe_throw Safe_liftResult Safe_getSettings Safe_getVault
  Safe_adapterExists Safe_getAbstractFileByPath Safe_adapterRead : safe.

Ltac safe_step :=
  first
    [ solve [auto with safe]
    | apply Safe_createFolder; reflexivity
    | apply Safe_vaultCreate; reflexivity
    | apply Safe_processFrontMatter; reflexivity
    | apply Safe_emit; reflexivity
    | apply Safe_tryCatch; [|intros ?]
    | apply Safe_if
    | apply Safe_bind; [|intros ?] ].

Lemma Safe_Notice msg : Safe vaultEvent (Notice msg).
Proof. apply Safe_emit. reflexivity. Qed.

Lemma Safe_consoleError msg e : Safe vaultEvent (consoleError msg e).
Proof. apply Safe_emit. reflexivity. Qed.

#[local] Hint Resolve Safe_Notice Safe_consoleError : safe.

Lemma Safe_ensureDirs h dirs : forall cur, Safe vaultEvent (ensureDirs h cur dirs).
Proof.
  induction dirs as [|dir rest IH]; intros cur; simpl.
  - auto with safe.
  - repeat safe_step.
Qed.

Lemma Safe_ensureDirectoryExists h dirPath : Safe vaultEvent (ensureDirectoryExists h dirPath).
Proof. apply Safe_ensureDirs. Qed.

Lemma Safe_readTemplate h forceDefault templatePath defaultTemplate :
  Safe vaultEvent (readTemplate h forceDefault templatePath defaultTemplate).
Proof. unfold readTemplate. repeat safe_step. Qed.

Lemma Safe_renderTemplate {T} h (handlebars : string -> T -> Result string)
    forceDefault templatePath defaultTemplate obj :
  Safe vaultEvent (renderTemplate h handlebars forceDefault templatePath defaultTemplate obj).
Proof.
  unfold renderTemplate. apply Safe_bind; [apply Safe_readTemplate|].
  intros ?. auto with safe.
Qed.

Lemma Safe_writeNote h fileName here useDefault render fields :
  Safe vaultEvent render ->
  Safe vaultEvent (writeNote h fileName here useDefault render fields).
Proof.
  intros Hr. unfold writeNote. apply Safe_bind.
  - apply Safe_if.
    + apply Safe_bind; [auto with safe|]. intros [[n|]|]; auto with safe.
    + apply Safe_bind; [exact Hr|]. intros ?. safe_step.
  - intros file. repeat safe_step.
Qed.

#[local] Hint Resolve Safe_ensureDirectoryExists Safe_renderTemplate Safe_writeNote : safe.

Lemma Safe_writeRepoNote h s repo here : Safe vaultEvent (writeRepoNote h s repo here).
Proof. unfold writeRepoNote. auto with safe. Qed.

Lemma Safe_writePRNote h s pr here : Safe vaultEvent (writePRNote h s pr here).
Proof. unfold writePRNote. auto with safe. Qed.

#[local] Hint Resolve Safe_writeRepoNote Safe_writePRNote : safe.

Lemma Safe_createNoteForRepo h repo : Safe vaultEvent (createNoteForRepo h repo).
Proof. unfold createNoteForRepo. repeat safe_step. Qed.

Lemma Safe_createNoteForPR h pr : Safe vaultEvent (createNoteForPR h pr).
Proof. unfold createNoteForPR. repeat safe_step. Qed.

(** The driver loops evolve the world whenever the materializer and the
    page request do. *)
Section SafeDriver.

Context {Item : Type}.
Variable getPage : list (Result (list Item)) -> nat -> M (list Item * bool).
Variable createNote : Item -> M bool.
Variable itemName : Item -> string.
Variable fetchedNotice : nat -> string.
Variable firstFetch : bool.
Variable P : Event -> bool.
Hypothesis P_notice : forall msg, P (EvNotice msg) = true.
Hypothesis P_created : forall i b, P (EvCreated i b) = true.
Hypothesis Safe_getPage : forall listing page, Safe P (getPage listing page).
Hypothesis Safe_createNote : forall item, Safe P (createNote item).

Lemma Safe_itemLoop items :
  forall count, Safe P (itemLoop createNote itemName firstFetch items count).
Proof.
  induction items as [|item rest IH]; intros count; simpl.
  - apply Safe_ret.
  - apply Safe_bind; [apply Safe_createNote|]. intros created.
    apply Safe_bind; [apply Safe_emit, P_created|]. intros _.
    apply Safe_if; [apply Safe_ret | apply IH].
Qed.

Lemma Safe_pageStep listing page count :
  Safe P (pageStep getPage createNote itemName fetchedNotice firstFetch listing page count).
Proof.
  unfold pageStep. apply Safe_bind; [apply Safe_getPage|]. intros [items hasMore].
  apply Safe_bind; [apply Safe_itemLoop|]. intros [continueFetch count'].
  apply Safe_bind.
  - apply Safe_if; [apply Safe_emit, P_notice | apply Safe_ret].
  - intros _. apply Safe_if; apply Safe_ret.
Qed.

Lemma Safe_pageLoop listing :
  forall page count,
    Safe P (pageLoop getPage createNote itemName fetchedNotice firstFetch listing page count).
Proof.
  induction listing as [|response rest IH]; intros page count; simpl.
  - apply Safe_bind; [apply Safe_pageStep|]. intros [again count']. apply Safe_ret.
  - apply Safe_bind; [apply Safe_pageStep|]. intros [again count'].
    apply Safe_if; [apply IH | apply Safe_ret].
Qed.

End SafeDriver.

Lemma vaultEvent_loopEvent e : vaultEvent e = true -> loopEvent e = true.
Proof. destruct e; simpl; congruence. Qed.

Lemma Safe_requestPage {Item} ep (listing : list (Result (list Item))) page :
  Safe loopEvent (requestPage ep listing page).
Proof.
  unfold requestPage. apply Safe_bind; [apply Safe_getSettings|]. intros s.
  apply Safe_bind; [apply Safe_emit; reflexivity|]. intros _. apply Safe_liftResult.
Qed.

Lemma Safe_getStarredRepos listing page : Safe loopEvent (getStarredRepos listing page).
Proof.
  unfold getStarredRepos. apply Safe_bind; [apply Safe_requestPage|]. intros ?.
  apply Safe_ret.
Qed.

Lemma Safe_getPullRequests listing page : Safe loopEvent (getPullRequests listing page).
Proof.
  unfold getPullRequests. apply Safe_bind; [apply Safe_requestPage|]. intros ?.
  apply Safe_ret.
Qed.

Lemma Safe_starsLoop h firstFetch : Safe loopEvent (starsLoop h firstFetch).
Proof.
  apply Safe_pageLoop; try reflexivity.
  - apply Safe_getStarredRepos.
  - intros item. eapply Safe_weaken; [apply vaultEvent_loopEvent|].
    apply Safe_createNoteForRepo.
Qed.

Lemma Safe_prsLoop h firstFetch : Safe loopEvent (prsLoop h firstFetch).
Proof.
  apply Safe_pageLoop; try reflexivity.
  - apply Safe_getPullRequests.
  - intros item. eapply Safe_weaken; [apply vaultEvent_loopEvent|].
    apply Safe_createNoteForPR.
Qed.

Lemma Safe_starsPhase h : Safe loopEvent (starsPhase h).
Proof.
  unfold starsPhase, ensureTargetDirectoryExists.
  apply Safe_bind.
  - eapply Safe_weaken; [apply vaultEvent_loopEvent|].
    apply Safe_bind; [apply Safe_getSettings|]. intros s. apply Safe_ensureDirectoryExists.
  - intros _. apply Safe_bind; [apply Safe_getSettings|]. intros s. apply Safe_starsLoop.
Qed.

Lemma Safe_prsPhase h : Safe loopEvent (prsPhase h).
Proof.
  unfold prsPhase, ensurePRDirectoryExists.
  apply Safe_bind.
  - eapply Safe_weaken; [apply vaultEvent_loopEvent|].
    apply Safe_bind; [apply Safe_getSettings|]. intros s. apply Safe_ensureDirectoryExists.
  - intros _. apply Safe_bind; [apply Safe_getSettings|]. intros s. apply Safe_prsLoop.
Qed.

(** ** Strings and paths *)

Lemma app_cons a s t : String a s +:+ t = String a (s +:+ t).
Proof. reflexivity. Qed.

Lemma length_app s t : String.length (s +:+ t) = String.length s + String.length t.
Proof.
  induction s as [|a s IH]; [reflexivity|].
  rewrite app_cons. simpl. rewrite IH. reflexivity.
Qed.

Lemma split_partsLength c s : partsLength (JS.split c s) = S (String.length s).
Proof.
  induction s as [|x r IH]; [reflexivity|]. simpl.
  destruct (Ascii.eqb x c).
  - unfold partsLength in *. simpl. rewrite IH. reflexivity.
  - destruct (JS.split c r) as [|p ps]; [discriminate IH|].
    unfold partsLength in *. simpl in *. lia.
Qed.

Lemma filter_partsLength f parts : partsLength (List.filter f parts) <= partsLength parts.
Proof.
  induction parts as [|p ps IH]; [reflexivity|]. simpl.
  destruct (f p); unfold partsLength in *; simpl; lia.
Qed.

Lemma dirPaths_length dirs :
  forall cur p, In p (dirPaths cur dirs) ->
                String.length p <= String.length cur + partsLength dirs.
Proof.
  induction dirs as [|dir rest IH]; intros cur p Hin; [destruct Hin|].
  simpl in Hin. unfold partsLength. simpl. fold (partsLength rest).
  assert (Hlen : String.length (if nonEmpty cur then cur +:+ "/" +:+ dir else dir)
                 <= String.length cur + S (String.length dir)).
  { destruct (nonEmpty cur); [|lia]. rewrite !length_app. simpl. lia. }
  destruct Hin as [<-|Hin]; [lia|].
  apply IH in Hin. lia.
Qed.

Lemma dirsOf_length dirPath p :
  In p (dirsOf dirPath) -> String.length p <= S (String.length dirPath).
Proof.
  intros Hin. apply dirPaths_length in Hin. simpl in Hin.
  pose proof (filter_partsLength JS.trimTruthy (JS.split "/" dirPath)) as Hf.
  rewrite split_partsLength in Hf. lia.
Qed.

(** The note of a pull request never is one of the folders made for it. *)
Lemma prFileName_not_dir s pr : ~ In (prFileName s pr) (dirsOf (prRepoDir s pr)).
Proof.
  intros Hin. apply dirsOf_length in Hin. unfold prFileName in Hin.
  rewrite !length_app in Hin. simpl in Hin. lia.
Qed.

(** ** Directory creation *)

Lemma ensureDirs_other h dirs :
  forall cur w p, ~ In p (dirPaths cur dirs) ->
                  vault (world (ensureDirs h cur dirs w)) !! p = vault w !! p.
Proof.
  induction dirs as [|dir rest IH]; intros cur w p Hnot; [reflexivity|].
  simpl in Hnot. simpl ensureDirs.
  set (cur' := if nonEmpty cur then cur +:+ "/" +:+ dir else dir) in *.
  assert (Hne : cur' <> p) by (intros ->; apply Hnot; left; reflexivity).
  assert (Hrest : ~ In p (dirPaths cur' rest)) by (intros Hin; apply Hnot; right; exact Hin).
  unfold bind at 1. unfold adapterExists, bind, getVault, ret. simpl.
  destruct (vault w !! cur') eqn:E; simpl.
  - specialize (IH cur' w p Hrest).
    destruct (ensureDirs h cur' rest w) as [[r w2] t2]. exact IH.
  - unfold createFolder, bind, getVault, setVault, emit, throw. simpl.
    destruct (createFolderFails h cur'); simpl; [reflexivity|].
    rewrite E. simpl.
    match goal with
    | |- context [ensureDirs h cur' rest ?w1] =>
        specialize (IH cur' w1 p Hrest); destruct (ensureDirs h cur' rest w1) as [[r w2] t2]
    end.
    unfold world in *. simpl in *. rewrite IH. apply lookup_insert_ne. exact Hne.
Qed.

Lemma ensureDirectoryExists_present h dirPath w p :
  ~ In p (dirsOf dirPath) ->
  present (world (ensureDirectoryExists h dirPath w)) p = present w p.
Proof.
  intros Hnot. unfold present, ensureDirectoryExists.
  rewrite ensureDirs_other by exact Hnot. reflexivity.
Qed.

(** ** The materializers *)

Lemma caught_result (m : M unit) msg w :
  result (tryCatch m (fun error => consoleError msg error) w) = Ok tt.
Proof.
  unfold tryCatch, result. destruct (m w) as [[[[]|e] w1] t1]; reflexivity.
Qed.

Ltac caught_cases msg :=
  match goal with
  | |- context [tryCatch ?m ?hd ?w] =>
      let Hr := fresh "Hr" in
      pose proof (caught_result m msg w) as Hr;
      destruct (tryCatch m hd w) as [[? ?] ?];
      unfold result in Hr; simpl in Hr; subst; simpl; rewrite ?app_nil_r
  end.

Lemma createNoteForRepo_eq h repo w :
  let here := present w (repoFileName (settings w) repo) in
  let o := tryCatch (writeRepoNote h (settings w) repo here)
             (fun error => consoleError (repoErrorMessage repo) error) w in
  createNoteForRepo h repo w = (Ok (negb here), world o, trace o).
Proof.
  intros here o. subst o here. unfold present.
  cbv beta iota zeta delta
    [createNoteForRepo bind getSettings adapterExists getVault ret world trace result].
  caught_cases (repoErrorMessage repo). reflexivity.
Qed.

Lemma createNoteForPR_eq h pr w w0 t0 :
  ensureDirectoryExists h (prRepoDir (settings w) pr) w = (Ok tt, w0, t0) ->
  let here := present w (prFileName (settings w) pr) in
  let o := tryCatch (writePRNote h (settings w) pr here)
             (fun error => consoleError (prErrorMessage pr) error) w0 in
  createNoteForPR h pr w = (Ok (negb here), world o, t0 ++ trace o).
Proof.
  intros He here o.
  assert (Hhere : present w0 (prFileName (settings w) pr) = here).
  { replace w0 with (world (ensureDirectoryExists h (prRepoDir (settings w) pr) w))
      by (rewrite He; reflexivity).
    apply ensureDirectoryExists_present, prFileName_not_dir. }
  subst o. unfold present in Hhere.
  cbv beta iota zeta delta
    [createNoteForPR bind getSettings adapterExists getVault ret world trace result].
  rewrite He. rewrite Hhere.
  caught_cases (prErrorMessage pr). reflexivity.
Qed.

Lemma createNoteForPR_throws h pr w e w0 t0 :
  ensureDirectoryExists h (prRepoDir (settings w) pr) w = (Throw e, w0, t0) ->
  createNoteForPR h pr w = (Throw e, w0, t0).
Proof.
  intros He. unfold createNoteForPR.
  unfold bind at 1. unfold getSettings.
  unfold bind at 1. rewrite He. reflexivity.
Qed.

(** One turn of the item loop. *)
Lemma itemLoop_cons {Item} (createNote : Item -> M bool) itemName firstFetch
    item rest count w created w1 t1 :
  createNote item w = (Ok created, w1, t1) ->
  itemLoop createNote itemName firstFetch (item :: rest) count w
  = if negb firstFetch && negb created
    then (Ok (false, count), w1, t1 ++ [EvCreated (itemName item) created])
    else let o := itemLoop createNote itemName firstFetch rest (S count) w1 in
         (result o, world o, t1 ++ EvCreated (itemName item) created :: trace o).
Proof.
  intros H. simpl. unfold bind at 1. rewrite H.
  unfold bind at 1. unfold emit at 1.
  destruct (negb firstFetch && negb created); simpl.
  - reflexivity.
  - destruct (itemLoop createNote itemName firstFetch rest (S count) w1) as [[r w2] t2].
    reflexivity.
Qed.

Lemma itemLoop_cons_throw {Item} (createNote : Item -> M bool) itemName firstFetch
    item rest count w e w1 t1 :
  createNote item w = (Throw e, w1, t1) ->
  itemLoop createNote itemName firstFetch (item :: rest) count w = (Throw e, w1, t1).
Proof. intros H. simpl. unfold bind at 1. rewrite H. reflexivity. Qed.

(** C3, as the code has it: an error thrown inside the [try] block of a
    materializer is caught and logged, and the call still returns
    [!exists]: true when nothing was at the path, false when the path
    existed. In the driver loop the failed item therefore does not abort the
    batch, and it stops an incremental run exactly when its path existed. An
    error of [ensureDirectoryExists], which [createNoteForPR] calls before
    its [try] block, is not caught by the materializer. *)
Theorem caught_error_returns_not_exists h w :
  (forall repo e w1 t1,
     let here := present w (repoFileName (settings w) repo) in
     writeRepoNote h (settings w) repo here w = (Throw e, w1, t1) ->
     createNoteForRepo h repo w
     = (Ok (negb here), w1, t1 ++ [EvConsoleError (repoErrorMessage repo) e]) /\
     forall firstFetch rest count,
       itemLoop (createNoteForRepo h) full_name firstFetch (repo :: rest) count w
       = if negb firstFetch && here
         then (Ok (false, count), w1,
               (t1 ++ [EvConsoleError (repoErrorMessage repo) e])
               ++ [EvCreated (full_name repo) false])
         else let o := itemLoop (createNoteForRepo h) full_name firstFetch rest (S count) w1 in
              (result o, world o,
               (t1 ++ [EvConsoleError (repoErrorMessage repo) e])
               ++ EvCreated (full_name repo) (negb here) :: trace o)) /\
  (forall pr w0 t0 e w1 t1,
     let here := present w (prFileName (settings w) pr) in
     ensureDirectoryExists h (prRepoDir (settings w) pr) w = (Ok tt, w0, t0) ->
     writePRNote h (settings w) pr here w0 = (Throw e, w1, t1) ->
     createNoteForPR h pr w
     = (Ok (negb here), w1, t0 ++ t1 ++ [EvConsoleError (prErrorMessage pr) e])) /\
  (forall pr e w0 t0,
     ensureDirectoryExists h (prRepoDir (settings w) pr) w = (Throw e, w0, t0) ->
     createNoteForPR h pr w = (Throw e, w0, t0)).
Proof.
  split; [|split].
  - intros repo e w1 t1 here Hthrow.
    assert (Heq : createNoteForRepo h repo w
                  = (Ok (negb here), w1, t1 ++ [EvConsoleError (repoErrorMessage repo) e])).
    { rewrite createNoteForRepo_eq. fold here.
      rewrite (tryCatch_Throw _ _ _ _ _ _ Hthrow). reflexivity. }
    split; [exact Heq|]. intros firstFetch rest count.
    rewrite (itemLoop_cons _ _ _ _ _ _ _ _ _ _ Heq).
    rewrite negb_involutive. destruct (negb firstFetch && here) eqn:E.
    + apply andb_true_iff in E as [_ ->]. reflexivity.
    + reflexivity.
  - intros pr w0 t0 e w1 t1 here Hdir Hthrow.
    rewrite (createNoteForPR_eq _ _ _ _ _ Hdir). fold here.
    rewrite (tryCatch_Throw _ _ _ _ _ _ Hthrow). reflexivity.
  - intros pr e w0 t0. apply createNoteForPR_throws.
Qed.

(** C10: the boolean a materializer returns is the negation of what
    [exists] answers for the computed path in the vault as it is before the
    call, whatever the host makes of the create and of the metadata write.
    [createNoteForRepo] always returns; [createNoteForPR] returns unless the
    directory creation that comes first throws. *)
Theorem created_is_not_exists h w :
  (forall repo,
     result (createNoteForRepo h repo w)
     = Ok (negb (present w (repoFileName (settings w) repo)))) /\
  (forall pr,
     result (ensureDirectoryExists h (prRepoDir (settings w) pr) w) = Ok tt ->
     result (createNoteForPR h pr w)
     = Ok (negb (present w (prFileName (settings w) pr)))).
Proof.
  split.
  - intros repo. rewrite createNoteForRepo_eq. reflexivity.
  - intros pr Hdir.
    destruct (ensureDirectoryExists h (prRepoDir (settings w) pr) w) as [[r w0] t0] eqn:E.
    unfold result in Hdir. simpl in Hdir. subst r.
    rewrite (createNoteForPR_eq _ _ _ _ _ E). reflexivity.
Qed.

(** C8: with the user name or the target directory missing, [fetchStars]
    and [fetchPullRequests] show one notice and return: the world (settings,
    saved settings, vault) is the same and the trace holds that notice only,
    so no request. The notice asks for the two settings, unless sync is
    disabled, which is checked first and has its own notice. *)
Theorem missing_settings_abort h w :
  username (settings w) = "" \/ targetDirectory (settings w) = "" ->
  fetchStars h w
  = (Ok tt, w,
     [EvNotice (if syncEnabled (settings w)
                then "Please set both GitHub username and target directory in settings."
                else "Sync is disabled. Enable it in settings to fetch stars.")]) /\
  fetchPullRequests h w
  = (Ok tt, w,
     [EvNotice (if syncEnabled (settings w)
                then "Please set both GitHub username and target directory in settings."
                else "Sync is disabled. Enable it in settings to fetch pull requests.")]).
Proof.
  intros Hmissing.
  assert (Hvalid : nonEmpty (username (settings w)) && nonEmpty (targetDirectory (settings w))
                   = false).
  { destruct Hmissing as [-> | ->]; [reflexivity | apply andb_false_r]. }
  split.
  - unfold fetchStars, bind, getSettings, settingsAreValid, bind, getSettings, ret.
    destruct (syncEnabled (settings w)); simpl; [rewrite Hvalid; simpl|]; reflexivity.
  - unfold fetchPullRequests, bind, getSettings, settingsAreValid, bind, getSettings, ret.
    destruct (syncEnabled (settings w)); simpl; [rewrite Hvalid; simpl|]; reflexivity.
Qed.

Lemma missing_settings_abort_witness :
  (username (settings freshWorld) = "" \/ targetDirectory (settings freshWorld) = "") /\
  fetchStars (demoHost [Ok threeRepos] []) freshWorld
  = (Ok tt, freshWorld,
     [EvNotice (if syncEnabled (settings freshWorld)
                then "Please set both GitHub username and target directory in settings."
                else "Sync is disabled. Enable it in settings to fetch stars.")]).
Proof.
  split.
  - left. reflexivity.
  - apply (missing_settings_abort (demoHost [Ok threeRepos] []) freshWorld).
    left. reflexivity.
Defined.

Lemma created_is_not_exists_witness :
  result (ensureDirectoryExists (demoHost [] [Ok [toolPR]])
            (prRepoDir (settings (aliceWorld "" ∅)) toolPR) (aliceWorld "" ∅)) = Ok tt /\
  result (createNoteForPR (demoHost [] [Ok [toolPR]]) toolPR (aliceWorld "" ∅))
  = Ok (negb (present (aliceWorld "" ∅) (prFileName (settings (aliceWorld "" ∅)) toolPR))).
Proof.
  split.
  - vm_compute. reflexivity.
  - apply (proj2 (created_is_not_exists (demoHost [] [Ok [toolPR]]) (aliceWorld "" ∅))).
    vm_compute. reflexivity.
Defined.

(** C3 as stated fails: the note of [rustRepo] exists and its metadata
    write throws; the error is caught, and the call returns false, not true.
    In an incremental run this false stops the loop: the second repository
    of the page is not materialized. *)
Lemma failed_existing_item_returns_false :
  createNoteForRepo (brokenYamlHost [] []) rustRepo (aliceWorld lastWeek rustVault)
  = (Ok false, aliceWorld lastWeek rustVault,
     [EvConsoleError "Error creating note for rust:"
        "Failed to process GitHub/Stars/rust-lang-rust.md"]) /\
  materialized (trace (fetchStars (brokenYamlHost [Ok threeRepos] [])
                         (aliceWorld lastWeek rustVault)))
  = ["rust-lang/rust"].
Proof. split; vm_compute; reflexivity. Qed.

Lemma caught_error_returns_not_exists_witness :
  createNoteForRepo (brokenYamlHost [] []) rustRepo (aliceWorld lastWeek rustVault)
  = (Ok (negb (present (aliceWorld lastWeek rustVault)
                 (repoFileName (settings (aliceWorld lastWeek rustVault)) rustRepo))),
     aliceWorld lastWeek rustVault,
     [] ++ [EvConsoleError (repoErrorMessage rustRepo)
              "Failed to process GitHub/Stars/rust-lang-rust.md"]).
Proof.
  apply (proj1 (caught_error_returns_not_exists (brokenYamlHost [] [])
                  (aliceWorld lastWeek rustVault))
           rustRepo "Failed to process GitHub/Stars/rust-lang-rust.md"
           (aliceWorld lastWeek rustVault) []).
  vm_compute. reflexivity.
Defined.

(** ** What a materializer writes *)

Lemma ReadOnly_ret {A} (a : A) : ReadOnly (ret a).
Proof. intros w. split; [reflexivity | constructor]. Qed.

Lemma ReadOnly_throw {A} e : ReadOnly (@throw A e).
Proof. intros w. split; [reflexivity | constructor]. Qed.

Lemma ReadOnly_liftResult {A} (r : Result A) : ReadOnly (liftResult r).
Proof. intros w. split; [reflexivity | constructor]. Qed.

Lemma ReadOnly_Notice text : ReadOnly (Notice text).
Proof. intros w. split; [reflexivity | repeat constructor]. Qed.

Lemma ReadOnly_getVault : ReadOnly getVault.
Proof. intros w. split; [reflexivity | constructor]. Qed.

Lemma ReadOnly_bind {A B} (m : M A) (k : A -> M B) :
  ReadOnly m -> (forall a, ReadOnly (k a)) -> ReadOnly (bind m k).
Proof.
  intros Hm Hk w. specialize (Hm w). unfold bind, world, trace in *.
  destruct (m w) as [[[a|e] w1] t1]; simpl in *; destruct Hm as [-> Ht1].
  - specialize (Hk a w). unfold world, trace in Hk.
    destruct (k a w) as [[r w2] t2]; simpl in *. destruct Hk as [-> Ht2].
    split; [reflexivity | apply Forall_app; split; assumption].
  - split; [reflexivity | assumption].
Qed.

Lemma ReadOnly_adapterExists path : ReadOnly (adapterExists path).
Proof.
  apply ReadOnly_bind; [apply ReadOnly_getVault|]. intros v. apply ReadOnly_ret.
Qed.

Lemma ReadOnly_adapterRead h path : ReadOnly (adapterRead h path).
Proof.
  apply ReadOnly_bind; [apply ReadOnly_getVault|]. intros v.
  destruct (v !! path) as [[n|]|]; [apply ReadOnly_ret | apply ReadOnly_throw ..].
Qed.

Lemma ReadOnly_readTemplate h forceDefault templatePath defaultTemplate :
  ReadOnly (readTemplate h forceDefault templatePath defaultTemplate).
Proof.
  unfold readTemplate.
  destruct forceDefault; [apply ReadOnly_ret|].
  destruct (nonEmpty templatePath); simpl.
  - apply ReadOnly_bind; [apply ReadOnly_adapterExists|]. intros [|]; simpl.
    + apply ReadOnly_adapterRead.
    + apply ReadOnly_bind; [apply ReadOnly_Notice|]. intros _. apply ReadOnly_ret.
  - apply ReadOnly_bind; [apply ReadOnly_Notice|]. intros _. apply ReadOnly_ret.
Qed.

Lemma ReadOnly_renderTemplate {T} h (handlebars : string -> T -> Result string)
    forceDefault templatePath defaultTemplate obj :
  ReadOnly (renderTemplate h handlebars forceDefault templatePath defaultTemplate obj).
Proof.
  unfold renderTemplate. apply ReadOnly_bind; [apply ReadOnly_readTemplate|].
  intros text. apply ReadOnly_liftResult.
Qed.

Lemma notices_no_console t :
  Forall (fun e => isNotice e = true) t -> consoleErrors t = [] /\ createdFiles t = [].
Proof.
  induction 1 as [|e t He _ [IH1 IH2]]; [split; reflexivity|].
  destruct e; try discriminate He. simpl. split; assumption.
Qed.



Section WriteNote.

Variable h : Host.
Variable fileName : string.
Variable useDefault : bool.
Variable render : M string.
Variable fields : list (string * FMValue).
Variable msg : string.
Hypothesis render_ReadOnly : ReadOnly render.

Local Abbreviation attempt here :=
  (tryCatch (writeNote h fileName here useDefault render fields)
     (fun error => consoleError msg error)).

Ltac run_attempt w :=
  cbv beta iota zeta delta
    [writeNote tryCatch bind getAbstractFileByPath getVault setVault ret throw emit
     vaultCreate processFrontMatter consoleError world trace result];
  simpl.

(** The path is a file already: nothing is created; the metadata block is
    rewritten when the built-in template is selected and the write goes
    through, and the world is untouched otherwise. *)
Lemma attempt_existing w n :
  vault w !! fileName = Some (TFile n) ->
  createdFiles (trace (attempt true w)) = [] /\
  (world (attempt true w) = w \/
   useDefault = true /\ consoleErrors (trace (attempt true w)) = [] /\
   world (attempt true w) = setEntry w fileName (TFile (withFields fields n))) /\
  (useDefault = false -> attempt true w = (Ok tt, w, [])).
Proof.
  intros Hfile. run_attempt w. rewrite Hfile. simpl.
  destruct useDefault; simpl.
  - destruct (processFrontMatterFails h fileName); simpl.
    + repeat split; [left; reflexivity | discriminate].
    + rewrite Hfile. simpl. repeat split; [|discriminate].
      right. repeat split.
  - repeat split. left. reflexivity.
Qed.

(** The path exists but is not a file: the error is caught and nothing is
    written. *)
Lemma attempt_not_a_file w :
  vault w !! fileName = Some TFolder ->
  world (attempt true w) = w /\ createdFiles (trace (attempt true w)) = [] /\
  consoleErrors (trace (attempt true w)) <> [].
Proof.
  intros Hdir. run_attempt w. rewrite Hdir. simpl.
  repeat split. discriminate.
Qed.

(** Nothing is at the path: the rendered text becomes the new file when
    rendering and [vault.create] go through. *)
Lemma attempt_fresh w text :
  vault w !! fileName = None ->
  result (render w) = Ok text ->
  createFails h fileName = false ->
  createdFiles (trace (attempt false w)) = [fileName] /\
  (world (attempt false w) = setEntry w fileName (TFile (noteOfText h text)) /\
   (useDefault = true -> consoleErrors (trace (attempt false w)) <> [])
   \/
   useDefault = true /\ processFrontMatterFails h fileName = false /\
   consoleErrors (trace (attempt false w)) = [] /\
   world (attempt false w)
   = setEntry (setEntry w fileName (TFile (noteOfText h text))) fileName
       (TFile (withFields fields (noteOfText h text)))).
Proof.
  intros Hfree Hr Hc. destruct (render_ReadOnly w) as [Hw Ht].
  apply notices_no_console in Ht as [Hce Hcf].
  run_attempt w. unfold result, world, trace in *.
  destruct (render w) as [[r w1] t1]. simpl in *. subst r w1.
  rewrite Hc, Hfree. simpl.
  destruct useDefault; simpl.
  - destruct (processFrontMatterFails h fileName); simpl.
    + rewrite !createdFiles_app, !consoleErrors_app, Hcf, Hce. simpl.
      split; [reflexivity|]. left. split; [reflexivity|]. discriminate.
    + rewrite lookup_insert_eq. simpl.
      rewrite !createdFiles_app, !consoleErrors_app, Hcf, Hce. simpl.
      split; [reflexivity|]. right. repeat split.
  - rewrite !createdFiles_app, Hcf. simpl.
    split; [reflexivity|]. left. split; [reflexivity|]. discriminate.
Qed.

(** Whatever happens, only [fileName] is written, and a file is created
    only when nothing was at the path. *)
Lemma attempt_frame here w :
  here = present w fileName ->
  (forall p, p <> fileName -> vault (world (attempt here w)) !! p = vault w !! p) /\
  (forall p, In p (createdFiles (trace (attempt here w))) -> p = fileName /\ here = false) /\
  (consoleErrors (trace (attempt here w)) = [] -> present (world (attempt here w)) fileName = true).
Proof.
  intros Hhere. destruct (render_ReadOnly w) as [Hw Ht].
  apply notices_no_console in Ht as [Hce Hcf].
  unfold present in *.
  assert (Hsplit : forall (v : gmap string Entry) (e : Entry) p,
             p <> fileName -> <[fileName := e]> v !! p = v !! p).
  { intros v e p Hp. apply lookup_insert_ne. congruence. }
  destruct (vault w !! fileName) as [[n|]|] eqn:Hfile; subst here;
    run_attempt w; unfold result, world, trace in *; rewrite ?Hfile; simpl;
    [ destruct useDefault; simpl;
      [ destruct (processFrontMatterFails h fileName); simpl |]
    | 
    | destruct (render w) as [[[text|e] w1] t1]; simpl in *; subst w1;
      [ destruct (createFails h fileName); simpl;
        [| rewrite ?Hfile; simpl; destruct useDefault; simpl;
           [ destruct (processFrontMatterFails h fileName); simpl |] ]
      | ] ];
    repeat (rewrite ?createdFiles_app, ?consoleErrors_app, ?Hcf, ?Hce, ?Hfile,
              ?lookup_insert_eq; simpl);
    (split;
     [ intros p Hp; rewrite ?Hsplit by exact Hp; reflexivity
     | split;
       [ intros p Hp; simpl in Hp; try tauto; destruct Hp as [<-|[]]; split; reflexivity
       | intros Hnone; simpl in Hnone; try discriminate Hnone;
         rewrite ?lookup_insert_eq, ?Hfile; reflexivity ] ]).
Qed.


(** Creation and preservation of the body, for the world the [try] block
    starts in. *)
Lemma attempt_body w :
  (forall text,
     vault w !! fileName = None -> result (render w) = Ok text ->
     createFails h fileName = false ->
     exists n', vault (world (attempt (present w fileName) w)) !! fileName = Some (TFile n') /\
                body n' = body (noteOfText h text) /\
                (useDefault = false -> n' = noteOfText h text)) /\
  (forall n,
     vault w !! fileName = Some (TFile n) ->
     exists n', vault (world (attempt (present w fileName) w)) !! fileName = Some (TFile n') /\
                body n' = body n /\
                (n' = n \/ useDefault = true /\ n' = withFields fields n) /\
                (useDefault = false -> world (attempt (present w fileName) w) = w)).
Proof.
  split.
  - intros text Hfree Hr Hc.
    assert (Hhere : present w fileName = false) by (unfold present; rewrite Hfree; reflexivity).
    rewrite Hhere.
    destruct (attempt_fresh w text Hfree Hr Hc) as [_ [[Hw Herr] | (Hdef & _ & _ & Hw)]];
      rewrite Hw.
    + exists (noteOfText h text). simpl. rewrite lookup_insert_eq. repeat split.
    + exists (withFields fields (noteOfText h text)).
      simpl. rewrite lookup_insert_eq. repeat split. intros Hno. congruence.
  - intros n Hfile.
    assert (Hhere : present w fileName = true) by (unfold present; rewrite Hfile; reflexivity).
    rewrite Hhere.
    destruct (attempt_existing w n Hfile) as (_ & Hw & Hno).
    destruct Hw as [Hw | (Hdef & _ & Hw)]; rewrite Hw.
    + exists n. repeat split; [exact Hfile | left; reflexivity].
    + exists (withFields fields n). simpl. rewrite lookup_insert_eq.
      repeat split; [right; split; [exact Hdef | reflexivity] | congruence].
Qed.

End WriteNote.

Lemma createNoteForRepo_frame h repo w :
  let P := repoFileName (settings w) repo in
  let o := createNoteForRepo h repo w in
  (forall p, p <> P -> vault (world o) !! p = vault w !! p) /\
  (forall p, In p (createdFiles (trace o)) -> p = P /\ present w P = false) /\
  (consoleErrors (trace o) = [] -> present (world o) P = true).
Proof.
  intros P o. subst o. rewrite createNoteForRepo_eq. unfold world at 1 3, trace at 1 3.
  simpl. apply attempt_frame; [apply ReadOnly_renderTemplate | reflexivity].
Qed.

Lemma createNoteForRepo_settings h repo w :
  settings (world (createNoteForRepo h repo w)) = settings w.
Proof. apply (Safe_createNoteForRepo h repo w). Qed.

(** C5: for a record whose path is [P]: when nothing is at [P] and the
    rendering and [vault.create] go through, the materializer leaves a file
    at [P] whose body is the body of the rendered text (the whole rendered
    note when a user template is selected); when a file is at [P], a file
    with the same body is at [P] afterwards, it is the same note or the same
    note with the metadata fields set, and with a user template the [try]
    block does not touch the world at all; no other path changes, the
    folders [createNoteForPR] makes for the note apart. *)
Theorem materialize_creates_or_preserves_body h w :
  (forall repo,
     let s := settings w in
     let P := repoFileName s repo in
     let o := createNoteForRepo h repo w in
     let render := renderTemplate h (handlebarsStar h) (useDefaultTemplateStar s)
                     (templatePathStar s) ("# {{ name }}" +:+ nl +:+ nl) repo in
     (forall text,
        vault w !! P = None -> result (render w) = Ok text -> createFails h P = false ->
        exists n', vault (world o) !! P = Some (TFile n') /\
                   body n' = body (noteOfText h text) /\
                   (useDefaultTemplateStar s = false -> n' = noteOfText h text)) /\
     (forall n,
        vault w !! P = Some (TFile n) ->
        exists n', vault (world o) !! P = Some (TFile n') /\
                   body n' = body n /\
                   (n' = n \/
                    useDefaultTemplateStar s = true /\
                    n' = withFields (repoFrontMatter h repo) n) /\
                   (useDefaultTemplateStar s = false -> world o = w)) /\
     (forall p, p <> P -> vault (world o) !! p = vault w !! p)) /\
  (forall pr w0 t0,
     let s := settings w in
     let P := prFileName s pr in
     let o := createNoteForPR h pr w in
     let render := renderTemplate h (handlebarsPR h) (useDefaultTemplatePR s)
                     (templatePathPR s) ("# {{ title }}" +:+ nl +:+ nl) pr in
     ensureDirectoryExists h (prRepoDir s pr) w = (Ok tt, w0, t0) ->
     (forall text,
        vault w !! P = None -> result (render w0) = Ok text -> createFails h P = false ->
        exists n', vault (world o) !! P = Some (TFile n') /\
                   body n' = body (noteOfText h text) /\
                   (useDefaultTemplatePR s = false -> n' = noteOfText h text)) /\
     (forall n,
        vault w !! P = Some (TFile n) ->
        exists n', vault (world o) !! P = Some (TFile n') /\
                   body n' = body n /\
                   (n' = n \/
                    useDefaultTemplatePR s = true /\
                    n' = withFields (prFrontMatter h pr) n) /\
                   (useDefaultTemplatePR s = false -> world o = w0)) /\
     (forall p, p <> P -> ~ In p (dirsOf (prRepoDir s pr)) ->
                vault (world o) !! p = vault w !! p)).
Proof.
  split.
  - intros repo s P o render.
    assert (Hro : ReadOnly render) by apply ReadOnly_renderTemplate.
    assert (Ho : world o
                 = world (tryCatch (writeNote h P (present w P) (useDefaultTemplateStar s)
                                      render (repoFrontMatter h repo))
                            (fun error => consoleError (repoErrorMessage repo) error) w)).
    { subst o. rewrite createNoteForRepo_eq. reflexivity. }
    rewrite Ho. clear Ho. clearbody render.
    destruct (attempt_body h P (useDefaultTemplateStar s) render (repoFrontMatter h repo)
                (repoErrorMessage repo) Hro w) as [Hnew Hold].
    split; [exact Hnew|]. split; [exact Hold|].
    intros p Hp.
    apply (attempt_frame h P (useDefaultTemplateStar s) render (repoFrontMatter h repo)
             (repoErrorMessage repo) Hro (present w P) w eq_refl); exact Hp.
  - intros pr w0 t0 s P o render Hdir.
    assert (Hro : ReadOnly render) by apply ReadOnly_renderTemplate.
    assert (Hsame : forall p, ~ In p (dirsOf (prRepoDir s pr)) ->
                              vault w0 !! p = vault w !! p).
    { intros p Hp.
      replace w0 with (world (ensureDirectoryExists h (prRepoDir s pr) w))
        by (rewrite Hdir; reflexivity).
      apply ensureDirs_other. exact Hp. }
    assert (HP : vault w0 !! P = vault w !! P) by apply Hsame, prFileName_not_dir.
    assert (Hhere : present w P = present w0 P) by (unfold present; rewrite HP; reflexivity).
    assert (Ho : world o
                 = world (tryCatch (writeNote h P (present w0 P) (useDefaultTemplatePR s)
                                      render (prFrontMatter h pr))
                            (fun error => consoleError (prErrorMessage pr) error) w0)).
    { subst o. rewrite (createNoteForPR_eq _ _ _ _ _ Hdir). fold s P. rewrite Hhere.
      reflexivity. }
    rewrite Ho. clear Ho. clearbody render. rewrite <- HP.
    destruct (attempt_body h P (useDefaultTemplatePR s) render (prFrontMatter h pr)
                (prErrorMessage pr) Hro w0) as [Hnew Hold].
    split; [exact Hnew|]. split; [exact Hold|].
    intros p Hp Hnd. rewrite <- (Hsame p Hnd).
    apply (attempt_frame h P (useDefaultTemplatePR s) render (prFrontMatter h pr)
             (prErrorMessage pr) Hro (present w0 P) w0 eq_refl); exact Hp.
Qed.

Lemma materialize_creates_or_preserves_body_witness :
  vault rustWorld !! repoFileName (settings rustWorld) rustRepo = Some (TFile editedNote) /\
  exists n',
    vault (world (createNoteForRepo (demoHost [] []) rustRepo rustWorld))
      !! repoFileName (settings rustWorld) rustRepo = Some (TFile n') /\
    body n' = body editedNote /\
    (n' = editedNote \/
     useDefaultTemplateStar (settings rustWorld) = true /\
     n' = withFields (repoFrontMatter (demoHost [] []) rustRepo) editedNote) /\
    (useDefaultTemplateStar (settings rustWorld) = false ->
     world (createNoteForRepo (demoHost [] []) rustRepo rustWorld) = rustWorld).
Proof.
  split.
  - vm_compute. reflexivity.
  - apply (proj1 (proj2 (proj1 (materialize_creates_or_preserves_body
                                  (demoHost [] []) rustWorld) rustRepo)) editedNote).
    vm_compute. reflexivity.
Defined.

(** ** Tags *)

Lemma list_ascii_app s t :
  list_ascii_of_string (s +:+ t) = list_ascii_of_string s ++ list_ascii_of_string t.
Proof.
  induction s as [|a s IH]; [reflexivity|].
  rewrite app_cons. simpl. rewrite IH. reflexivity.
Qed.


Lemma replaceUnsupported_supported s : allSupported (replaceUnsupported s) = true.
Proof.
  unfold allSupported, replaceUnsupported.
  induction s as [|c s IH]; [reflexivity|]. simpl. rewrite IH.
  destruct (supported c) eqn:E; [rewrite E|]; reflexivity.
Qed.

Lemma normalizeTag_supported tag : allSupported (normalizeTag tag) = true.
Proof. apply replaceUnsupported_supported. Qed.





Lemma replaceSpaceRuns_no_space d s :
  JS.isSpace d = false ->
  forall inRun, noneOf JS.isSpace (JS.replaceSpaceRuns d inRun s) = true.
Proof.
  intros Hd. unfold noneOf.
  induction s as [|c s IH]; intros inRun; [reflexivity|]. simpl.
  destruct (JS.isSpace c) eqn:E.
  - destruct inRun; simpl; [|rewrite Hd; simpl]; apply IH.
  - simpl. rewrite E. simpl. apply IH.
Qed.

Lemma lookupField_setField k k' v fm :
  lookupField k (setField k' v fm)
  = if String.eqb k k' then Some v else lookupField k fm.
Proof.
  unfold lookupField.
  induction fm as [|[k0 v0] fm IH]; simpl.
  - destruct (String.eqb k k'); reflexivity.
  - destruct (String.eqb k' k0) eqn:E0; simpl.
    + apply String.eqb_eq in E0. subst k0. destruct (String.eqb k k'); reflexivity.
    + destruct (String.eqb k k0) eqn:E1; simpl.
      * apply String.eqb_eq in E1. subst k0.
        rewrite String.eqb_sym in E0. rewrite E0. reflexivity.
      * exact IH.
Qed.


Lemma pr_tags_written h pr n :
  lookupField "tags" (frontmatter (withFields (prFrontMatter h pr) n))
  = Some (FMList (prTagsList pr)).
Proof.
  unfold withFields, prFrontMatter, setFields. simpl.
  repeat (rewrite lookupField_setField; simpl). reflexivity.
Qed.




(** ** The drivers *)

Lemma fetchStars_eq h w :
  valid (settings w) = true -> fetchStars h w = finishStars h (starsPhase h w).
Proof.
  unfold valid. intros Hv. apply andb_true_iff in Hv as [Hv Hd].
  apply andb_true_iff in Hv as [He Hu].
  cbv beta iota zeta delta
    [fetchStars starsPhase finishStars bind getSettings settingsAreValid ret tryCatch
     setSettings saveSettings Notice consoleError emit ensureTargetDirectoryExists].
  rewrite He. cbv beta iota delta [negb]. rewrite Hu, Hd.
  cbv beta iota delta [negb andb]. simpl.
  destruct (ensureDirectoryExists h (targetDirectory (settings w)) w) as [[[[]|e] w0] t0];
    simpl; [|reflexivity].
  destruct (starsLoop h (String.eqb (lastFetchDate (settings w0)) "") w0)
    as [[[n|e] w1] t1]; simpl.
  - destruct (saveDataFails h _); simpl; [|destruct (n =? 0); simpl];
      rewrite <- ?app_assoc; reflexivity.
  - rewrite <- ?app_assoc. reflexivity.
Qed.

Lemma fetchPullRequests_eq h w :
  valid (settings w) = true -> fetchPullRequests h w = finishPRs h (prsPhase h w).
Proof.
  unfold valid. intros Hv. apply andb_true_iff in Hv as [Hv Hd].
  apply andb_true_iff in Hv as [He Hu].
  cbv beta iota zeta delta
    [fetchPullRequests prsPhase finishPRs bind getSettings settingsAreValid ret tryCatch
     setSettings saveSettings Notice consoleError emit ensurePRDirectoryExists].
  rewrite He. cbv beta iota delta [negb]. rewrite Hu, Hd.
  cbv beta iota delta [negb andb]. simpl.
  destruct (ensureDirectoryExists h
              (orString (prDirectory (settings w)) (targetDirectory (settings w))) w)
    as [[[[]|e] w0] t0]; simpl; [|reflexivity].
  destruct (prsLoop h (String.eqb (lastPRFetchDate (settings w0)) "") w0)
    as [[[n|e] w1] t1]; simpl.
  - destruct (saveDataFails h _); simpl; [|destruct (n =? 0); simpl];
      rewrite <- ?app_assoc; reflexivity.
  - rewrite <- ?app_assoc. reflexivity.
Qed.

Lemma fetch_invalid h w :
  valid (settings w) = false ->
  (exists msg, fetchStars h w = (Ok tt, w, [EvNotice msg])) /\
  (exists msg, fetchPullRequests h w = (Ok tt, w, [EvNotice msg])).
Proof.
  unfold valid. intros Hv.
  split.
  - unfold fetchStars, bind, getSettings, settingsAreValid, bind, getSettings, ret.
    destruct (syncEnabled (settings w)); simpl in *; [rewrite Hv; simpl|];
      eexists; reflexivity.
  - unfold fetchPullRequests, bind, getSettings, settingsAreValid, bind, getSettings, ret.
    destruct (syncEnabled (settings w)); simpl in *; [rewrite Hv; simpl|];
      eexists; reflexivity.
Qed.

(** C4: a run of [fetchStars] (of [fetchPullRequests]) that passes the
    guards ends in one of three ways. When the directory creation and the
    page loop return, the watermark of that entity type is set in memory to
    the clock's [toISOString], whatever was fetched, the other settings are
    kept, and [saveSettings] is called: when [saveData] goes through, the
    saved settings are the settings in memory; when it rejects, the error is
    caught like any other, logged and shown, the saved settings are those of
    the start and the watermark stays set in memory. When an exception
    escapes the directory creation or the page loop, the settings in memory
    and on disk are those of the start, and the trace ends with the console
    error and the notice carrying the message. *)
Theorem watermark_set_iff_loop_completes h w :
  valid (settings w) = true ->
  (forall n, result (starsPhase h w) = Ok n ->
     result (fetchStars h w) = Ok tt /\
     settings (world (fetchStars h w)) = withLastFetchDate (settings w) (toISOString h) /\
     lastFetchDate (settings (world (fetchStars h w))) = toISOString h /\
     lastPRFetchDate (settings (world (fetchStars h w))) = lastPRFetchDate (settings w) /\
     (saveDataFails h (settings (world (fetchStars h w))) = false ->
      data (world (fetchStars h w)) = settings (world (fetchStars h w)) /\
      lastFetchDate (data (world (fetchStars h w))) = toISOString h /\
      In (EvSaveData (settings (world (fetchStars h w)))) (trace (fetchStars h w)) /\
      consoleErrors (trace (fetchStars h w)) = consoleErrors (trace (starsPhase h w))) /\
     (saveDataFails h (settings (world (fetchStars h w))) = true ->
      data (world (fetchStars h w)) = data w /\
      trace (fetchStars h w)
      = trace (starsPhase h w)
        ++ [EvConsoleError "Error fetching GitHub stars:" saveDataError;
            EvNotice ("Error fetching GitHub stars: " +:+ saveDataError)])) /\
  (forall e, result (starsPhase h w) = Throw e ->
     result (fetchStars h w) = Ok tt /\
     settings (world (fetchStars h w)) = settings w /\
     data (world (fetchStars h w)) = data w /\
     trace (fetchStars h w)
     = trace (starsPhase h w)
       ++ [EvConsoleError "Error fetching GitHub stars:" e;
           EvNotice ("Error fetching GitHub stars: " +:+ e)]) /\
  (forall n, result (prsPhase h w) = Ok n ->
     result (fetchPullRequests h w) = Ok tt /\
     settings (world (fetchPullRequests h w))
     = withLastPRFetchDate (settings w) (toISOString h) /\
     lastPRFetchDate (settings (world (fetchPullRequests h w))) = toISOString h /\
     lastFetchDate (settings (world (fetchPullRequests h w))) = lastFetchDate (settings w) /\
     (saveDataFails h (settings (world (fetchPullRequests h w))) = false ->
      data (world (fetchPullRequests h w)) = settings (world (fetchPullRequests h w)) /\
      lastPRFetchDate (data (world (fetchPullRequests h w))) = toISOString h /\
      In (EvSaveData (settings (world (fetchPullRequests h w))))
         (trace (fetchPullRequests h w)) /\
      consoleErrors (trace (fetchPullRequests h w))
      = consoleErrors (trace (prsPhase h w))) /\
     (saveDataFails h (settings (world (fetchPullRequests h w))) = true ->
      data (world (fetchPullRequests h w)) = data w /\
      trace (fetchPullRequests h w)
      = trace (prsPhase h w)
        ++ [EvConsoleError "Error fetching pull requests:" saveDataError;
            EvNotice ("Error fetching pull requests: " +:+ saveDataError)])) /\
  (forall e, result (prsPhase h w) = Throw e ->
     result (fetchPullRequests h w) = Ok tt /\
     settings (world (fetchPullRequests h w)) = settings w /\
     data (world (fetchPullRequests h w)) = data w /\
     trace (fetchPullRequests h w)
     = trace (prsPhase h w)
       ++ [EvConsoleError "Error fetching pull requests:" e;
           EvNotice ("Error fetching pull requests: " +:+ e)]).
Proof.
  intros Hv.
  destruct (Safe_starsPhase h w) as [(Hs & Hd & _) _].
  destruct (Safe_prsPhase h w) as [(Hs' & Hd' & _) _].
  rewrite (fetchStars_eq h w Hv), (fetchPullRequests_eq h w Hv).
  unfold result, world, trace in *.
  destruct (starsPhase h w) as [[r w1] t1], (prsPhase h w) as [[r' w1'] t1'].
  cbn [fst snd] in *.
  split; [|split; [|split]]; intros x Hx; subst.
  - unfold finishStars. rewrite Hs.
    destruct (saveDataFails h (withLastFetchDate (settings w) (toISOString h))) eqn:Hsave;
      cbn [fst snd settings data lastFetchDate lastPRFetchDate withLastFetchDate];
      rewrite Hsave; repeat split; try discriminate; try assumption.
    + apply in_or_app. right. left. reflexivity.
    + rewrite consoleErrors_app. destruct (x =? 0); simpl; apply app_nil_r.
  - simpl. repeat split; assumption.
  - unfold finishPRs. rewrite Hs'.
    destruct (saveDataFails h (withLastPRFetchDate (settings w) (toISOString h))) eqn:Hsave;
      cbn [fst snd settings data lastFetchDate lastPRFetchDate withLastPRFetchDate];
      rewrite Hsave; repeat split; try discriminate; try assumption.
    + apply in_or_app. right. left. reflexivity.
    + rewrite consoleErrors_app. destruct (x =? 0); simpl; apply app_nil_r.
  - simpl. repeat split; assumption.
Qed.

Lemma watermark_set_iff_loop_completes_witness :
  (valid (settings (aliceWorld lastWeek ∅)) = true /\
   result (starsPhase (demoHost [Ok threeRepos] []) (aliceWorld lastWeek ∅)) = Ok 3 /\
   lastFetchDate (settings (world (fetchStars (demoHost [Ok threeRepos] [])
                                     (aliceWorld lastWeek ∅))))
   = "2025-01-02T03:04:05.000Z" /\
   lastFetchDate (data (world (fetchStars (demoHost [Ok threeRepos] [])
                                 (aliceWorld lastWeek ∅))))
   = "2025-01-02T03:04:05.000Z") /\
  (result (starsPhase (demoHost [Ok fullPage; Throw rateLimited] []) (aliceWorld lastWeek ∅))
   = Throw rateLimited /\
   result (fetchStars (demoHost [Ok fullPage; Throw rateLimited] []) (aliceWorld lastWeek ∅))
   = Ok tt /\
   settings (world (fetchStars (demoHost [Ok fullPage; Throw rateLimited] [])
                      (aliceWorld lastWeek ∅)))
   = settings (aliceWorld lastWeek ∅) /\
   data (world (fetchStars (demoHost [Ok fullPage; Throw rateLimited] [])
                  (aliceWorld lastWeek ∅)))
   = data (aliceWorld lastWeek ∅) /\
   trace (fetchStars (demoHost [Ok fullPage; Throw rateLimited] []) (aliceWorld lastWeek ∅))
   = trace (starsPhase (demoHost [Ok fullPage; Throw rateLimited] []) (aliceWorld lastWeek ∅))
     ++ [EvConsoleError "Error fetching GitHub stars:" rateLimited;
         EvNotice ("Error fetching GitHub stars: " +:+ rateLimited)]).
Proof.
  split.
  - split; [reflexivity|]. split; [vm_compute; reflexivity|].
    destruct (proj1 (watermark_set_iff_loop_completes (demoHost [Ok threeRepos] [])
                       (aliceWorld lastWeek ∅) eq_refl) 3)
      as (_ & _ & Hmem & _ & Hsaved & _); [vm_compute; reflexivity|].
    split; [exact Hmem|].
    destruct Hsaved as (_ & Hdisk & _); [reflexivity | exact Hdisk].
  - split; [vm_compute; reflexivity|].
    apply (proj1 (proj2 (watermark_set_iff_loop_completes
                           (demoHost [Ok fullPage; Throw rateLimited] [])
                           (aliceWorld lastWeek ∅) eq_refl))).
    vm_compute. reflexivity.
Defined.

(** A run whose page loop completes while [saveData] rejects: the
    watermark is set in memory and not saved, and the run ends with the
    console error and the notice, so that the settings on disk are not the
    settings in memory. *)
Lemma completed_run_not_saved :
  result (starsPhase (unsavedHost [Ok threeRepos] []) (aliceWorld lastWeek ∅)) = Ok 3 /\
  lastFetchDate (settings (world (fetchStars (unsavedHost [Ok threeRepos] [])
                                    (aliceWorld lastWeek ∅))))
  = "2025-01-02T03:04:05.000Z" /\
  lastFetchDate (data (world (fetchStars (unsavedHost [Ok threeRepos] [])
                                (aliceWorld lastWeek ∅))))
  = lastWeek /\
  data (world (fetchStars (unsavedHost [Ok threeRepos] []) (aliceWorld lastWeek ∅)))
  <> settings (world (fetchStars (unsavedHost [Ok threeRepos] []) (aliceWorld lastWeek ∅))) /\
  (forall s, ~ In (EvSaveData s)
               (trace (fetchStars (unsavedHost [Ok threeRepos] []) (aliceWorld lastWeek ∅)))) /\
  consoleErrors (trace (fetchStars (unsavedHost [Ok threeRepos] []) (aliceWorld lastWeek ∅)))
  <> [].
Proof.
  split; [vm_compute; reflexivity|]. split; [vm_compute; reflexivity|].
  split; [vm_compute; reflexivity|]. split; [vm_compute; discriminate|].
  split; [|vm_compute; discriminate].
  intros s. vm_compute. intros H.
  repeat (destruct H as [H|H]; [discriminate H|]). exact H.
Qed.

(** *** Traces *)

Lemma requestedPages_app t1 t2 :
  requestedPages (t1 ++ t2) = requestedPages t1 ++ requestedPages t2.
Proof.
  induction t1 as [|e t1 IH]; [reflexivity|].
  destruct e; simpl; rewrite ?IH; reflexivity.
Qed.

Lemma materialized_app t1 t2 : materialized (t1 ++ t2) = materialized t1 ++ materialized t2.
Proof.
  induction t1 as [|e t1 IH]; [reflexivity|].
  destruct e; simpl; rewrite ?IH; reflexivity.
Qed.

Lemma noStop_app t1 t2 : noStop (t1 ++ t2) = noStop t1 && noStop t2.
Proof. apply forallb_app. Qed.

Lemma vaultEvents_observed t :
  Forall (fun e => vaultEvent e = true) t ->
  requestedPages t = [] /\ materialized t = [] /\ noStop t = true.
Proof.
  induction 1 as [|e t He _ (IH1 & IH2 & IH3)]; [repeat split|].
  destruct e; try discriminate He; simpl; repeat split; assumption.
Qed.

Lemma quietAfterStopb_noStop_app t1 t2 :
  noStop t1 = true -> quietAfterStopb (t1 ++ t2) = quietAfterStopb t2.
Proof.
  induction t1 as [|e t1 IH]; intros H; [reflexivity|].
  simpl in H. apply andb_true_iff in H as [He H]. simpl.
  destruct (isStop e); [discriminate He|]. apply IH, H.
Qed.

Lemma quietAfterStopb_noStop t : noStop t = true -> quietAfterStopb t = true.
Proof.
  intros H. rewrite <- (app_nil_r t). rewrite quietAfterStopb_noStop_app by exact H.
  reflexivity.
Qed.

Lemma quiet_noStop t : forallb quiet t = true -> noStop t = true.
Proof.
  unfold noStop. rewrite !forallb_forall. intros H e He. specialize (H e He).
  destruct e; try discriminate H; reflexivity.
Qed.

Lemma quietAfterStopb_app_quiet t1 t2 :
  quietAfterStopb t1 = true -> forallb quiet t2 = true -> quietAfterStopb (t1 ++ t2) = true.
Proof.
  induction t1 as [|e t1 IH]; intros H1 H2; simpl in *.
  - apply quietAfterStopb_noStop, quiet_noStop, H2.
  - destruct (isStop e).
    + rewrite forallb_app, H1, H2. reflexivity.
    + apply IH; assumption.
Qed.

Lemma quietAfterStopb_sound t : quietAfterStopb t = true -> quietAfterStop t.
Proof.
  intros H t1. revert t H.
  induction t1 as [|e t1 IH]; intros t H item t2 ->; simpl in H.
  - apply Forall_forall. intros e He. rewrite forallb_forall in H. apply H.
    apply list_elem_of_In. exact He.
  - destruct (isStop e) eqn:E.
    + rewrite forallb_app in H. apply andb_true_iff in H as [_ H]. discriminate H.
    + eapply IH; [exact H | reflexivity].
Qed.

(** *** The page loop, one turn at a time *)

Section Loops.

Context {Item : Type}.
Variable ep : Endpoint.
Variable getPage : list (Result (list Item)) -> nat -> M (list Item * bool).
Variable createNote : Item -> M bool.
Variable itemName : Item -> string.
Variable fetchedNotice : nat -> string.
Variable firstFetch : bool.

Hypothesis getPage_eq :
  forall listing page w,
    getPage listing page w
    = (match headPage listing with
       | Ok items => Ok (items, length items =? perPage)
       | Throw e => Throw e
       end, w, [requestEvent ep w page]).

Local Abbreviation items_loop := (itemLoop createNote itemName firstFetch).
Local Abbreviation page_step := (pageStep getPage createNote itemName fetchedNotice firstFetch).
Local Abbreviation page_loop := (pageLoop getPage createNote itemName fetchedNotice firstFetch).

Lemma pageStep_eq listing page count w :
  page_step listing page count w
  = match headPage listing with
    | Throw e => (Throw e, w, [requestEvent ep w page])
    | Ok items =>
        let oi := items_loop items count w in
        match result oi with
        | Ok (continueFetch, count') =>
            (Ok ((length items =? perPage) && (firstFetch || continueFetch), count'),
             world oi,
             requestEvent ep w page :: trace oi ++ fetchedEvents fetchedNotice count')
        | Throw e => (Throw e, world oi, requestEvent ep w page :: trace oi)
        end
    end.
Proof.
  unfold pageStep. unfold bind at 1. rewrite getPage_eq.
  destruct (headPage listing) as [items|e]; [|reflexivity].
  unfold bind at 1. unfold result, world, trace.
  destruct (items_loop items count w) as [[[[continueFetch count']|e] w1] t1]; simpl;
    [|reflexivity].
  unfold bind, fetchedEvents, Notice, emit, ret.
  destruct (count' =? 0); simpl; destruct (length items =? perPage); simpl;
    rewrite ?app_nil_r; reflexivity.
Qed.

Lemma pageLoop_eq listing page count w :
  page_loop listing page count w
  = let os := page_step listing page count w in
    match result os with
    | Ok (again, count') =>
        match listing with
        | _ :: rest =>
            if again
            then let ol := page_loop rest (S page) count' (world os) in
                 (result ol, world ol, trace os ++ trace ol)
            else (Ok count', world os, trace os)
        | [] => (Ok count', world os, trace os)
        end
    | Throw e => (Throw e, world os, trace os)
    end.
Proof.
  destruct listing as [|response rest]; simpl pageLoop;
    unfold bind, result, world, trace;
    destruct (page_step _ page count w) as [[[[again count']|e] w1] t1]; simpl;
    try reflexivity.
  - unfold ret. rewrite app_nil_r. reflexivity.
  - destruct again.
    + destruct (page_loop rest (S page) count' w1) as [[r w2] t2].
      reflexivity.
    + unfold ret. rewrite app_nil_r. reflexivity.
Qed.

End Loops.

(** *** The incremental fetch *)

Section Incremental.

Context {Item : Type}.
Variable ep : Endpoint.
Variable getPage : list (Result (list Item)) -> nat -> M (list Item * bool).
Variable createNote : Item -> M bool.
Variable itemName : Item -> string.
Variable fetchedNotice : nat -> string.

Hypothesis getPage_eq :
  forall listing page w,
    getPage listing page w
    = (match headPage listing with
       | Ok items => Ok (items, length items =? perPage)
       | Throw e => Throw e
       end, w, [requestEvent ep w page]).

Hypothesis createNote_noStop : forall item w, noStop (trace (createNote item w)) = true.

Lemma itemLoop_incremental items :
  forall count w,
    let o := itemLoop createNote itemName false items count w in
    match result o with
    | Ok (false, _) => exists t item, trace o = t ++ [EvCreated item false] /\ noStop t = true
    | _ => noStop (trace o) = true
    end.
Proof.
  induction items as [|item rest IH]; intros count w; [reflexivity|].
  pose proof (createNote_noStop item w) as Hq.
  destruct (createNote item w) as [[[created|e] w1] t1] eqn:E; unfold trace in Hq; simpl in Hq.
  - rewrite (itemLoop_cons _ _ _ _ _ _ _ _ _ _ E). simpl.
    destruct created; simpl.
    + specialize (IH (S count) w1). simpl in IH. unfold result, trace in *.
      destruct (itemLoop createNote itemName false rest (S count) w1)
        as [[[[[|] c]|e] w2] t2]; simpl in *.
      * rewrite noStop_app, Hq. simpl. exact IH.
      * destruct IH as (t & item' & -> & Ht).
        exists (t1 ++ EvCreated (itemName item) true :: t), item'. split.
        -- rewrite <- app_assoc. reflexivity.
        -- rewrite noStop_app, Hq. simpl. exact Ht.
      * rewrite noStop_app, Hq. simpl. exact IH.
    + exists t1, (itemName item). split; [reflexivity | exact Hq].
  - rewrite (itemLoop_cons_throw _ _ _ _ _ _ _ _ _ _ E). exact Hq.
Qed.

Lemma fetchedEvents_quiet count : forallb quiet (fetchedEvents fetchedNotice count) = true.
Proof. unfold fetchedEvents. destruct (count =? 0); reflexivity. Qed.

Lemma pageStep_incremental listing page count w :
  let o := pageStep getPage createNote itemName fetchedNotice false listing page count w in
  match result o with
  | Ok (true, _) => noStop (trace o) = true
  | _ => quietAfterStopb (trace o) = true
  end.
Proof.
  simpl. rewrite (pageStep_eq ep _ _ _ _ _ getPage_eq).
  destruct (headPage listing) as [items|e]; [|reflexivity].
  pose proof (itemLoop_incremental items count w) as Hi. simpl in *.
  unfold result, world, trace in *.
  destruct (itemLoop createNote itemName false items count w)
    as [[[[continueFetch c]|e] w1] t1]; simpl in *.
  - destruct continueFetch.
    + assert (Hn : noStop (requestEvent ep w page :: t1 ++ fetchedEvents fetchedNotice c)
                   = true).
      { change (noStop (t1 ++ fetchedEvents fetchedNotice c) = true).
        rewrite noStop_app, Hi. apply quiet_noStop, fetchedEvents_quiet. }
      destruct ((length items =? perPage) && true);
        [exact Hn | apply quietAfterStopb_noStop, Hn].
    + rewrite andb_false_r. destruct Hi as (t & item & -> & Ht).
      change (quietAfterStopb ((t ++ [EvCreated item false]) ++ fetchedEvents fetchedNotice c)
              = true).
      rewrite <- app_assoc, quietAfterStopb_noStop_app by exact Ht.
      apply fetchedEvents_quiet.
  - apply quietAfterStopb_noStop. exact Hi.
Qed.

Lemma pageLoop_incremental listing :
  forall page count w,
    quietAfterStopb
      (trace (pageLoop getPage createNote itemName fetchedNotice false listing page count w))
    = true.
Proof.
  induction listing as [|response rest IH]; intros page count w; rewrite pageLoop_eq.
  - pose proof (pageStep_incremental [] page count w) as Hs.
    simpl in *; unfold result, world, trace in *.
    destruct (pageStep getPage createNote itemName fetchedNotice false [] page count w)
      as [[[[[|] c]|e] w1] t1]; simpl in *;
      [apply quietAfterStopb_noStop, Hs | exact Hs | exact Hs].
  - pose proof (pageStep_incremental (response :: rest) page count w) as Hs.
    simpl in *; unfold result, world, trace in *.
    destruct (pageStep getPage createNote itemName fetchedNotice false (response :: rest)
                page count w) as [[[[[|] c]|e] w1] t1]; simpl in *;
      [| exact Hs | exact Hs].
    specialize (IH (S page) c w1).
    destruct (pageLoop getPage createNote itemName fetchedNotice false rest (S page) c w1)
      as [[r w2] t2]. simpl in *.
    rewrite quietAfterStopb_noStop_app by exact Hs. exact IH.
Qed.

End Incremental.

Lemma getStarredRepos_eq listing page w :
  getStarredRepos listing page w
  = (match headPage listing with
     | Ok items => Ok (items, length items =? perPage)
     | Throw e => Throw e
     end, w, [requestEvent Starred w page]).
Proof.
  unfold getStarredRepos, requestPage, bind, getSettings, emit, liftResult, ret, requestEvent.
  destruct (headPage listing); reflexivity.
Qed.

Lemma getPullRequests_eq listing page w :
  getPullRequests listing page w
  = (match headPage listing with
     | Ok items => Ok (items, length items =? perPage)
     | Throw e => Throw e
     end, w, [requestEvent SearchPRs w page]).
Proof.
  unfold getPullRequests, requestPage, bind, getSettings, emit, liftResult, ret, requestEvent.
  destruct (headPage listing); reflexivity.
Qed.

Lemma createNoteForRepo_observed h repo w :
  requestedPages (trace (createNoteForRepo h repo w)) = [] /\
  materialized (trace (createNoteForRepo h repo w)) = [] /\
  noStop (trace (createNoteForRepo h repo w)) = true.
Proof. apply vaultEvents_observed, (Safe_createNoteForRepo h repo w). Qed.

Lemma createNoteForPR_observed h pr w :
  requestedPages (trace (createNoteForPR h pr w)) = [] /\
  materialized (trace (createNoteForPR h pr w)) = [] /\
  noStop (trace (createNoteForPR h pr w)) = true.
Proof. apply vaultEvents_observed, (Safe_createNoteForPR h pr w). Qed.

Lemma ensureDirectoryExists_observed h dirPath w :
  requestedPages (trace (ensureDirectoryExists h dirPath w)) = [] /\
  materialized (trace (ensureDirectoryExists h dirPath w)) = [] /\
  noStop (trace (ensureDirectoryExists h dirPath w)) = true.
Proof. apply vaultEvents_observed, (Safe_ensureDirectoryExists h dirPath w). Qed.

Lemma starsPhase_eq h w :
  starsPhase h w
  = let oe := ensureDirectoryExists h (targetDirectory (settings w)) w in
    match result oe with
    | Ok _ =>
        let ol := starsLoop h (String.eqb (lastFetchDate (settings w)) "") (world oe) in
        (result ol, world ol, trace oe ++ trace ol)
    | Throw e => (Throw e, world oe, trace oe)
    end.
Proof.
  destruct (Safe_ensureDirectoryExists h (targetDirectory (settings w)) w)
    as [(Hs & _) _].
  unfold starsPhase, ensureTargetDirectoryExists, bind, getSettings, result, world, trace in *.
  simpl in *.
  destruct (ensureDirectoryExists h (targetDirectory (settings w)) w) as [[[[]|e] w0] t0];
    simpl in *; [|reflexivity].
  rewrite Hs.
  destruct (starsLoop h (String.eqb (lastFetchDate (settings w)) "") w0) as [[r w1] t1].
  reflexivity.
Qed.

Lemma prsPhase_eq h w :
  prsPhase h w
  = let oe := ensureDirectoryExists h
                (orString (prDirectory (settings w)) (targetDirectory (settings w))) w in
    match result oe with
    | Ok _ =>
        let ol := prsLoop h (String.eqb (lastPRFetchDate (settings w)) "") (world oe) in
        (result ol, world ol, trace oe ++ trace ol)
    | Throw e => (Throw e, world oe, trace oe)
    end.
Proof.
  destruct (Safe_ensureDirectoryExists h
              (orString (prDirectory (settings w)) (targetDirectory (settings w))) w)
    as [(Hs & _) _].
  unfold prsPhase, ensurePRDirectoryExists, bind, getSettings, result, world, trace in *.
  simpl in *.
  destruct (ensureDirectoryExists h
              (orString (prDirectory (settings w)) (targetDirectory (settings w))) w)
    as [[[[]|e] w0] t0]; simpl in *; [|reflexivity].
  rewrite Hs.
  destruct (prsLoop h (String.eqb (lastPRFetchDate (settings w)) "") w0) as [[r w1] t1].
  reflexivity.
Qed.

Lemma finishStars_quiet h o :
  quietAfterStopb (trace o) = true -> quietAfterStopb (trace (finishStars h o)) = true.
Proof.
  destruct o as [[[n|e] w1] t1]; unfold trace; simpl; intros H.
  - destruct (saveDataFails h _); simpl;
      (apply quietAfterStopb_app_quiet; [exact H|]); [|destruct (n =? 0)]; reflexivity.
  - apply quietAfterStopb_app_quiet; [exact H | reflexivity].
Qed.

Lemma finishPRs_quiet h o :
  quietAfterStopb (trace o) = true -> quietAfterStopb (trace (finishPRs h o)) = true.
Proof.
  destruct o as [[[n|e] w1] t1]; unfold trace; simpl; intros H.
  - destruct (saveDataFails h _); simpl;
      (apply quietAfterStopb_app_quiet; [exact H|]); [|destruct (n =? 0)]; reflexivity.
  - apply quietAfterStopb_app_quiet; [exact H | reflexivity].
Qed.

Lemma starsLoop_incremental h w :
  quietAfterStopb (trace (starsLoop h false w)) = true.
Proof.
  apply (pageLoop_incremental Starred); [apply getStarredRepos_eq|].
  intros item w'. apply createNoteForRepo_observed.
Qed.

Lemma prsLoop_incremental h w :
  quietAfterStopb (trace (prsLoop h false w)) = true.
Proof.
  apply (pageLoop_incremental SearchPRs); [apply getPullRequests_eq|].
  intros item w'. apply createNoteForPR_observed.
Qed.

(** C1: in a run of [fetchStars] that starts with a non-empty
    [lastFetchDate] (of [fetchPullRequests], with a non-empty
    [lastPRFetchDate]), whenever a materializer call returns false, nothing
    follows it in the trace but notices, console output and the saving of
    the settings: no item is materialized after it, no page is requested
    after it and nothing more is written to the vault. *)
Theorem incremental_stops_at_first_existing h w :
  (lastFetchDate (settings w) <> "" -> quietAfterStop (trace (fetchStars h w))) /\
  (lastPRFetchDate (settings w) <> "" -> quietAfterStop (trace (fetchPullRequests h w))).
Proof.
  destruct (valid (settings w)) eqn:Hv.
  - split; intros Hmark; apply quietAfterStopb_sound.
    + rewrite (fetchStars_eq h w Hv). apply finishStars_quiet.
      rewrite starsPhase_eq. apply String.eqb_neq in Hmark. rewrite Hmark.
      pose proof (ensureDirectoryExists_observed h (targetDirectory (settings w)) w)
        as (_ & _ & Hq).
      pose proof (starsLoop_incremental h
                    (world (ensureDirectoryExists h (targetDirectory (settings w)) w)))
        as Hl.
      unfold result, world, trace in *.
      destruct (ensureDirectoryExists h (targetDirectory (settings w)) w)
        as [[[[]|e] w0] t0]; simpl in *.
      * destruct (starsLoop h false w0) as [[r w1] t1]. simpl in *.
        rewrite quietAfterStopb_noStop_app by exact Hq. exact Hl.
      * apply quietAfterStopb_noStop, Hq.
    + rewrite (fetchPullRequests_eq h w Hv). apply finishPRs_quiet.
      rewrite prsPhase_eq. apply String.eqb_neq in Hmark. rewrite Hmark.
      pose proof (ensureDirectoryExists_observed h
                    (orString (prDirectory (settings w)) (targetDirectory (settings w))) w)
        as (_ & _ & Hq).
      pose proof (prsLoop_incremental h
                    (world (ensureDirectoryExists h
                              (orString (prDirectory (settings w))
                                 (targetDirectory (settings w))) w)))
        as Hl.
      unfold result, world, trace in *.
      destruct (ensureDirectoryExists h
                  (orString (prDirectory (settings w)) (targetDirectory (settings w))) w)
        as [[[[]|e] w0] t0]; simpl in *.
      * destruct (prsLoop h false w0) as [[r w1] t1]. simpl in *.
        rewrite quietAfterStopb_noStop_app by exact Hq. exact Hl.
      * apply quietAfterStopb_noStop, Hq.
  - destruct (fetch_invalid h w Hv) as [[m1 H1] [m2 H2]]. rewrite H1, H2.
    split; intros _; apply quietAfterStopb_sound; reflexivity.
Qed.

Lemma incremental_stops_at_first_existing_witness :
  lastFetchDate (settings rocqWorld) <> "" /\
  Forall (fun e => quiet e = true)
    [EvNotice "Fetched 1 GitHub stars";
     EvSaveData (withLastFetchDate (settings rocqWorld) "2025-01-02T03:04:05.000Z");
     EvNotice "Total 1 GitHub stars"].
Proof.
  split; [discriminate|].
  apply (proj1 (incremental_stops_at_first_existing (demoHost [Ok threeRepos] []) rocqWorld)
           ltac:(discriminate)
           [EvRequest Starred "alice" 1 false;
            EvCreate "GitHub/Stars/rust-lang-rust.md";
            EvFrontMatter "GitHub/Stars/rust-lang-rust.md";
            EvCreated "rust-lang/rust" true;
            EvFrontMatter "GitHub/Stars/rocq-prover-rocq.md"]
           "rocq-prover/rocq").
  vm_compute. reflexivity.
Defined.

(** *** The first fetch *)

Lemma pagesFetched_shape {Item} (listing : list (Result (list Item))) :
  honoursPerPage listing ->
  exists front last,
    pagesFetched listing = front ++ [last] /\
    (forall p, In p front -> exists items, p = Ok items /\ length items = perPage) /\
    (forall items, last = Ok items -> length items < perPage) /\
    firstn (length (pagesFetched listing)) (listing ++ [Ok []]) = pagesFetched listing.
Proof.
  induction listing as [|response rest IH]; intros Hh.
  - exists [], (Ok []). repeat split.
    + intros p [].
    + intros items [= <-]. unfold perPage. simpl. lia.
  - destruct response as [items|e].
    + simpl. destruct (length items =? perPage) eqn:E.
      * destruct IH as (front & last & Hf & Hfront & Hlast & Hpre).
        { intros items' Hin. apply Hh. right. exact Hin. }
        exists (Ok items :: front), last. rewrite Hf. repeat split.
        -- intros p [<-|Hin]; [|apply Hfront, Hin].
           exists items. split; [reflexivity | apply Nat.eqb_eq, E].
        -- exact Hlast.
        -- simpl. f_equal. rewrite <- Hf. exact Hpre.
      * exists [], (Ok items). repeat split.
        -- intros p [].
        -- intros items' [= <-]. apply Nat.eqb_neq in E.
           specialize (Hh items (or_introl eq_refl)). lia.
    + exists [], (Throw e). repeat split.
      * intros p [].
      * intros items [=].
Qed.

Section FirstFetch.

Context {Item : Type}.
Variable ep : Endpoint.
Variable getPage : list (Result (list Item)) -> nat -> M (list Item * bool).
Variable createNote : Item -> M bool.
Variable itemName : Item -> string.
Variable fetchedNotice : nat -> string.

Hypothesis getPage_eq :
  forall listing page w,
    getPage listing page w
    = (match headPage listing with
       | Ok items => Ok (items, length items =? perPage)
       | Throw e => Throw e
       end, w, [requestEvent ep w page]).

Hypothesis createNote_returns : forall item w, exists b, result (createNote item w) = Ok b.

Hypothesis createNote_observed :
  forall item w,
    requestedPages (trace (createNote item w)) = [] /\
    materialized (trace (createNote item w)) = [].

Lemma itemLoop_first items :
  forall count w,
    let o := itemLoop createNote itemName true items count w in
    result o = Ok (true, count + length items) /\
    requestedPages (trace o) = [] /\
    materialized (trace o) = map itemName items.
Proof.
  induction items as [|item rest IH]; intros count w.
  - simpl. rewrite Nat.add_0_r. repeat split.
  - destruct (createNote_returns item w) as [b Hb].
    destruct (createNote_observed item w) as [Hr Hm].
    destruct (createNote item w) as [[r w1] t1] eqn:E.
    unfold result, trace in Hb, Hr, Hm. simpl in Hb, Hr, Hm. subst r.
    cbv zeta. rewrite (itemLoop_cons _ _ _ _ _ _ _ _ _ _ E). simpl.
    destruct (IH (S count) w1) as (IH1 & IH2 & IH3). simpl in *.
    unfold result, trace in *. simpl.
    rewrite requestedPages_app, materialized_app, Hr, Hm. simpl.
    rewrite IH1, IH2, IH3. repeat split. f_equal. f_equal. lia.
Qed.

Lemma fetchedEvents_observed count :
  requestedPages (fetchedEvents fetchedNotice count) = [] /\
  materialized (fetchedEvents fetchedNotice count) = [].
Proof. unfold fetchedEvents. destruct (count =? 0); split; reflexivity. Qed.

Lemma pageStep_first listing page count w :
  let o := pageStep getPage createNote itemName fetchedNotice true listing page count w in
  requestedPages (trace o) = [page] /\
  match headPage listing with
  | Throw e => result o = Throw e /\ materialized (trace o) = []
  | Ok items =>
      result o = Ok (length items =? perPage, count + length items) /\
      materialized (trace o) = map itemName items
  end.
Proof.
  simpl. rewrite (pageStep_eq ep _ _ _ _ _ getPage_eq).
  destruct (headPage listing) as [items|e]; [|repeat split].
  destruct (itemLoop_first items count w) as (H1 & H2 & H3). simpl in *.
  destruct (fetchedEvents_observed (count + length items)) as [Hf1 Hf2].
  unfold result, world, trace in *.
  destruct (itemLoop createNote itemName true items count w) as [[r w1] t1].
  simpl in *. subst r. simpl.
  rewrite requestedPages_app, materialized_app, H2, H3, Hf1, Hf2, !app_nil_r, andb_true_r.
  repeat split.
Qed.

Lemma pageLoop_first listing :
  forall page count w,
    let o := pageLoop getPage createNote itemName fetchedNotice true listing page count w in
    requestedPages (trace o) = seq page (length (pagesFetched listing)) /\
    materialized (trace o) = map itemName (itemsOf (pagesFetched listing)).
Proof.
  induction listing as [|response rest IH]; intros page count w; cbv zeta;
    rewrite pageLoop_eq.
  - destruct (pageStep_first [] page count w) as (Hr & Hres & Hm). simpl in *.
    unfold result, world, trace in *.
    destruct (pageStep getPage createNote itemName fetchedNotice true [] page count w)
      as [[r w1] t1]. simpl in *. subst r. simpl. split; assumption.
  - destruct (pageStep_first (response :: rest) page count w) as (Hr & Hstep). simpl in *.
    unfold result, world, trace in *.
    destruct (pageStep getPage createNote itemName fetchedNotice true (response :: rest)
                page count w) as [[r w1] t1]. simpl in *.
    destruct response as [items|e]; destruct Hstep as [-> Hm]; simpl.
    + destruct (length items =? perPage); simpl.
      * destruct (IH (S page) (count + length items) w1) as [IH1 IH2]. simpl in *.
        destruct (pageLoop getPage createNote itemName fetchedNotice true rest (S page)
                    (count + length items) w1) as [[r w2] t2]. simpl in *.
        rewrite requestedPages_app, materialized_app, Hr, Hm, IH1, IH2, map_app.
        split; reflexivity.
      * rewrite app_nil_r. split; assumption.
    + split; assumption.
Qed.

End FirstFetch.

Lemma starsLoop_first h w :
  requestedPages (trace (starsLoop h true w))
  = seq 1 (length (pagesFetched (starredPages h))) /\
  materialized (trace (starsLoop h true w))
  = map full_name (itemsOf (pagesFetched (starredPages h))).
Proof.
  apply (pageLoop_first Starred); [apply getStarredRepos_eq | |].
  - intros item w'. rewrite createNoteForRepo_eq. eexists. reflexivity.
  - intros item w'. destruct (createNoteForRepo_observed h item w') as (H1 & H2 & _).
    split; assumption.
Qed.

Lemma finishStars_observed h o :
  requestedPages (trace (finishStars h o)) = requestedPages (trace o) /\
  materialized (trace (finishStars h o)) = materialized (trace o) /\
  createdFiles (trace (finishStars h o)) = createdFiles (trace o).
Proof.
  destruct o as [[[n|e] w1] t1]; unfold trace; simpl;
    [destruct (saveDataFails h _); simpl|];
    rewrite requestedPages_app, materialized_app, createdFiles_app;
    [|destruct (n =? 0)|]; simpl; rewrite !app_nil_r; repeat split.
Qed.

Lemma ensureTargetDirectoryExists_eq h w :
  ensureTargetDirectoryExists h w = ensureDirectoryExists h (targetDirectory (settings w)) w.
Proof.
  unfold ensureTargetDirectoryExists, bind, getSettings.
  destruct (ensureDirectoryExists h (targetDirectory (settings w)) w) as [[r w1] t1].
  reflexivity.
Qed.

(** What a run of [fetchStars] in first-fetch mode asks for and
    materializes, once the target directory is there. *)
Lemma backfill_observed h w :
  valid (settings w) = true ->
  lastFetchDate (settings w) = "" ->
  result (ensureTargetDirectoryExists h w) = Ok tt ->
  requestedPages (trace (fetchStars h w))
  = seq 1 (length (pagesFetched (starredPages h))) /\
  materialized (trace (fetchStars h w))
  = map full_name (itemsOf (pagesFetched (starredPages h))).
Proof.
  intros Hv Hmark Hdir. rewrite ensureTargetDirectoryExists_eq in Hdir.
  rewrite (fetchStars_eq h w Hv).
  destruct (finishStars_observed h (starsPhase h w)) as (-> & -> & _).
  rewrite starsPhase_eq, Hmark. simpl.
  destruct (ensureDirectoryExists_observed h (targetDirectory (settings w)) w)
    as (Hr & Hm & _).
  destruct (starsLoop_first h
              (world (ensureDirectoryExists h (targetDirectory (settings w)) w)))
    as [Hl1 Hl2].
  unfold result, world, trace in *.
  destruct (ensureDirectoryExists h (targetDirectory (settings w)) w) as [[r w0] t0].
  simpl in *. subst r.
  destruct (starsLoop h true w0) as [[r w1] t1]. simpl in *.
  rewrite requestedPages_app, materialized_app, Hr, Hm, Hl1, Hl2. split; reflexivity.
Qed.

(** C2: a run of [fetchStars] that starts with an empty [lastFetchDate]
    requests the pages 1, 2, ... and materializes every item of every page
    it gets, whatever the vault holds; on a remote that honours [per_page],
    every page before the last one requested holds [perPage] items and the
    last one, when it is answered, holds fewer. [hasMore] is the comparison
    of the page's length with [perPage] and nothing else. *)
Theorem first_fetch_backfills h w :
  valid (settings w) = true ->
  lastFetchDate (settings w) = "" ->
  result (ensureTargetDirectoryExists h w) = Ok tt ->
  honoursPerPage (starredPages h) ->
  requestedPages (trace (fetchStars h w))
  = seq 1 (length (pagesFetched (starredPages h))) /\
  materialized (trace (fetchStars h w))
  = map full_name (itemsOf (pagesFetched (starredPages h))) /\
  (exists front last,
     pagesFetched (starredPages h) = front ++ [last] /\
     (forall p, In p front -> exists items, p = Ok items /\ length items = perPage) /\
     (forall items, last = Ok items -> length items < perPage) /\
     firstn (length (pagesFetched (starredPages h))) (starredPages h ++ [Ok []])
     = pagesFetched (starredPages h)) /\
  (forall listing page w' stars hasMore,
     result (getStarredRepos listing page w') = Ok (stars, hasMore) ->
     hasMore = (length stars =? perPage)).
Proof.
  intros Hv Hmark Hdir Hh.
  destruct (backfill_observed h w Hv Hmark Hdir) as [H1 H2].
  split; [exact H1|]. split; [exact H2|]. split; [apply pagesFetched_shape, Hh|].
  intros listing page w' stars hasMore. rewrite getStarredRepos_eq. unfold result. simpl.
  destruct (headPage listing); intros [= <- <-]. reflexivity.
Qed.

Lemma twoPages_honour : honoursPerPage twoPages.
Proof.
  intros items [H|[H|[]]]; injection H as <-; apply Nat.leb_le; vm_compute; reflexivity.
Defined.

Lemma first_fetch_backfills_witness :
  valid (settings (aliceWorld "" ∅)) = true /\
  lastFetchDate (settings (aliceWorld "" ∅)) = "" /\
  result (ensureTargetDirectoryExists (demoHost twoPages []) (aliceWorld "" ∅)) = Ok tt /\
  requestedPages (trace (fetchStars (demoHost twoPages []) (aliceWorld "" ∅)))
  = seq 1 (length (pagesFetched (starredPages (demoHost twoPages [])))).
Proof.
  split; [reflexivity|]. split; [reflexivity|]. split; [vm_compute; reflexivity|].
  apply (first_fetch_backfills (demoHost twoPages []) (aliceWorld "" ∅)
           eq_refl eq_refl).
  - vm_compute. reflexivity.
  - exact twoPages_honour.
Defined.

(** The two pages are requested, and all 103 repositories materialized. *)
Example backfill_two_pages :
  requestedPages (trace (fetchStars (demoHost twoPages []) (aliceWorld "" ∅))) = [1; 2] /\
  length (materialized (trace (fetchStars (demoHost twoPages []) (aliceWorld "" ∅)))) = 103.
Proof. split; vm_compute; reflexivity. Qed.

(** *** Directory creation, again *)

Lemma ensureDirs_cons h cur dir rest w :
  let cur' := if nonEmpty cur then cur +:+ "/" +:+ dir else dir in
  ensureDirs h cur (dir :: rest) w
  = if present w cur' then ensureDirs h cur' rest w
    else if createFolderFails h cur'
         then (Throw ("Failed to create folder " +:+ cur'), w, [])
         else let o := ensureDirs h cur' rest (setEntry w cur' TFolder) in
              (result o, world o, EvCreateFolder cur' :: trace o).
Proof.
  intros cur'. simpl ensureDirs. fold cur'. unfold present.
  unfold bind at 1. unfold adapterExists, bind, getVault, ret. simpl.
  destruct (vault w !! cur') eqn:E; simpl.
  - destruct (ensureDirs h cur' rest w) as [[r w1] t1]. reflexivity.
  - unfold createFolder, bind, getVault, setVault, emit, throw. simpl.
    destruct (createFolderFails h cur'); simpl; [reflexivity|].
    rewrite E. simpl. unfold setEntry, result, world, trace.
    destruct (ensureDirs h cur' rest _) as [[r w1] t1]. reflexivity.
Qed.

Lemma ensureDirs_folderEvents h dirs :
  forall cur w, Forall (fun e => folderEvent e = true) (trace (ensureDirs h cur dirs w)).
Proof.
  induction dirs as [|dir rest IH]; intros cur w; [constructor|].
  rewrite ensureDirs_cons. cbv zeta.
  destruct (present w _); [apply IH|].
  destruct (createFolderFails h _); [constructor|].
  constructor; [reflexivity | apply IH].
Qed.

Lemma folderEvents_observed t :
  Forall (fun e => folderEvent e = true) t ->
  createdFiles t = [] /\ consoleErrors t = [].
Proof.
  induction 1 as [|e t He _ [IH1 IH2]]; [split; reflexivity|].
  destruct e; try discriminate He. simpl. split; assumption.
Qed.

Lemma ensureDirs_present h dirs :
  forall cur w,
    result (ensureDirs h cur dirs w) = Ok tt ->
    forall p, In p (dirPaths cur dirs) -> present (world (ensureDirs h cur dirs w)) p = true.
Proof.
  induction dirs as [|dir rest IH]; intros cur w Hok p Hin; [destruct Hin|].
  simpl in Hin. rewrite ensureDirs_cons in *. cbv zeta in *.
  set (cur' := if nonEmpty cur then cur +:+ "/" +:+ dir else dir) in *.
  destruct (present w cur') eqn:Hp.
  - destruct Hin as [<-|Hin]; [|apply IH; assumption].
    eapply evolves_present; [apply (Safe_ensureDirs h rest cur' w) | exact Hp].
  - destruct (createFolderFails h cur'); [discriminate Hok|].
    unfold result, world in *. simpl in *.
    destruct Hin as [<-|Hin]; [|apply IH; assumption].
    eapply evolves_present;
      [apply (Safe_ensureDirs h rest cur' (setEntry w cur' TFolder))|].
    unfold present, setEntry. simpl. rewrite lookup_insert_eq. reflexivity.
Qed.

Lemma ensureDirs_noop h dirs :
  forall cur w,
    (forall p, In p (dirPaths cur dirs) -> present w p = true) ->
    ensureDirs h cur dirs w = (Ok tt, w, []).
Proof.
  induction dirs as [|dir rest IH]; intros cur w Hall; [reflexivity|].
  rewrite ensureDirs_cons. cbv zeta. simpl in Hall.
  rewrite (Hall _ (or_introl eq_refl)). apply IH.
  intros p Hin. apply Hall. right. exact Hin.
Qed.

Lemma ensureDirs_reliable h dirs :
  (forall p, createFolderFails h p = false) ->
  forall cur w, result (ensureDirs h cur dirs w) = Ok tt.
Proof.
  intros Hrel. induction dirs as [|dir rest IH]; intros cur w; [reflexivity|].
  rewrite ensureDirs_cons. cbv zeta.
  destruct (present w _); [apply IH|]. rewrite Hrel. apply IH.
Qed.

(** *** What a page loop creates *)

Lemma evolves_absent w w' p : evolves w w' -> present w' p = false -> present w p = false.
Proof.
  intros He Hp. destruct (present w p) eqn:E; [|reflexivity].
  rewrite (evolves_present w w' p He E) in Hp. discriminate Hp.
Qed.

Section Created.

Context {Item : Type}.
Variable ep : Endpoint.
Variable getPage : list (Result (list Item)) -> nat -> M (list Item * bool).
Variable createNote : Item -> M bool.
Variable itemName : Item -> string.
Variable fetchedNotice : nat -> string.
Variable firstFetch : bool.
Variable fileName : GitHubPluginSettings -> Item -> string.

Hypothesis getPage_eq :
  forall listing page w,
    getPage listing page w
    = (match headPage listing with
       | Ok items => Ok (items, length items =? perPage)
       | Throw e => Throw e
       end, w, [requestEvent ep w page]).

Hypothesis Safe_createNote : forall item, Safe loopEvent (createNote item).

Hypothesis createNote_files :
  forall item w p,
    In p (createdFiles (trace (createNote item w))) ->
    p = fileName (settings w) item /\ present w p = false.

Lemma Safe_getPage_eq listing page : Safe loopEvent (getPage listing page).
Proof.
  intros w. rewrite getPage_eq. unfold world, trace. simpl.
  split; [apply evolves_refl|]. split; [repeat constructor|].
  intros p n Hn. left. exists n. exact Hn.
Qed.

Lemma itemLoop_created items :
  forall count w p,
    In p (createdFiles (trace (itemLoop createNote itemName firstFetch items count w))) ->
    present w p = false /\ exists item, In item items /\ p = fileName (settings w) item.
Proof.
  induction items as [|item rest IH]; intros count w p Hin; [destruct Hin|].
  destruct (Safe_createNote item w) as (Hev & _).
  pose proof (createNote_files item w p) as Hfiles.
  destruct (createNote item w) as [[[created|e] w1] t1] eqn:E;
    unfold world, trace in Hev, Hfiles; simpl in Hev, Hfiles.
  - rewrite (itemLoop_cons _ _ _ _ _ _ _ _ _ _ E) in Hin.
    assert (Hhead : In p (createdFiles t1) ->
                    present w p = false /\
                    exists item0, In item0 (item :: rest) /\ p = fileName (settings w) item0).
    { intros H1. destruct (Hfiles H1) as [-> Hp]. split; [exact Hp|].
      exists item. split; [left; reflexivity | reflexivity]. }
    destruct (negb firstFetch && negb created); unfold trace in Hin; simpl in Hin;
      rewrite createdFiles_app in Hin; apply in_app_or in Hin as [Hin|Hin];
      try (apply Hhead; exact Hin); simpl in Hin; [destruct Hin|].
    destruct (IH (S count) w1 p Hin) as (Hp & item0 & Hitem & ->).
    split; [eapply evolves_absent; eassumption|].
    exists item0. split; [right; exact Hitem|].
    destruct Hev as (-> & _). reflexivity.
  - rewrite (itemLoop_cons_throw _ _ _ _ _ _ _ _ _ _ E) in Hin.
    destruct (Hfiles Hin) as [-> Hp]. split; [exact Hp|].
    exists item. split; [left; reflexivity | reflexivity].
Qed.

Lemma pageStep_created listing page count w p :
  In p (createdFiles
          (trace (pageStep getPage createNote itemName fetchedNotice firstFetch
                    listing page count w))) ->
  present w p = false /\
  exists item, In item (itemsOf [headPage listing]) /\ p = fileName (settings w) item.
Proof.
  rewrite (pageStep_eq ep _ _ _ _ _ getPage_eq).
  destruct (headPage listing) as [items|e]; [|unfold trace; simpl; intros []].
  pose proof (itemLoop_created items count w p) as Hi. simpl in *.
  unfold result, world, trace in *.
  destruct (itemLoop createNote itemName firstFetch items count w)
    as [[[[continueFetch c]|e] w1] t1]; simpl in *; intros Hin.
  - rewrite createdFiles_app in Hin. apply in_app_or in Hin as [Hin|Hin].
    + destruct (Hi Hin) as (Hp & item & Hitem & ->). split; [exact Hp|].
      exists item. rewrite app_nil_r. split; [exact Hitem | reflexivity].
    + unfold fetchedEvents in Hin. destruct (c =? 0); destruct Hin.
  - destruct (Hi Hin) as (Hp & item & Hitem & ->). split; [exact Hp|].
    exists item. rewrite app_nil_r. split; [exact Hitem | reflexivity].
Qed.

Lemma pageLoop_created listing :
  forall page count w p,
    In p (createdFiles
            (trace (pageLoop getPage createNote itemName fetchedNotice firstFetch
                      listing page count w))) ->
    present w p = false /\
    exists item, In item (itemsOf listing) /\ p = fileName (settings w) item.
Proof.
  induction listing as [|response rest IH]; intros page count w p; rewrite pageLoop_eq.
  - pose proof (pageStep_created [] page count w p) as Hs. simpl in *.
    unfold result, world, trace in *.
    destruct (pageStep getPage createNote itemName fetchedNotice firstFetch [] page count w)
      as [[[[again c]|e] w1] t1]; simpl in *; exact Hs.
  - pose proof (pageStep_created (response :: rest) page count w p) as Hs.
    destruct (Safe_pageStep getPage createNote itemName fetchedNotice firstFetch loopEvent
                ltac:(reflexivity) ltac:(reflexivity) Safe_getPage_eq Safe_createNote
                (response :: rest) page count w) as (Hev & _).
    assert (Hhead : forall item, In item (itemsOf [response]) ->
                                 In item (itemsOf (response :: rest))).
    { intros item. destruct response as [items|e]; simpl; [|intros []].
      rewrite app_nil_r. intros Hin. apply in_or_app. left. exact Hin. }
    assert (Htail : forall item, In item (itemsOf rest) ->
                                 In item (itemsOf (response :: rest))).
    { intros item Hin. destruct response as [items|e]; simpl; [|exact Hin].
      apply in_or_app. right. exact Hin. }
    simpl headPage in Hs. unfold result, world, trace in *.
    destruct (pageStep getPage createNote itemName fetchedNotice firstFetch
                (response :: rest) page count w) as [[[[again c]|e] w1] t1];
      cbn [fst snd] in *.
    + destruct again.
      * specialize (IH (S page) c w1 p).
        destruct (pageLoop getPage createNote itemName fetchedNotice firstFetch rest
                    (S page) c w1) as [[r w2] t2]. simpl in *.
        intros Hin. rewrite createdFiles_app in Hin. apply in_app_or in Hin as [Hin|Hin].
        -- destruct (Hs Hin) as (Hp & item & Hitem & ->). split; [exact Hp|].
           exists item. split; [apply Hhead, Hitem | reflexivity].
        -- destruct (IH Hin) as (Hp & item & Hitem & ->).
           split; [eapply evolves_absent; eassumption|].
           exists item. split; [apply Htail, Hitem|].
           destruct Hev as (-> & _). reflexivity.
      * simpl. intros Hin. destruct (Hs Hin) as (Hp & item & Hitem & ->).
        split; [exact Hp|]. exists item. split; [apply Hhead, Hitem | reflexivity].
    + simpl. intros Hin. destruct (Hs Hin) as (Hp & item & Hitem & ->).
      split; [exact Hp|]. exists item. split; [apply Hhead, Hitem | reflexivity].
Qed.



End Created.

Lemma createNoteForRepo_files h repo w p :
  In p (createdFiles (trace (createNoteForRepo h repo w))) ->
  p = repoFileName (settings w) repo /\ present w p = false.
Proof.
  intros Hin. destruct (createNoteForRepo_frame h repo w) as (_ & Hfiles & _).
  destruct (Hfiles p Hin) as [-> Hp]. split; [reflexivity | exact Hp].
Qed.

Lemma Safe_createNoteForRepo_loop h repo : Safe loopEvent (createNoteForRepo h repo).
Proof.
  eapply Safe_weaken; [apply vaultEvent_loopEvent | apply Safe_createNoteForRepo].
Qed.

Lemma starsLoop_created h firstFetch w p :
  In p (createdFiles (trace (starsLoop h firstFetch w))) ->
  present w p = false /\
  exists repo, In repo (itemsOf (starredPages h)) /\ p = repoFileName (settings w) repo.
Proof.
  apply (pageLoop_created Starred _ _ _ _ _ repoFileName getStarredRepos_eq
           (Safe_createNoteForRepo_loop h) (createNoteForRepo_files h)).
Qed.

Lemma fetchStarsForce_eq h w :
  saveDataFails h (withLastFetchDate (settings w) "") = false ->
  fetchStarsForce h w
  = (result (fetchStars h (clearedStars w)), world (fetchStars h (clearedStars w)),
     EvSaveData (withLastFetchDate (settings w) "") :: trace (fetchStars h (clearedStars w))).
Proof.
  intros Hsave.
  unfold fetchStarsForce, bind, getSettings, setSettings, saveSettings, result, world, trace.
  simpl. rewrite Hsave. fold (clearedStars w).
  destruct (fetchStars h (clearedStars w)) as [[r w1] t1]. reflexivity.
Qed.

(** When the saving of the cleared watermark is rejected, the command
    stops there: the watermark is cleared in memory only. *)
Lemma fetchStarsForce_unsaved h w :
  saveDataFails h (withLastFetchDate (settings w) "") = true ->
  fetchStarsForce h w
  = (Throw saveDataError,
     {| settings := withLastFetchDate (settings w) ""; data := data w; vault := vault w |},
     []).
Proof.
  intros Hsave.
  unfold fetchStarsForce, bind, getSettings, setSettings, saveSettings.
  simpl. rewrite Hsave. reflexivity.
Qed.

Lemma fetchPullRequestsForce_eq h w :
  saveDataFails h (withLastPRFetchDate (settings w) "") = false ->
  fetchPullRequestsForce h w
  = (result (fetchPullRequests h (clearedPRs w)), world (fetchPullRequests h (clearedPRs w)),
     EvSaveData (withLastPRFetchDate (settings w) "")
       :: trace (fetchPullRequests h (clearedPRs w))).
Proof.
  intros Hsave.
  unfold fetchPullRequestsForce, bind, getSettings, setSettings, saveSettings,
    result, world, trace.
  simpl. rewrite Hsave. fold (clearedPRs w).
  destruct (fetchPullRequests h (clearedPRs w)) as [[r w1] t1]. reflexivity.
Qed.

Lemma fetchPullRequestsForce_unsaved h w :
  saveDataFails h (withLastPRFetchDate (settings w) "") = true ->
  fetchPullRequestsForce h w
  = (Throw saveDataError,
     {| settings := withLastPRFetchDate (settings w) ""; data := data w; vault := vault w |},
     []).
Proof.
  intros Hsave.
  unfold fetchPullRequestsForce, bind, getSettings, setSettings, saveSettings.
  simpl. rewrite Hsave. reflexivity.
Qed.

Lemma ensureTargetDirectoryExists_reliable h w :
  (forall p, createFolderFails h p = false) ->
  result (ensureTargetDirectoryExists h w) = Ok tt.
Proof.
  intros Hrel. rewrite ensureTargetDirectoryExists_eq. apply ensureDirs_reliable, Hrel.
Qed.

Lemma starsPhase_created h w p :
  In p (createdFiles (trace (starsPhase h w))) ->
  present w p = false /\
  exists repo, In repo (itemsOf (starredPages h)) /\ p = repoFileName (settings w) repo.
Proof.
  rewrite starsPhase_eq. cbv zeta.
  destruct (Safe_ensureDirectoryExists h (targetDirectory (settings w)) w) as (Hev & _).
  destruct (folderEvents_observed _
              (ensureDirs_folderEvents h
                 (List.filter JS.trimTruthy (JS.split "/" (targetDirectory (settings w))))
                 "" w)) as [Hc _].
  fold (ensureDirectoryExists h (targetDirectory (settings w)) w) in Hc.
  pose proof (starsLoop_created h (String.eqb (lastFetchDate (settings w)) "")
                (world (ensureDirectoryExists h (targetDirectory (settings w)) w)) p) as Hl.
  unfold result, world, trace in *.
  destruct (ensureDirectoryExists h (targetDirectory (settings w)) w) as [[[[]|e] w0] t0];
    cbn [fst snd] in *.
  - destruct (starsLoop h (String.eqb (lastFetchDate (settings w)) "") w0) as [[r w1] t1].
    cbn [fst snd] in *. rewrite createdFiles_app, Hc. simpl. intros Hin.
    destruct (Hl Hin) as (Hp & repo & Hrepo & ->).
    split; [eapply evolves_absent; eassumption|].
    exists repo. split; [exact Hrepo|]. destruct Hev as (-> & _). reflexivity.
  - rewrite Hc. intros [].
Qed.

(** C7: the forced command clears and saves the watermark and then runs
    [fetchStars]; on a host whose folder creation does not fail and on
    which that saving goes through, the run requests the same pages and
    materializes the same items as a run from any world with the same
    settings and an empty watermark, a first-ever run on an empty vault
    among them: the full backfill. When the saving is rejected the command
    throws before any request, with the watermark cleared in memory only.
    In either case it creates a file only at the path of a listed
    repository at which nothing was before, so never a second file for a
    repository that has one; every file that was in the vault is still
    there with its body, and every file in the vault afterwards was there
    before or was created by the run. *)
Theorem force_is_first_fetch h w :
  valid (settings w) = true ->
  (forall p, createFolderFails h p = false) ->
  (saveDataFails h (withLastFetchDate (settings w) "") = false ->
   fetchStarsForce h w
   = (result (fetchStars h (clearedStars w)), world (fetchStars h (clearedStars w)),
      EvSaveData (withLastFetchDate (settings w) "")
        :: trace (fetchStars h (clearedStars w))) /\
   (forall w',
      settings w' = withLastFetchDate (settings w) "" ->
      requestedPages (trace (fetchStarsForce h w)) = requestedPages (trace (fetchStars h w')) /\
      materialized (trace (fetchStarsForce h w)) = materialized (trace (fetchStars h w'))) /\
   requestedPages (trace (fetchStarsForce h w))
   = seq 1 (length (pagesFetched (starredPages h))) /\
   materialized (trace (fetchStarsForce h w))
   = map full_name (itemsOf (pagesFetched (starredPages h)))) /\
  (saveDataFails h (withLastFetchDate (settings w) "") = true ->
   fetchStarsForce h w
   = (Throw saveDataError,
      {| settings := withLastFetchDate (settings w) ""; data := data w; vault := vault w |},
      [])) /\
  (forall p,
     In p (createdFiles (trace (fetchStarsForce h w))) ->
     present w p = false /\
     exists repo, In repo (itemsOf (starredPages h)) /\ p = repoFileName (settings w) repo) /\
  (forall p n,
     vault w !! p = Some (TFile n) ->
     exists n', vault (world (fetchStarsForce h w)) !! p = Some (TFile n') /\
                body n' = body n) /\
  (forall p n,
     vault (world (fetchStarsForce h w)) !! p = Some (TFile n) ->
     (exists n0, vault w !! p = Some (TFile n0)) \/
     In p (createdFiles (trace (fetchStarsForce h w)))).
Proof.
  intros Hv Hrel.
  split; [|split; [apply fetchStarsForce_unsaved|]].
  - intros Hsave.
    assert (Hback : forall w', settings w' = withLastFetchDate (settings w) "" ->
              requestedPages (trace (fetchStars h w'))
              = seq 1 (length (pagesFetched (starredPages h))) /\
              materialized (trace (fetchStars h w'))
              = map full_name (itemsOf (pagesFetched (starredPages h)))).
    { intros w' Hs. apply backfill_observed.
      - rewrite Hs. exact Hv.
      - rewrite Hs. reflexivity.
      - apply ensureTargetDirectoryExists_reliable, Hrel. }
    destruct (Hback (clearedStars w) eq_refl) as [Hr Hm].
    rewrite (fetchStarsForce_eq h w Hsave), !trace_of.
    change (requestedPages (EvSaveData (withLastFetchDate (settings w) "")
                              :: trace (fetchStars h (clearedStars w))))
      with (requestedPages (trace (fetchStars h (clearedStars w)))).
    change (materialized (EvSaveData (withLastFetchDate (settings w) "")
                            :: trace (fetchStars h (clearedStars w))))
      with (materialized (trace (fetchStars h (clearedStars w)))).
    split; [reflexivity|]. split; [|split; [exact Hr | exact Hm]].
    intros w' Hs. destruct (Hback w' Hs) as [-> ->].
    split; [exact Hr | exact Hm].
  - destruct (saveDataFails h (withLastFetchDate (settings w) "")) eqn:Hsave.
    + rewrite (fetchStarsForce_unsaved h w Hsave), trace_of, world_of. cbn [vault].
      split; [intros p []|]. split.
      * intros p n Hn. exists n. split; [exact Hn | reflexivity].
      * intros p n Hn. left. exists n. exact Hn.
    + assert (Hvc : valid (settings (clearedStars w)) = true) by exact Hv.
      destruct (Safe_starsPhase h (clearedStars w)) as (Hev & _ & Hnew).
      pose proof (starsPhase_created h (clearedStars w)) as Hcr.
      destruct (finishStars_observed h (starsPhase h (clearedStars w))) as (_ & _ & Hfc).
      rewrite <- (fetchStars_eq h _ Hvc) in Hfc.
      assert (Hvault : vault (world (fetchStars h (clearedStars w)))
                       = vault (world (starsPhase h (clearedStars w)))).
      { rewrite (fetchStars_eq h _ Hvc). unfold world, finishStars.
        destruct (starsPhase h (clearedStars w)) as [[[n|e] w1] t1]; [|reflexivity].
        destruct (saveDataFails h (withLastFetchDate (settings w1) (toISOString h)));
          reflexivity. }
      rewrite (fetchStarsForce_eq h w Hsave), trace_of, world_of.
      change (createdFiles (EvSaveData (withLastFetchDate (settings w) "")
                              :: trace (fetchStars h (clearedStars w))))
        with (createdFiles (trace (fetchStars h (clearedStars w)))).
      split; [|split].
      * intros p Hin. rewrite Hfc in Hin. exact (Hcr p Hin).
      * intros p n Hn. rewrite Hvault. destruct Hev as (_ & _ & Hfiles).
        apply (proj1 (Hfiles p) n). exact Hn.
      * intros p n Hn. rewrite Hvault in Hn. rewrite Hfc.
        exact (Hnew p n Hn).
Qed.

Lemma force_is_first_fetch_witness :
  valid (settings rustWorld) = true /\
  (forall p, createFolderFails (demoHost [Ok threeRepos] []) p = false) /\
  saveDataFails (demoHost [Ok threeRepos] []) (withLastFetchDate (settings rustWorld) "")
  = false /\
  requestedPages (trace (fetchStarsForce (demoHost [Ok threeRepos] []) rustWorld))
  = seq 1 (length (pagesFetched (starredPages (demoHost [Ok threeRepos] [])))) /\
  materialized (trace (fetchStarsForce (demoHost [Ok threeRepos] []) rustWorld))
  = map full_name (itemsOf (pagesFetched (starredPages (demoHost [Ok threeRepos] [])))).
Proof.
  split; [reflexivity|]. split; [intros p; reflexivity|]. split; [reflexivity|].
  pose proof (force_is_first_fetch (demoHost [Ok threeRepos] []) rustWorld eq_refl
                (fun p => eq_refl)) as (H & _).
  destruct (H eq_refl) as (_ & _ & H1 & H2).
  split; [exact H1 | exact H2].
Defined.

(** The forced run on a vault that holds the note of [rustRepo] creates the
    two other notes only, and keeps the edited body. *)
Example force_on_rustWorld :
  createdFiles (trace (fetchStarsForce (demoHost [Ok threeRepos] []) rustWorld))
  = ["GitHub/Stars/rocq-prover-rocq.md"; "GitHub/Stars/torvalds-linux.md"] /\
  (body <$> match vault (world (fetchStarsForce (demoHost [Ok threeRepos] []) rustWorld))
                  !! "GitHub/Stars/rust-lang-rust.md" with
            | Some (TFile n) => Some n
            | _ => None
            end) = Some "my own notes".
Proof. split; vm_compute; reflexivity. Qed.

(** *** Two runs in a row *)












(** The scenario of the specification: three starred repositories on one
    short page, synchronised twice. *)
Example three_repos_twice :
  let h := demoHost [Ok threeRepos] [] in
  let run1 := fetchStars h (aliceWorld "" ∅) in
  let run2 := fetchStars h (world run1) in
  createdFiles (trace run1)
  = ["GitHub/Stars/rust-lang-rust.md"; "GitHub/Stars/rocq-prover-rocq.md";
     "GitHub/Stars/torvalds-linux.md"] /\
  requestedPages (trace run1) = [1] /\
  lastFetchDate (settings (world run1)) = toISOString h /\
  createdFiles (trace run2) = [] /\
  requestedPages (trace run2) = [1] /\
  materialized (trace run2) = ["rust-lang/rust"] /\
  lastFetchDate (settings (world run2)) = toISOString h.
Proof. repeat split; vm_compute; reflexivity. Qed.

(** * Further properties of the plugin *)

(** ** Tag and file names *)

Lemma lowerChar_supported c : supported c = true -> JS.lowerChar c = c.
Proof.
  destruct c as [[] [] [] [] [] [] [] []]; vm_compute; intros H;
    first [reflexivity | discriminate H].
Qed.

Lemma normalizeTag_fixed s : allSupported s = true -> normalizeTag s = s.
Proof.
  unfold allSupported, normalizeTag, replaceUnsupported, JS.toLowerCase.
  induction s as [|c s IH]; [reflexivity|]. simpl.
  intros H. apply andb_true_iff in H as [Hc Hs].
  rewrite (lowerChar_supported c Hc), Hc, (IH Hs). reflexivity.
Qed.

(** X1: [normalizeTag] normalizes once and for all: a normalized tag is not
    changed by normalizing it again, since what it leaves is lower-case
    already and within the supported characters. *)
Theorem normalizeTag_idempotent tag :
  normalizeTag (normalizeTag tag) = normalizeTag tag.
Proof. apply normalizeTag_fixed, normalizeTag_supported. Qed.

Lemma substring0_length n s : String.length (JS.substring0 n s) <= n.
Proof.
  revert s. induction n as [|n IH]; intros s; [reflexivity|].
  destruct s as [|c s]; simpl; [lia|]. specialize (IH s). lia.
Qed.

Lemma substring0_noneOf f n s :
  noneOf f s = true -> noneOf f (JS.substring0 n s) = true.
Proof.
  unfold noneOf. revert s. induction n as [|n IH]; intros s H; [reflexivity|].
  destruct s as [|c s]; [reflexivity|]. simpl in *.
  apply andb_true_iff in H as [Hc Hs]. rewrite Hc, (IH s Hs). reflexivity.
Qed.

Lemma replaceSpaceRuns_noneOf f d s :
  f d = false -> noneOf f s = true ->
  forall inRun, noneOf f (JS.replaceSpaceRuns d inRun s) = true.
Proof.
  intros Hd. unfold noneOf.
  induction s as [|c s IH]; intros Hs inRun; [reflexivity|].
  simpl in Hs. apply andb_true_iff in Hs as [Hc Hs]. simpl.
  destruct (JS.isSpace c).
  - destruct inRun; simpl; [|rewrite Hd; simpl]; apply IH; exact Hs.
  - simpl. rewrite Hc. simpl. apply IH; exact Hs.
Qed.

Lemma dashed_noneOf_unsafe s :
  noneOf unsafeFileChar
    (JS.mapChars (fun c => if unsafeFileChar c then "-"%char else c) s) = true.
Proof.
  unfold noneOf. induction s as [|c s IH]; [reflexivity|]. simpl. rewrite IH.
  destruct (unsafeFileChar c) eqn:E; [|rewrite E]; reflexivity.
Qed.

(** X2: The title part of a pull request's file name is at most 50 characters
    long and holds none of the characters the code takes out: backslash,
    slash, colon, star, question mark, double quote, angle brackets, bar,
    and no white space. *)
Theorem safePrTitle_is_safe pr :
  String.length (safePrTitle pr) <= 50 /\
  noneOf unsafeFileChar (safePrTitle pr) = true /\
  noneOf JS.isSpace (safePrTitle pr) = true.
Proof.
  unfold safePrTitle. split; [apply substring0_length|]. split.
  - apply substring0_noneOf, replaceSpaceRuns_noneOf;
      [reflexivity | apply dashed_noneOf_unsafe].
  - apply substring0_noneOf, replaceSpaceRuns_no_space. reflexivity.
Qed.

Lemma string_app_assoc s t u : (s +:+ t) +:+ u = s +:+ t +:+ u.
Proof.
  induction s as [|c s IH]; [reflexivity|].
  change ((String c s +:+ t) +:+ u) with (String c ((s +:+ t) +:+ u)).
  rewrite IH. reflexivity.
Qed.

Lemma replaceFirst_app o r :
  noneOf isSlash o = true ->
  JS.replaceFirst "/" "-" (o +:+ "/" +:+ r) = o +:+ "-" +:+ r.
Proof.
  unfold noneOf. induction o as [|c o IH]; intros H; [reflexivity|].
  simpl in H. apply andb_true_iff in H as [Hc Ho].
  change (String c o +:+ "/" +:+ r) with (String c (o +:+ "/" +:+ r)).
  change (String c o +:+ "-" +:+ r) with (String c (o +:+ "-" +:+ r)).
  cbn [JS.replaceFirst].
  assert (Hne : Ascii.eqb c "/" = false).
  { destruct (Ascii.eqb c "/") eqn:E; [|reflexivity].
    apply Ascii.eqb_eq in E. subst c. discriminate Hc. }
  rewrite Hne, (IH Ho). reflexivity.
Qed.

(** X3: The note of a repository [owner/repo] is [owner-repo.md] in the
    target directory: only the first slash of [full_name] is replaced.
    The dash is not escaped, so the repository [r1-r2] of [o] and the
    repository [r2] of [o-r1] share one path. *)
Theorem repoFileName_of_owner_repo s repo o r :
  full_name repo = o +:+ "/" +:+ r ->
  noneOf isSlash o = true ->
  repoFileName s repo = targetDirectory s +:+ "/" +:+ o +:+ "-" +:+ r +:+ ".md" /\
  forall repo' r1 r2,
    r = r1 +:+ "-" +:+ r2 ->
    noneOf isSlash r1 = true ->
    full_name repo' = (o +:+ "-" +:+ r1) +:+ "/" +:+ r2 ->
    repoFileName s repo' = repoFileName s repo.
Proof.
  intros Hname Ho.
  assert (H1 : repoFileName s repo
               = targetDirectory s +:+ "/" +:+ o +:+ "-" +:+ r +:+ ".md").
  { unfold repoFileName. rewrite Hname, (replaceFirst_app o r Ho).
    rewrite ?string_app_assoc. reflexivity. }
  split; [exact H1|].
  intros repo' r1 r2 -> Hr1 Hname'. rewrite H1.
  unfold repoFileName. rewrite Hname', (replaceFirst_app (o +:+ "-" +:+ r1) r2).
  - rewrite ?string_app_assoc. reflexivity.
  - unfold noneOf in *. rewrite !list_ascii_app, !forallb_app, Ho, Hr1. reflexivity.
Qed.

Lemma repoFileName_of_owner_repo_witness :
  full_name rustRepo = "rust-lang" +:+ "/" +:+ "rust" /\
  noneOf isSlash "rust-lang" = true /\
  repoFileName (aliceSettings EmptyString) rustRepo
  = targetDirectory (aliceSettings EmptyString) +:+ "/" +:+ "rust-lang" +:+ "-" +:+ "rust"
    +:+ ".md".
Proof.
  split; [reflexivity|]. split; [reflexivity|].
  apply (repoFileName_of_owner_repo (aliceSettings EmptyString) rustRepo "rust-lang" "rust");
    reflexivity.
Defined.

(** ** Directory creation *)

Lemma ensureDirs_exact h dirs :
  forall cur w p e,
    vault w !! p = Some e -> vault (world (ensureDirs h cur dirs w)) !! p = Some e.
Proof.
  induction dirs as [|dir rest IH]; intros cur w p e Hp; [exact Hp|].
  rewrite ensureDirs_cons. cbv zeta.
  set (cur' := if nonEmpty cur then cur +:+ "/" +:+ dir else dir).
  destruct (present w cur') eqn:Hc; [apply IH, Hp|].
  destruct (createFolderFails h cur'); [exact Hp|].
  unfold world at 1. cbn [fst snd]. apply IH.
  unfold setEntry. simpl. rewrite lookup_insert_ne; [exact Hp|].
  intros ->. unfold present in Hc. rewrite Hp in Hc. discriminate Hc.
Qed.

Lemma ensureDirs_new h dirs :
  forall cur w p e,
    vault w !! p = None ->
    vault (world (ensureDirs h cur dirs w)) !! p = Some e ->
    e = TFolder /\ In (EvCreateFolder p) (trace (ensureDirs h cur dirs w)).
Proof.
  induction dirs as [|dir rest IH]; intros cur w p e Hnone Hsome.
  - simpl in Hsome. unfold world in Hsome. simpl in Hsome. congruence.
  - rewrite ensureDirs_cons in *. cbv zeta in *.
    set (cur' := if nonEmpty cur then cur +:+ "/" +:+ dir else dir) in *.
    destruct (present w cur') eqn:Hc; [apply (IH cur' w); assumption|].
    destruct (createFolderFails h cur').
    + unfold world in Hsome. simpl in Hsome. congruence.
    + unfold world at 1 in Hsome. unfold trace at 1. cbn [fst snd] in *.
      destruct (decide (cur' = p)) as [<-|Hne].
      * split; [|left; reflexivity].
        assert (Hfolder : vault (setEntry w cur' TFolder) !! cur' = Some TFolder)
          by (unfold setEntry; simpl; apply lookup_insert_eq).
        rewrite (ensureDirs_exact h rest cur' _ _ _ Hfolder) in Hsome. congruence.
      * destruct (IH cur' (setEntry w cur' TFolder) p e) as [He Hin].
        -- unfold setEntry. simpl. rewrite lookup_insert_ne by exact Hne. exact Hnone.
        -- exact Hsome.
        -- split; [exact He | right; exact Hin].
Qed.

(** X4: [ensureDirectoryExists] only adds folders: the settings and every
    entry of the vault are as before, whether it returns or throws, and
    whatever appears in the vault is a folder on the way to the directory,
    created by a [createFolder] call of the trace. *)
Theorem ensureDirectoryExists_only_adds_folders h dirPath w :
  settings (world (ensureDirectoryExists h dirPath w)) = settings w /\
  data (world (ensureDirectoryExists h dirPath w)) = data w /\
  (forall p e,
     vault w !! p = Some e ->
     vault (world (ensureDirectoryExists h dirPath w)) !! p = Some e) /\
  (forall p e,
     vault w !! p = None ->
     vault (world (ensureDirectoryExists h dirPath w)) !! p = Some e ->
     e = TFolder /\ In p (dirsOf dirPath) /\
     In (EvCreateFolder p) (trace (ensureDirectoryExists h dirPath w))).
Proof.
  destruct (Safe_ensureDirectoryExists h dirPath w) as ((Hs & Hd & _) & _).
  split; [exact Hs|]. split; [exact Hd|]. split.
  - intros p e. apply ensureDirs_exact.
  - intros p e Hnone Hsome.
    destruct (ensureDirs_new h _ _ _ _ _ Hnone Hsome) as [He Hin].
    split; [exact He|]. split; [|exact Hin].
    destruct (in_dec String.string_dec p (dirsOf dirPath)) as [Hyes|Hno]; [exact Hyes|].
    unfold ensureDirectoryExists in Hsome.
    rewrite (ensureDirs_other h _ _ _ _ Hno) in Hsome. congruence.
Qed.

(** X5: Once [ensureDirectoryExists] has returned, every folder on the way is
    there, and calling it again does nothing: no folder is created, no
    event emitted, and it returns. *)
Theorem ensureDirectoryExists_idempotent h dirPath w :
  result (ensureDirectoryExists h dirPath w) = Ok tt ->
  (forall p, In p (dirsOf dirPath) ->
             present (world (ensureDirectoryExists h dirPath w)) p = true) /\
  ensureDirectoryExists h dirPath (world (ensureDirectoryExists h dirPath w))
  = (Ok tt, world (ensureDirectoryExists h dirPath w), []).
Proof.
  intros Hok.
  assert (Hall : forall p, In p (dirsOf dirPath) ->
                           present (world (ensureDirectoryExists h dirPath w)) p = true).
  { intros p Hin. apply ensureDirs_present; assumption. }
  split; [exact Hall|].
  unfold ensureDirectoryExists at 1. apply ensureDirs_noop. exact Hall.
Qed.

Lemma ensureDirectoryExists_idempotent_witness :
  result (ensureDirectoryExists (demoHost [] []) "GitHub/Stars" freshWorld) = Ok tt /\
  ensureDirectoryExists (demoHost [] []) "GitHub/Stars"
    (world (ensureDirectoryExists (demoHost [] []) "GitHub/Stars" freshWorld))
  = (Ok tt, world (ensureDirectoryExists (demoHost [] []) "GitHub/Stars" freshWorld), []).
Proof.
  split; [vm_compute; reflexivity|].
  apply (ensureDirectoryExists_idempotent (demoHost [] []) "GitHub/Stars" freshWorld).
  vm_compute. reflexivity.
Defined.

Lemma split_not_nil c s : JS.split c s <> [].
Proof.
  destruct s as [|x r]; simpl; [discriminate|].
  destruct (Ascii.eqb x c); [discriminate|].
  destruct (JS.split c r); discriminate.
Qed.

Lemma joinPath_cons p q rest : joinPath (p :: q :: rest) = p +:+ "/" +:+ joinPath (q :: rest).
Proof. reflexivity. Qed.

Lemma joinPath_split s : joinPath (JS.split "/" s) = s.
Proof.
  induction s as [|x r IH]; [reflexivity|]. simpl.
  pose proof (split_not_nil "/" r) as Hne.
  destruct (JS.split "/" r) as [|p ps]; [congruence|].
  destruct (Ascii.eqb x "/") eqn:E.
  - apply Ascii.eqb_eq in E. subst x. rewrite joinPath_cons, IH. reflexivity.
  - destruct ps as [|q ps].
    + simpl in *. rewrite IH. reflexivity.
    + rewrite joinPath_cons in *. rewrite <- IH. reflexivity.
Qed.

Lemma trimTruthy_nonEmpty p : JS.trimTruthy p = true -> nonEmpty p = true.
Proof. destruct p; [discriminate | reflexivity]. Qed.

Lemma nonEmpty_app s t : nonEmpty s = true -> nonEmpty (s +:+ t) = true.
Proof. destruct s; [discriminate | reflexivity]. Qed.

Lemma dirPaths_reach parts :
  forallb JS.trimTruthy parts = true ->
  forall cur,
    nonEmpty cur = true -> parts <> [] ->
    In (cur +:+ "/" +:+ joinPath parts) (dirPaths cur parts).
Proof.
  induction parts as [|p rest IH]; intros Hall cur Hcur Hne; [congruence|].
  simpl in Hall. apply andb_true_iff in Hall as [Hp Hrest].
  simpl dirPaths. rewrite Hcur.
  destruct rest as [|q rest]; [left; reflexivity|].
  right. rewrite joinPath_cons, <- string_app_assoc.
  change ((cur +:+ "/") +:+ p +:+ "/" +:+ joinPath (q :: rest))
    with ((cur +:+ "/") +:+ (p +:+ "/" +:+ joinPath (q :: rest))).
  rewrite <- (string_app_assoc (cur +:+ "/") p), (string_app_assoc cur "/" p).
  apply IH; [exact Hrest | | discriminate].
  apply nonEmpty_app, Hcur.
Qed.

Lemma filter_all {A} (f : A -> bool) l : forallb f l = true -> List.filter f l = l.
Proof.
  induction l as [|a l IH]; [reflexivity|]. simpl. intros H.
  apply andb_true_iff in H as [Ha Hl]. rewrite Ha, (IH Hl). reflexivity.
Qed.

(** X6: When no segment of the path is blank, the last folder
    [ensureDirectoryExists] visits is the path itself: after it has
    returned, the directory the notes are written to is there. *)
Theorem ensureDirectoryExists_reaches_directory h dirPath w :
  forallb JS.trimTruthy (JS.split "/" dirPath) = true ->
  result (ensureDirectoryExists h dirPath w) = Ok tt ->
  In dirPath (dirsOf dirPath) /\
  present (world (ensureDirectoryExists h dirPath w)) dirPath = true.
Proof.
  intros Hclean Hok.
  assert (Hin : In dirPath (dirsOf dirPath)).
  { unfold dirsOf. rewrite (filter_all _ _ Hclean).
    pose proof (joinPath_split dirPath) as Hjoin.
    pose proof (split_not_nil "/" dirPath) as Hne.
    destruct (JS.split "/" dirPath) as [|p rest]; [congruence|].
    simpl in Hclean. apply andb_true_iff in Hclean as [Hp Hrest].
    simpl dirPaths. destruct rest as [|q rest].
    - left. exact Hjoin.
    - right. rewrite joinPath_cons in Hjoin. rewrite <- Hjoin.
      apply dirPaths_reach; [exact Hrest | apply trimTruthy_nonEmpty, Hp | discriminate]. }
  split; [exact Hin|]. apply ensureDirs_present; assumption.
Qed.

Lemma ensureDirectoryExists_reaches_directory_witness :
  forallb JS.trimTruthy (JS.split "/" "GitHub/Stars") = true /\
  result (ensureDirectoryExists (demoHost [] []) "GitHub/Stars" freshWorld) = Ok tt /\
  present (world (ensureDirectoryExists (demoHost [] []) "GitHub/Stars" freshWorld))
    "GitHub/Stars" = true.
Proof.
  split; [reflexivity|]. split; [vm_compute; reflexivity|].
  apply (ensureDirectoryExists_reaches_directory (demoHost [] []) "GitHub/Stars" freshWorld).
  - reflexivity.
  - vm_compute. reflexivity.
Defined.

(** ** The drivers as a whole *)

Lemma finishStars_world h o :
  result (finishStars h o) = Ok tt /\
  vault (world (finishStars h o)) = vault (world o) /\
  (settings (world (finishStars h o)) = settings (world o) /\
   data (world (finishStars h o)) = data (world o) \/
   settings (world (finishStars h o))
   = withLastFetchDate (settings (world o)) (toISOString h) /\
   (saveDataFails h (settings (world (finishStars h o))) = false /\
    data (world (finishStars h o)) = settings (world (finishStars h o)) \/
    saveDataFails h (settings (world (finishStars h o))) = true /\
    data (world (finishStars h o)) = data (world o))).
Proof.
  destruct o as [[[n|e] w1] t1]; unfold result, world; simpl.
  - destruct (saveDataFails h (withLastFetchDate (settings w1) (toISOString h))) eqn:Hsave;
      simpl; rewrite Hsave; repeat split; right; (split; [reflexivity|]).
    + right. split; reflexivity.
    + left. split; reflexivity.
  - repeat split. left. split; reflexivity.
Qed.

Lemma finishPRs_world h o :
  result (finishPRs h o) = Ok tt /\
  vault (world (finishPRs h o)) = vault (world o) /\
  (settings (world (finishPRs h o)) = settings (world o) /\
   data (world (finishPRs h o)) = data (world o) \/
   settings (world (finishPRs h o))
   = withLastPRFetchDate (settings (world o)) (toISOString h) /\
   (saveDataFails h (settings (world (finishPRs h o))) = false /\
    data (world (finishPRs h o)) = settings (world (finishPRs h o)) \/
    saveDataFails h (settings (world (finishPRs h o))) = true /\
    data (world (finishPRs h o)) = data (world o))).
Proof.
  destruct o as [[[n|e] w1] t1]; unfold result, world; simpl.
  - destruct (saveDataFails h (withLastPRFetchDate (settings w1) (toISOString h))) eqn:Hsave;
      simpl; rewrite Hsave; repeat split; right; (split; [reflexivity|]).
    + right. split; reflexivity.
    + left. split; reflexivity.
  - repeat split. left. split; reflexivity.
Qed.

(** X7: [fetchStars] and [fetchPullRequests] never throw: whatever the host
    does, a rejected [saveData] included, they return. Of the settings in
    memory they change at most their own watermark, to the clock's
    [toISOString], and leave the watermark of the other entity type alone.
    The saved settings are then the settings in memory when [saveData] went
    through, and those of the start when it was rejected; a run that does
    not set the watermark leaves settings and saved settings untouched. *)
Theorem drivers_return_and_touch_own_watermark h w :
  (result (fetchStars h w) = Ok tt /\
   (settings (world (fetchStars h w)) = settings w /\
    data (world (fetchStars h w)) = data w \/
    settings (world (fetchStars h w)) = withLastFetchDate (settings w) (toISOString h) /\
    lastFetchDate (settings (world (fetchStars h w))) = toISOString h /\
    lastPRFetchDate (settings (world (fetchStars h w))) = lastPRFetchDate (settings w) /\
    (saveDataFails h (settings (world (fetchStars h w))) = false /\
     data (world (fetchStars h w)) = settings (world (fetchStars h w)) \/
     saveDataFails h (settings (world (fetchStars h w))) = true /\
     data (world (fetchStars h w)) = data w))) /\
  (result (fetchPullRequests h w) = Ok tt /\
   (settings (world (fetchPullRequests h w)) = settings w /\
    data (world (fetchPullRequests h w)) = data w \/
    settings (world (fetchPullRequests h w))
    = withLastPRFetchDate (settings w) (toISOString h) /\
    lastPRFetchDate (settings (world (fetchPullRequests h w))) = toISOString h /\
    lastFetchDate (settings (world (fetchPullRequests h w))) = lastFetchDate (settings w) /\
    (saveDataFails h (settings (world (fetchPullRequests h w))) = false /\
     data (world (fetchPullRequests h w)) = settings (world (fetchPullRequests h w)) \/
     saveDataFails h (settings (world (fetchPullRequests h w))) = true /\
     data (world (fetchPullRequests h w)) = data w))).
Proof.
  destruct (valid (settings w)) eqn:Hv.
  - rewrite (fetchStars_eq h w Hv), (fetchPullRequests_eq h w Hv).
    destruct (Safe_starsPhase h w) as ((Hs & Hd & _) & _).
    destruct (Safe_prsPhase h w) as ((Hs' & Hd' & _) & _).
    destruct (finishStars_world h (starsPhase h w)) as (Hr & _ & Hw).
    destruct (finishPRs_world h (prsPhase h w)) as (Hr' & _ & Hw').
    rewrite Hs, Hd in Hw. rewrite Hs', Hd' in Hw'.
    split; (split; [assumption|]).
    + destruct Hw as [Hw | [Hw Hsave]]; [left; exact Hw | right].
      split; [exact Hw|]. rewrite Hw at 1 2. repeat split. exact Hsave.
    + destruct Hw' as [Hw' | [Hw' Hsave]]; [left; exact Hw' | right].
      split; [exact Hw'|]. rewrite Hw' at 1 2. repeat split. exact Hsave.
  - destruct (fetch_invalid h w Hv) as [[m1 ->] [m2 ->]].
    unfold result, world. simpl. repeat split; left; split; reflexivity.
Qed.

Lemma drivers_return_and_touch_own_watermark_witness :
  settings (world (fetchStars (unsavedHost [Ok threeRepos] []) (aliceWorld lastWeek ∅)))
  = withLastFetchDate (settings (aliceWorld lastWeek ∅))
      (toISOString (unsavedHost [Ok threeRepos] [])) /\
  data (world (fetchStars (unsavedHost [Ok threeRepos] []) (aliceWorld lastWeek ∅)))
  = data (aliceWorld lastWeek ∅).
Proof.
  destruct (proj1 (drivers_return_and_touch_own_watermark (unsavedHost [Ok threeRepos] [])
                     (aliceWorld lastWeek ∅)))
    as [_ [[Hs _] | (Hs & _ & _ & [[Hsave _] | [_ Hd]])]].
  - vm_compute in Hs. discriminate Hs.
  - vm_compute in Hsave. discriminate Hsave.
  - split; [exact Hs | exact Hd].
Defined.

Lemma evolves_keeps w w' : evolves w w' -> keeps w w'.
Proof. intros (_ & _ & H). exact H. Qed.

(** X8: A sync run never deletes and never rewrites a body: after
    [fetchStars] or [fetchPullRequests], plain or forced, whatever the
    remote answers and whichever vault calls fail, every file that was in
    the vault is still a file with the same body, and every folder still a
    folder. *)
Theorem sync_keeps_the_vault h w :
  keeps w (world (fetchStars h w)) /\
  keeps w (world (fetchPullRequests h w)) /\
  keeps w (world (fetchStarsForce h w)) /\
  keeps w (world (fetchPullRequestsForce h w)).
Proof.
  assert (Hstars : forall w0, keeps w0 (world (fetchStars h w0))).
  { intros w0. destruct (valid (settings w0)) eqn:Hv.
    - rewrite (fetchStars_eq h w0 Hv).
      destruct (Safe_starsPhase h w0) as ((_ & _ & Hk) & _).
      destruct (finishStars_world h (starsPhase h w0)) as (_ & Hvault & _).
      intros p. rewrite Hvault. apply Hk.
    - destruct (fetch_invalid h w0 Hv) as [[m1 ->] _]. apply evolves_keeps, evolves_refl. }
  assert (Hprs : forall w0, keeps w0 (world (fetchPullRequests h w0))).
  { intros w0. destruct (valid (settings w0)) eqn:Hv.
    - rewrite (fetchPullRequests_eq h w0 Hv).
      destruct (Safe_prsPhase h w0) as ((_ & _ & Hk) & _).
      destruct (finishPRs_world h (prsPhase h w0)) as (_ & Hvault & _).
      intros p. rewrite Hvault. apply Hk.
    - destruct (fetch_invalid h w0 Hv) as [_ [m2 ->]]. apply evolves_keeps, evolves_refl. }
  split; [apply Hstars|]. split; [apply Hprs|]. split.
  - destruct (saveDataFails h (withLastFetchDate (settings w) "")) eqn:Hsave.
    + rewrite (fetchStarsForce_unsaved h w Hsave), world_of.
      intros p. split; [intros n Hn; exists n; split; [exact Hn | reflexivity]|].
      intros Hn. exact Hn.
    + rewrite (fetchStarsForce_eq h w Hsave). exact (Hstars (clearedStars w)).
  - destruct (saveDataFails h (withLastPRFetchDate (settings w) "")) eqn:Hsave.
    + rewrite (fetchPullRequestsForce_unsaved h w Hsave), world_of.
      intros p. split; [intros n Hn; exists n; split; [exact Hn | reflexivity]|].
      intros Hn. exact Hn.
    + rewrite (fetchPullRequestsForce_eq h w Hsave). exact (Hprs (clearedPRs w)).
Qed.

(** ** Paging *)

Section Paging.

Context {Item : Type}.
Variable ep : Endpoint.
Variable getPage : list (Result (list Item)) -> nat -> M (list Item * bool).
Variable createNote : Item -> M bool.
Variable itemName : Item -> string.
Variable fetchedNotice : nat -> string.
Variable firstFetch : bool.

Hypothesis getPage_eq :
  forall listing page w,
    getPage listing page w
    = (match headPage listing with
       | Ok items => Ok (items, length items =? perPage)
       | Throw e => Throw e
       end, w, [requestEvent ep w page]).

Hypothesis createNote_no_request :
  forall item w, requestedPages (trace (createNote item w)) = [].

Lemma itemLoop_no_request items :
  forall count w,
    requestedPages (trace (itemLoop createNote itemName firstFetch items count w)) = [].
Proof.
  induction items as [|item rest IH]; intros count w; [reflexivity|].
  pose proof (createNote_no_request item w) as Hq.
  destruct (createNote item w) as [[[created|e] w1] t1] eqn:E; unfold trace in Hq; simpl in Hq.
  - rewrite (itemLoop_cons _ _ _ _ _ _ _ _ _ _ E).
    destruct (negb firstFetch && negb created); unfold trace; cbn [fst snd].
    + rewrite requestedPages_app, Hq. reflexivity.
    + rewrite requestedPages_app, Hq. simpl. apply IH.
  - rewrite (itemLoop_cons_throw _ _ _ _ _ _ _ _ _ _ E). exact Hq.
Qed.

Lemma pageStep_one_request listing page count w :
  requestedPages
    (trace (pageStep getPage createNote itemName fetchedNotice firstFetch
              listing page count w)) = [page].
Proof.
  rewrite (pageStep_eq ep _ _ _ _ _ getPage_eq).
  destruct (headPage listing) as [items|e]; [|reflexivity].
  pose proof (itemLoop_no_request items count w) as Hi. cbv zeta.
  unfold result, world, trace in *.
  destruct (itemLoop createNote itemName firstFetch items count w)
    as [[[[continueFetch c]|e] w1] t1]; cbn [fst snd] in *.
  - simpl. rewrite requestedPages_app, Hi. unfold fetchedEvents.
    destruct (c =? 0); reflexivity.
  - simpl. rewrite Hi. reflexivity.
Qed.

Lemma pageLoop_requests_in_order listing :
  forall page count w,
    exists k,
      1 <= k <= S (length listing) /\
      requestedPages
        (trace (pageLoop getPage createNote itemName fetchedNotice firstFetch
                  listing page count w)) = seq page k.
Proof.
  induction listing as [|response rest IH]; intros page count w; rewrite pageLoop_eq;
    cbv zeta.
  - pose proof (pageStep_one_request [] page count w) as Hs.
    unfold result, world, trace in *.
    destruct (pageStep getPage createNote itemName fetchedNotice firstFetch [] page count w)
      as [[[[again c]|e] w1] t1]; cbn [fst snd] in *;
      exists 1; (split; [simpl; lia | exact Hs]).
  - pose proof (pageStep_one_request (response :: rest) page count w) as Hs.
    unfold result, world, trace in *.
    destruct (pageStep getPage createNote itemName fetchedNotice firstFetch
                (response :: rest) page count w) as [[[[again c]|e] w1] t1];
      cbn [fst snd] in *.
    + destruct again.
      * destruct (IH (S page) c w1) as (k & Hk & Hreq).
        destruct (pageLoop getPage createNote itemName fetchedNotice firstFetch rest
                    (S page) c w1) as [[r w2] t2]. cbn [fst snd] in *.
        exists (S k). split; [simpl; lia|].
        rewrite requestedPages_app, Hs, Hreq. reflexivity.
      * exists 1. split; [simpl; lia | exact Hs].
    + exists 1. split; [simpl; lia | exact Hs].
Qed.

End Paging.

Lemma starsLoop_requests_in_order h firstFetch w :
  exists k,
    1 <= k <= S (length (starredPages h)) /\
    requestedPages (trace (starsLoop h firstFetch w)) = seq 1 k.
Proof.
  apply (pageLoop_requests_in_order Starred _ _ _ _ _ getStarredRepos_eq).
  intros item w'. apply createNoteForRepo_observed.
Qed.

Lemma prsLoop_requests_in_order h firstFetch w :
  exists k,
    1 <= k <= S (length (pullRequestPages h)) /\
    requestedPages (trace (prsLoop h firstFetch w)) = seq 1 k.
Proof.
  apply (pageLoop_requests_in_order SearchPRs _ _ _ _ _ getPullRequests_eq).
  intros item w'. apply createNoteForPR_observed.
Qed.

Lemma finishPRs_observed h o :
  requestedPages (trace (finishPRs h o)) = requestedPages (trace o) /\
  materialized (trace (finishPRs h o)) = materialized (trace o) /\
  createdFiles (trace (finishPRs h o)) = createdFiles (trace o).
Proof.
  destruct o as [[[n|e] w1] t1]; unfold trace; simpl;
    [destruct (saveDataFails h _); simpl|];
    rewrite requestedPages_app, materialized_app, createdFiles_app;
    [|destruct (n =? 0)|]; simpl; rewrite !app_nil_r; repeat split.
Qed.

(** X9: In every run, first fetch or incremental, completed or failed, the
    pages are requested in order from 1, without a gap and without asking
    twice, and never further than one page past the end of the listing. *)
Theorem pages_requested_in_order h w :
  (exists k, k <= S (length (starredPages h)) /\
             requestedPages (trace (fetchStars h w)) = seq 1 k) /\
  (exists k, k <= S (length (pullRequestPages h)) /\
             requestedPages (trace (fetchPullRequests h w)) = seq 1 k).
Proof.
  destruct (valid (settings w)) eqn:Hv.
  - rewrite (fetchStars_eq h w Hv), (fetchPullRequests_eq h w Hv).
    destruct (finishStars_observed h (starsPhase h w)) as (-> & _).
    destruct (finishPRs_observed h (prsPhase h w)) as (-> & _).
    rewrite starsPhase_eq, prsPhase_eq. cbv zeta. split.
    + destruct (ensureDirectoryExists_observed h (targetDirectory (settings w)) w)
        as (Hr & _).
      destruct (starsLoop_requests_in_order h (String.eqb (lastFetchDate (settings w)) "")
                  (world (ensureDirectoryExists h (targetDirectory (settings w)) w)))
        as (k & Hk & Hreq).
      unfold result, world, trace in *.
      destruct (ensureDirectoryExists h (targetDirectory (settings w)) w)
        as [[[[]|e] w0] t0]; cbn [fst snd] in *.
      * destruct (starsLoop h (String.eqb (lastFetchDate (settings w)) "") w0)
          as [[r w1] t1]. cbn [fst snd] in *.
        exists k. split; [lia|]. rewrite requestedPages_app, Hr, Hreq. reflexivity.
      * exists 0. split; [lia | exact Hr].
    + destruct (ensureDirectoryExists_observed h
                  (orString (prDirectory (settings w)) (targetDirectory (settings w))) w)
        as (Hr & _).
      destruct (prsLoop_requests_in_order h (String.eqb (lastPRFetchDate (settings w)) "")
                  (world (ensureDirectoryExists h
                            (orString (prDirectory (settings w))
                               (targetDirectory (settings w))) w)))
        as (k & Hk & Hreq).
      unfold result, world, trace in *.
      destruct (ensureDirectoryExists h
                  (orString (prDirectory (settings w)) (targetDirectory (settings w))) w)
        as [[[[]|e] w0] t0]; cbn [fst snd] in *.
      * destruct (prsLoop h (String.eqb (lastPRFetchDate (settings w)) "") w0)
          as [[r w1] t1]. cbn [fst snd] in *.
        exists k. split; [lia|]. rewrite requestedPages_app, Hr, Hreq. reflexivity.
      * exists 0. split; [lia | exact Hr].
  - destruct (fetch_invalid h w Hv) as [[m1 ->] [m2 ->]].
    split; exists 0; (split; [lia | reflexivity]).
Qed.

Lemma createNoteForPR_returns h pr w :
  (forall p, createFolderFails h p = false) ->
  exists b, result (createNoteForPR h pr w) = Ok b.
Proof.
  intros Hrel.
  pose proof (ensureDirs_reliable h
                (List.filter JS.trimTruthy (JS.split "/" (prRepoDir (settings w) pr)))
                Hrel "" w) as Hok.
  fold (ensureDirectoryExists h (prRepoDir (settings w) pr) w) in Hok.
  destruct (ensureDirectoryExists h (prRepoDir (settings w) pr) w) as [[r w0] t0] eqn:E.
  unfold result in Hok. simpl in Hok. subst r.
  rewrite (createNoteForPR_eq _ _ _ _ _ E). eexists. reflexivity.
Qed.

Lemma prsLoop_first h w :
  (forall p, createFolderFails h p = false) ->
  requestedPages (trace (prsLoop h true w))
  = seq 1 (length (pagesFetched (pullRequestPages h))) /\
  materialized (trace (prsLoop h true w))
  = map prItemName (itemsOf (pagesFetched (pullRequestPages h))).
Proof.
  intros Hrel.
  apply (pageLoop_first SearchPRs); [apply getPullRequests_eq | |].
  - intros item w'. apply createNoteForPR_returns, Hrel.
  - intros item w'. destruct (createNoteForPR_observed h item w') as (H1 & H2 & _).
    split; assumption.
Qed.

Lemma prs_backfill_observed h w :
  valid (settings w) = true ->
  lastPRFetchDate (settings w) = "" ->
  (forall p, createFolderFails h p = false) ->
  requestedPages (trace (fetchPullRequests h w))
  = seq 1 (length (pagesFetched (pullRequestPages h))) /\
  materialized (trace (fetchPullRequests h w))
  = map prItemName (itemsOf (pagesFetched (pullRequestPages h))).
Proof.
  intros Hv Hmark Hrel.
  rewrite (fetchPullRequests_eq h w Hv).
  destruct (finishPRs_observed h (prsPhase h w)) as (-> & -> & _).
  rewrite prsPhase_eq, Hmark. simpl.
  pose proof (ensureDirs_reliable h
                (List.filter JS.trimTruthy
                   (JS.split "/" (orString (prDirectory (settings w))
                                    (targetDirectory (settings w)))))
                Hrel "" w) as Hok.
  fold (ensureDirectoryExists h
          (orString (prDirectory (settings w)) (targetDirectory (settings w))) w) in Hok.
  destruct (ensureDirectoryExists_observed h
              (orString (prDirectory (settings w)) (targetDirectory (settings w))) w)
    as (Hr & Hm & _).
  destruct (prsLoop_first h
              (world (ensureDirectoryExists h
                        (orString (prDirectory (settings w))
                           (targetDirectory (settings w))) w)) Hrel)
    as [Hl1 Hl2].
  unfold result, world, trace in *.
  destruct (ensureDirectoryExists h
              (orString (prDirectory (settings w)) (targetDirectory (settings w))) w)
    as [[r w0] t0].
  simpl in *. subst r.
  destruct (prsLoop h true w0) as [[r w1] t1]. simpl in *.
  rewrite requestedPages_app, materialized_app, Hr, Hm, Hl1, Hl2. split; reflexivity.
Qed.

(** X10: The first fetch of the pull requests, on a host whose folder creation
    does not fail: with an empty [lastPRFetchDate], [fetchPullRequests]
    requests the pages 1, 2, ... up to the first page that is not full or
    fails, and materializes every pull request of those pages, whatever the
    vault holds. The forced command does the same from any watermark once
    its saving of the cleared watermark has gone through; when that saving
    is rejected it throws before any request, the watermark cleared in
    memory only. *)
Theorem prs_first_fetch_backfills h w :
  valid (settings w) = true ->
  (forall p, createFolderFails h p = false) ->
  (lastPRFetchDate (settings w) = "" ->
   requestedPages (trace (fetchPullRequests h w))
   = seq 1 (length (pagesFetched (pullRequestPages h))) /\
   materialized (trace (fetchPullRequests h w))
   = map prItemName (itemsOf (pagesFetched (pullRequestPages h)))) /\
  (saveDataFails h (withLastPRFetchDate (settings w) "") = false ->
   requestedPages (trace (fetchPullRequestsForce h w))
   = seq 1 (length (pagesFetched (pullRequestPages h))) /\
   materialized (trace (fetchPullRequestsForce h w))
   = map prItemName (itemsOf (pagesFetched (pullRequestPages h)))) /\
  (saveDataFails h (withLastPRFetchDate (settings w) "") = true ->
   fetchPullRequestsForce h w
   = (Throw saveDataError,
      {| settings := withLastPRFetchDate (settings w) ""; data := data w; vault := vault w |},
      [])).
Proof.
  intros Hv Hrel. split; [|split; [|apply fetchPullRequestsForce_unsaved]].
  - intros Hmark. apply prs_backfill_observed; assumption.
  - intros Hsave. rewrite (fetchPullRequestsForce_eq h w Hsave), !trace_of.
    change (requestedPages (EvSaveData (withLastPRFetchDate (settings w) "")
                              :: trace (fetchPullRequests h (clearedPRs w))))
      with (requestedPages (trace (fetchPullRequests h (clearedPRs w)))).
    change (materialized (EvSaveData (withLastPRFetchDate (settings w) "")
                            :: trace (fetchPullRequests h (clearedPRs w))))
      with (materialized (trace (fetchPullRequests h (clearedPRs w)))).
    apply prs_backfill_observed; [exact Hv | reflexivity | exact Hrel].
Qed.

Lemma prs_first_fetch_backfills_witness :
  valid (settings (aliceWorld lastWeek ∅)) = true /\
  (forall p, createFolderFails (demoHost [] [Ok [toolPR]]) p = false) /\
  saveDataFails (demoHost [] [Ok [toolPR]])
    (withLastPRFetchDate (settings (aliceWorld lastWeek ∅)) "") = false /\
  requestedPages (trace (fetchPullRequestsForce (demoHost [] [Ok [toolPR]])
                           (aliceWorld lastWeek ∅)))
  = seq 1 (length (pagesFetched (pullRequestPages (demoHost [] [Ok [toolPR]])))).
Proof.
  split; [reflexivity|]. split; [intros p; reflexivity|]. split; [reflexivity|].
  apply (proj1 (proj2 (prs_first_fetch_backfills (demoHost [] [Ok [toolPR]])
                         (aliceWorld lastWeek ∅) eq_refl (fun p => eq_refl)))).
  reflexivity.
Defined.

Section FirstFetchCount.

Context {Item : Type}.
Variable ep : Endpoint.
Variable getPage : list (Result (list Item)) -> nat -> M (list Item * bool).
Variable createNote : Item -> M bool.
Variable itemName : Item -> string.
Variable fetchedNotice : nat -> string.

Hypothesis getPage_eq :
  forall listing page w,
    getPage listing page w
    = (match headPage listing with
       | Ok items => Ok (items, length items =? perPage)
       | Throw e => Throw e
       end, w, [requestEvent ep w page]).

Hypothesis createNote_returns : forall item w, exists b, result (createNote item w) = Ok b.

Hypothesis createNote_observed :
  forall item w,
    requestedPages (trace (createNote item w)) = [] /\
    materialized (trace (createNote item w)) = [].

Lemma pageLoop_first_count listing :
  (forall e, ~ In (Throw e) (pagesFetched listing)) ->
  forall page count w,
    result (pageLoop getPage createNote itemName fetchedNotice true listing page count w)
    = Ok (count + length (itemsOf (pagesFetched listing))).
Proof.
  induction listing as [|response rest IH]; intros Hok page count w; rewrite pageLoop_eq;
    cbv zeta.
  - destruct (pageStep_first ep getPage createNote itemName fetchedNotice getPage_eq
                createNote_returns createNote_observed [] page count w) as (_ & Hres & _).
    simpl in Hres. unfold result in *.
    destruct (pageStep getPage createNote itemName fetchedNotice true [] page count w)
      as [[r w1] t1]. cbn [fst] in *. subst r. reflexivity.
  - destruct (pageStep_first ep getPage createNote itemName fetchedNotice getPage_eq
                createNote_returns createNote_observed (response :: rest) page count w)
      as (_ & Hstep).
    simpl headPage in Hstep. unfold result, world in *.
    destruct (pageStep getPage createNote itemName fetchedNotice true (response :: rest)
                page count w) as [[r w1] t1]. cbn [fst snd] in *.
    destruct response as [items|e].
    + destruct Hstep as [-> _]. simpl pagesFetched in *.
      destruct (length items =? perPage).
      * specialize (IH (fun e Hin => Hok e (or_intror Hin)) (S page)
                      (count + length items) w1).
        destruct (pageLoop getPage createNote itemName fetchedNotice true rest (S page)
                    (count + length items) w1) as [[r w2] t2]. cbn [fst] in *.
        rewrite IH. simpl. rewrite List.length_app. f_equal. lia.
      * simpl. rewrite app_nil_r. reflexivity.
    + destruct (Hok e). left. reflexivity.
Qed.

End FirstFetchCount.

(** X11: A first fetch counts what it fetched, not what it created: when no
    request fails and the saving goes through, the run ends by saving the
    new watermark and, unless the listing is empty, with the notice
    [Total N GitHub stars] where N is the number of repositories on the
    pages fetched, the ones whose note was already there included. When
    the saving is rejected the run ends with the console error and the
    notice of the failure instead, and no total is shown. *)
Theorem first_fetch_reports_every_item h w :
  valid (settings w) = true ->
  lastFetchDate (settings w) = "" ->
  result (ensureTargetDirectoryExists h w) = Ok tt ->
  (forall e, ~ In (Throw e) (pagesFetched (starredPages h))) ->
  (saveDataFails h (withLastFetchDate (settings w) (toISOString h)) = false ->
   exists t,
     trace (fetchStars h w)
     = t ++ EvSaveData (withLastFetchDate (settings w) (toISOString h))
         :: (if length (itemsOf (pagesFetched (starredPages h))) =? 0
             then []
             else [EvNotice ("Total "
                             +:+ JS.ofNat (length (itemsOf (pagesFetched (starredPages h))))
                             +:+ " GitHub stars")])) /\
  (saveDataFails h (withLastFetchDate (settings w) (toISOString h)) = true ->
   exists t,
     trace (fetchStars h w)
     = t ++ [EvConsoleError "Error fetching GitHub stars:" saveDataError;
             EvNotice ("Error fetching GitHub stars: " +:+ saveDataError)]).
Proof.
  intros Hv Hmark Hdir Hok. rewrite ensureTargetDirectoryExists_eq in Hdir.
  rewrite (fetchStars_eq h w Hv), starsPhase_eq, Hmark. cbv zeta.
  change (String.eqb "" "") with true.
  destruct (Safe_ensureDirectoryExists h (targetDirectory (settings w)) w)
    as ((Hs0 & _) & _).
  unfold result, world in *.
  destruct (ensureDirectoryExists h (targetDirectory (settings w)) w) as [[r w0] t0].
  cbn [fst snd] in *. subst r.
  assert (Hcount : result (starsLoop h true w0)
                   = Ok (0 + length (itemsOf (pagesFetched (starredPages h))))).
  { apply (pageLoop_first_count Starred); [apply getStarredRepos_eq | | | exact Hok].
    - intros item w'. rewrite createNoteForRepo_eq. eexists. reflexivity.
    - intros item w'. destruct (createNoteForRepo_observed h item w') as (H1 & H2 & _).
      split; assumption. }
  destruct (Safe_starsLoop h true w0) as ((Hs1 & _) & _).
  unfold result, world, trace in *. simpl "=?" in *.
  destruct (starsLoop h true w0) as [[r w1] t1]. cbn [fst snd] in *. subst r.
  unfold finishStars. rewrite Hs1, Hs0.
  split; intros Hsave; rewrite Hsave; cbn [snd]; exists (t0 ++ t1); [|reflexivity].
  simpl "+". destruct (length (itemsOf (pagesFetched (starredPages h))) =? 0); reflexivity.
Qed.

Lemma no_throw_on_one_page : forall e, ~ In (Throw e) (pagesFetched [Ok threeRepos]).
Proof. intros e [H|[]]. discriminate H. Defined.

Lemma first_fetch_reports_every_item_witness :
  valid (settings (aliceWorld "" rustVault)) = true /\
  lastFetchDate (settings (aliceWorld "" rustVault)) = "" /\
  result (ensureTargetDirectoryExists (demoHost [Ok threeRepos] [])
            (aliceWorld "" rustVault)) = Ok tt /\
  saveDataFails (demoHost [Ok threeRepos] [])
    (withLastFetchDate (settings (aliceWorld "" rustVault))
       (toISOString (demoHost [Ok threeRepos] []))) = false /\
  exists t,
    trace (fetchStars (demoHost [Ok threeRepos] []) (aliceWorld "" rustVault))
    = t ++ EvSaveData (withLastFetchDate (settings (aliceWorld "" rustVault))
                         (toISOString (demoHost [Ok threeRepos] [])))
        :: (if length (itemsOf (pagesFetched
                                  (starredPages (demoHost [Ok threeRepos] [])))) =? 0
            then []
            else [EvNotice
                    ("Total "
                     +:+ JS.ofNat (length (itemsOf (pagesFetched
                                             (starredPages (demoHost [Ok threeRepos] [])))))
                     +:+ " GitHub stars")]).
Proof.
  split; [reflexivity|]. split; [reflexivity|]. split; [vm_compute; reflexivity|].
  split; [reflexivity|].
  apply (first_fetch_reports_every_item (demoHost [Ok threeRepos] [])
           (aliceWorld "" rustVault) eq_refl eq_refl).
  - vm_compute. reflexivity.
  - exact no_throw_on_one_page.
  - reflexivity.
Defined.

(** ** The background sync *)

Lemma fetchStars_returns h w :
  result (fetchStars h w) = Ok tt /\
  syncPullRequests (settings (world (fetchStars h w))) = syncPullRequests (settings w).
Proof.
  destruct (valid (settings w)) eqn:Hv.
  - rewrite (fetchStars_eq h w Hv).
    destruct (Safe_starsPhase h w) as ((Hs & _) & _).
    destruct (finishStars_world h (starsPhase h w)) as (Hr & _ & [[-> _]|[-> _]]);
      rewrite Hs; split; auto.
  - destruct (fetch_invalid h w Hv) as [[m1 ->] _]. split; reflexivity.
Qed.

Lemma fetchPullRequests_returns h w : result (fetchPullRequests h w) = Ok tt.
Proof.
  destruct (valid (settings w)) eqn:Hv.
  - rewrite (fetchPullRequests_eq h w Hv). apply finishPRs_world.
  - destruct (fetch_invalid h w Hv) as [_ [m2 ->]]. reflexivity.
Qed.

Lemma backgroundSync_eq h w :
  backgroundSync h w
  = if valid (settings w) then
      if syncPullRequests (settings w) then
        (Ok tt, world (fetchPullRequests h (world (fetchStars h w))),
         trace (fetchStars h w) ++ trace (fetchPullRequests h (world (fetchStars h w))))
      else (Ok tt, world (fetchStars h w), trace (fetchStars h w))
    else (Ok tt, w, []).
Proof.
  cbv beta iota zeta delta
    [backgroundSync bind getSettings settingsAreValid ret tryCatch consoleError emit valid].
  rewrite andb_assoc.
  destruct (syncEnabled (settings w) && nonEmpty (username (settings w))
            && nonEmpty (targetDirectory (settings w))); [|reflexivity].
  destruct (fetchStars_returns h w) as [Hr Hs].
  unfold result, world, trace in *.
  destruct (fetchStars h w) as [[r w1] t1]. cbn [fst snd] in *. subst r. rewrite Hs.
  destruct (syncPullRequests (settings w)).
  - pose proof (fetchPullRequests_returns h w1) as Hr'. unfold result in Hr'.
    destruct (fetchPullRequests h w1) as [[r w2] t2]. cbn [fst snd] in *. subst r.
    reflexivity.
  - simpl. rewrite app_nil_r. reflexivity.
Qed.

(** X12: The background sync started by [onload]: with sync disabled or the user
    name or the target directory missing it does nothing at all, not even a
    notice; otherwise it runs [fetchStars] and, when pull requests are to be
    synced, [fetchPullRequests] on the world the star sync left, also when
    the star sync failed. It never throws, and its own handler never runs:
    the only events are those of the two drivers. *)
Theorem background_sync_is_stars_then_prs h w :
  result (backgroundSync h w) = Ok tt /\
  (valid (settings w) = false ->
   world (backgroundSync h w) = w /\ trace (backgroundSync h w) = []) /\
  (valid (settings w) = true -> syncPullRequests (settings w) = false ->
   world (backgroundSync h w) = world (fetchStars h w) /\
   trace (backgroundSync h w) = trace (fetchStars h w)) /\
  (valid (settings w) = true -> syncPullRequests (settings w) = true ->
   world (backgroundSync h w) = world (fetchPullRequests h (world (fetchStars h w))) /\
   trace (backgroundSync h w)
   = trace (fetchStars h w) ++ trace (fetchPullRequests h (world (fetchStars h w)))).
Proof.
  rewrite backgroundSync_eq.
  destruct (valid (settings w)), (syncPullRequests (settings w));
    repeat split; intros; try discriminate; reflexivity.
Qed.

(** ** Settings across restarts and versions *)

Lemma fetchStars_settings h w :
  settings (world (fetchStars h w)) = settings w \/
  settings (world (fetchStars h w)) = withLastFetchDate (settings w) (toISOString h).
Proof.
  destruct (valid (settings w)) eqn:Hv.
  - rewrite (fetchStars_eq h w Hv).
    destruct (Safe_starsPhase h w) as ((Hs & _) & _).
    destruct (finishStars_world h (starsPhase h w)) as (_ & _ & [[-> _]|[-> _]]);
      rewrite Hs; auto.
  - destruct (fetch_invalid h w Hv) as [[m1 ->] _]. left. reflexivity.
Qed.

(** X13: The first start after an upgrade from the first version of the plugin,
    whose [data.json] holds a user name and a target directory: on a host
    whose folder creation does not fail, the background sync backfills the
    stars and then the pull requests, each from page 1 up to the first page
    that is not full or fails, and materializes every item of those pages. *)
Theorem upgrade_from_first_version_backfills h token user dir w :
  settings w = loadSettings (firstVersionData token user dir) ->
  nonEmpty user = true ->
  nonEmpty dir = true ->
  (forall p, createFolderFails h p = false) ->
  requestedPages (trace (backgroundSync h w))
  = seq 1 (length (pagesFetched (starredPages h)))
    ++ seq 1 (length (pagesFetched (pullRequestPages h))) /\
  materialized (trace (backgroundSync h w))
  = map full_name (itemsOf (pagesFetched (starredPages h)))
    ++ map prItemName (itemsOf (pagesFetched (pullRequestPages h))).
Proof.
  intros Hs Hu Hd Hrel.
  assert (Hv : valid (settings w) = true).
  { rewrite Hs. unfold valid. simpl. rewrite Hu, Hd. reflexivity. }
  assert (Hsync : syncPullRequests (settings w) = true) by (rewrite Hs; reflexivity).
  rewrite backgroundSync_eq, Hv, Hsync, !trace_of.
  rewrite requestedPages_app, materialized_app.
  assert (Hdir : result (ensureTargetDirectoryExists h w) = Ok tt).
  { rewrite ensureTargetDirectoryExists_eq. apply ensureDirs_reliable, Hrel. }
  destruct (backfill_observed h w Hv) as [-> ->]; [rewrite Hs; reflexivity | exact Hdir |].
  assert (Hv1 : valid (settings (world (fetchStars h w))) = true /\
                lastPRFetchDate (settings (world (fetchStars h w))) = "").
  { destruct (fetchStars_settings h w) as [-> | ->]; split; try exact Hv;
      rewrite Hs; reflexivity. }
  destruct Hv1 as [Hv1 Hmark1].
  destruct (prs_backfill_observed h (world (fetchStars h w)) Hv1 Hmark1 Hrel) as [-> ->].
  split; reflexivity.
Qed.

Lemma upgrade_from_first_version_backfills_witness :
  requestedPages
    (trace (backgroundSync (demoHost [Ok threeRepos] [Ok [toolPR]])
              {| settings := loadSettings (firstVersionData "" "alice" "GitHub/Stars");
                 data := loadSettings (firstVersionData "" "alice" "GitHub/Stars");
                 vault := ∅ |}))
  = seq 1 (length (pagesFetched (starredPages (demoHost [Ok threeRepos] [Ok [toolPR]]))))
    ++ seq 1 (length (pagesFetched
                        (pullRequestPages (demoHost [Ok threeRepos] [Ok [toolPR]])))).
Proof.
  apply (upgrade_from_first_version_backfills (demoHost [Ok threeRepos] [Ok [toolPR]])
           "" "alice" "GitHub/Stars"
           {| settings := loadSettings (firstVersionData "" "alice" "GitHub/Stars");
              data := loadSettings (firstVersionData "" "alice" "GitHub/Stars");
              vault := ∅ |}
           eq_refl eq_refl eq_refl (fun p => eq_refl)).
Defined.

(** ** Templates *)

(** X14: A user template that cannot be found does not stop the sync: with the
    built-in template deselected and the template path empty or at nothing
    in the vault, [createNoteForRepo] on a repository without a note shows
    a notice, creates the note from the built-in template, writes no
    metadata block and reports the note as created. *)
Theorem missing_template_falls_back h repo w text :
  useDefaultTemplateStar (settings w) = false ->
  nonEmpty (templatePathStar (settings w)) = false \/
  present w (templatePathStar (settings w)) = false ->
  present w (repoFileName (settings w) repo) = false ->
  createFails h (repoFileName (settings w) repo) = false ->
  handlebarsStar h ("# {{ name }}" +:+ nl +:+ nl) repo = Ok text ->
  exists msg,
    createNoteForRepo h repo w
    = (Ok true,
       setEntry w (repoFileName (settings w) repo) (TFile (noteOfText h text)),
       [EvNotice msg; EvCreate (repoFileName (settings w) repo)]).
Proof.
  intros Hud Htpl Hfree Hc Hrender.
  rewrite createNoteForRepo_eq. cbv zeta. rewrite Hfree.
  unfold present in *.
  cbv beta iota zeta delta
    [writeRepoNote writeNote renderTemplate readTemplate liftResult tryCatch bind
     getAbstractFileByPath adapterExists getVault setVault ret throw emit Notice
     vaultCreate processFrontMatter consoleError world trace result setEntry].
  rewrite Hud. cbv beta iota delta [negb].
  destruct (nonEmpty (templatePathStar (settings w))) eqn:Hne; cbv beta iota delta [negb].
  - destruct Htpl as [Htpl|Htpl]; [discriminate Htpl|].
    destruct (vault w !! templatePathStar (settings w)); [discriminate Htpl|].
    cbv beta iota delta [negb]. rewrite Hrender. cbn [fst snd].
    rewrite Hc.
    destruct (vault w !! repoFileName (settings w) repo); [discriminate Hfree|].
    eexists. reflexivity.
  - rewrite Hrender. cbn [fst snd]. rewrite Hc.
    destruct (vault w !! repoFileName (settings w) repo); [discriminate Hfree|].
    eexists. reflexivity.
Qed.

Lemma missing_template_falls_back_witness :
  exists msg,
    createNoteForRepo (demoHost [] []) rustRepo (templateWorld "Templates/star.md" ∅)
    = (Ok true,
       setEntry (templateWorld "Templates/star.md" ∅)
         (repoFileName (settings (templateWorld "Templates/star.md" ∅)) rustRepo)
         (TFile (noteOfText (demoHost [] []) ("# rust" +:+ nl +:+ nl))),
       [EvNotice msg;
        EvCreate (repoFileName (settings (templateWorld "Templates/star.md" ∅)) rustRepo)]).
Proof.
  apply (missing_template_falls_back (demoHost [] []) rustRepo
           (templateWorld "Templates/star.md" ∅) ("# rust" +:+ nl +:+ nl)).
  - reflexivity.
  - right. vm_compute. reflexivity.
  - vm_compute. reflexivity.
  - reflexivity.
  - reflexivity.
Defined.

(** X15: A user template that is a file of the vault is what the note is
    rendered from: with the built-in template deselected, [createNoteForRepo]
    on a repository without a note hands the text of the file at the
    template path to Handlebars, creates the note from the result, shows no
    notice and writes no metadata block. *)
Theorem user_template_is_used h repo w n text :
  useDefaultTemplateStar (settings w) = false ->
  nonEmpty (templatePathStar (settings w)) = true ->
  vault w !! templatePathStar (settings w) = Some (TFile n) ->
  present w (repoFileName (settings w) repo) = false ->
  createFails h (repoFileName (settings w) repo) = false ->
  handlebarsStar h (textOfNote h n) repo = Ok text ->
  createNoteForRepo h repo w
  = (Ok true,
     setEntry w (repoFileName (settings w) repo) (TFile (noteOfText h text)),
     [EvCreate (repoFileName (settings w) repo)]).
Proof.
  intros Hud Hne Htpl Hfree Hc Hrender.
  rewrite createNoteForRepo_eq. cbv zeta. rewrite Hfree.
  unfold present in *.
  cbv beta iota zeta delta
    [writeRepoNote writeNote renderTemplate readTemplate liftResult tryCatch bind
     getAbstractFileByPath adapterExists adapterRead getVault setVault ret throw emit
     Notice vaultCreate processFrontMatter consoleError world trace result setEntry].
  rewrite Hud, Hne. cbv beta iota zeta delta [negb].
  repeat (first [rewrite Htpl | rewrite Hrender | rewrite Hc];
          cbv beta iota zeta delta [negb]).
  destruct (vault w !! repoFileName (settings w) repo); [discriminate Hfree|].
  reflexivity.
Qed.

Lemma user_template_is_used_witness :
  createNoteForRepo (demoHost [] []) rustRepo
    (templateWorld "Templates/star.md" (<["Templates/star.md" := TFile starTemplate]> ∅))
  = (Ok true,
     setEntry
       (templateWorld "Templates/star.md" (<["Templates/star.md" := TFile starTemplate]> ∅))
       "GitHub/Stars/rust-lang-rust.md"
       (TFile (noteOfText (demoHost [] []) ("# rust" +:+ nl +:+ nl))),
     [EvCreate "GitHub/Stars/rust-lang-rust.md"]).
Proof.
  apply (user_template_is_used (demoHost [] []) rustRepo
           (templateWorld "Templates/star.md"
              (<["Templates/star.md" := TFile starTemplate]> ∅))
           starTemplate ("# rust" +:+ nl +:+ nl)).
  - reflexivity.
  - reflexivity.
  - vm_compute. reflexivity.
  - vm_compute. reflexivity.
  - reflexivity.
  - reflexivity.
Defined.

(** ** The metadata block *)

Lemma setFields_cons kv fields fm :
  setFields (kv :: fields) fm = setFields fields (setField (fst kv) (snd kv) fm).
Proof. reflexivity. Qed.

Lemma lookupField_setField_eq k v fm : lookupField k (setField k v fm) = Some v.
Proof.
  unfold lookupField. induction fm as [|[k' v'] fm IH]; simpl.
  - rewrite String.eqb_refl. reflexivity.
  - destruct (String.eqb k k') eqn:E; simpl.
    + rewrite String.eqb_refl. reflexivity.
    + rewrite E. exact IH.
Qed.

Lemma lookupField_setField_ne k k' v fm :
  k <> k' -> lookupField k' (setField k v fm) = lookupField k' fm.
Proof.
  intros Hne. assert (Hkk : String.eqb k' k = false).
  { apply String.eqb_neq. congruence. }
  unfold lookupField. induction fm as [|[k0 v0] fm IH]; simpl.
  - rewrite Hkk. reflexivity.
  - destruct (String.eqb k k0) eqn:E; simpl.
    + apply String.eqb_eq in E. subst k0. rewrite Hkk. reflexivity.
    + destruct (String.eqb k' k0); [reflexivity | exact IH].
Qed.

Lemma lookupField_setFields_notin k fields :
  ~ In k (keysOf fields) ->
  forall fm, lookupField k (setFields fields fm) = lookupField k fm.
Proof.
  induction fields as [|[k0 v0] fields IH]; intros Hk fm; [reflexivity|].
  rewrite setFields_cons. simpl in *.
  rewrite IH by tauto. apply lookupField_setField_ne. tauto.
Qed.

Lemma lookupField_setFields_in k v fields :
  NoDup (keysOf fields) -> In (k, v) fields ->
  forall fm, lookupField k (setFields fields fm) = Some v.
Proof.
  induction fields as [|[k0 v0] fields IH]; intros Hnd Hin fm; [destruct Hin|].
  rewrite setFields_cons. simpl in *. inversion Hnd as [|? ? Hk Hnd']. subst.
  destruct Hin as [Heq|Hin].
  - inversion Heq. subst.
    rewrite lookupField_setFields_notin.
    + apply lookupField_setField_eq.
    + intros Hin. apply Hk. apply list_elem_of_In. exact Hin.
  - apply IH; assumption.
Qed.

Lemma setField_id k v fm : lookupField k fm = Some v -> setField k v fm = fm.
Proof.
  unfold lookupField. induction fm as [|[k' v'] fm IH]; simpl; [discriminate|].
  destruct (String.eqb k k') eqn:E; simpl.
  - intros H. inversion H. apply String.eqb_eq in E. subst. reflexivity.
  - intros H. f_equal. apply IH, H.
Qed.

Lemma setFields_id fields :
  forall fm,
    (forall k v, In (k, v) fields -> lookupField k fm = Some v) ->
    setFields fields fm = fm.
Proof.
  induction fields as [|[k v] fields IH]; intros fm H; [reflexivity|].
  rewrite setFields_cons. simpl.
  rewrite setField_id by (apply H; left; reflexivity).
  apply IH. intros k' v' Hin. apply H. right. exact Hin.
Qed.

Lemma setFields_idempotent fields fm :
  NoDup (keysOf fields) ->
  setFields fields (setFields fields fm) = setFields fields fm.
Proof.
  intros Hnd. apply setFields_id. intros k v Hin.
  apply lookupField_setFields_in; assumption.
Qed.

Lemma repoFrontMatter_NoDup h repo : NoDup (keysOf (repoFrontMatter h repo)).
Proof.
  unfold keysOf, repoFrontMatter. simpl.
  repeat (apply NoDup_cons_2; [rewrite ?elem_of_cons, elem_of_nil; intros H;
                                 repeat (destruct H as [H|H]; [discriminate H|]);
                                 exact H|]).
  apply NoDup_nil_2.
Qed.

(** X16: Refreshing the note of a repository keeps what the user added to its
    metadata block: with the built-in template selected and
    [processFrontMatter] going through, after [createNoteForRepo] on an
    existing note every key the callback assigns holds the value computed
    from the repository, every other key holds what it held, and the body
    is the same. *)
Theorem refresh_keeps_foreign_metadata h repo w n :
  vault w !! repoFileName (settings w) repo = Some (TFile n) ->
  useDefaultTemplateStar (settings w) = true ->
  processFrontMatterFails h (repoFileName (settings w) repo) = false ->
  exists n',
    vault (world (createNoteForRepo h repo w)) !! repoFileName (settings w) repo
    = Some (TFile n') /\
    body n' = body n /\
    (forall k v, In (k, v) (repoFrontMatter h repo) ->
                 lookupField k (frontmatter n') = Some v) /\
    (forall k, ~ In k (keysOf (repoFrontMatter h repo)) ->
               lookupField k (frontmatter n') = lookupField k (frontmatter n)).
Proof.
  intros Hfile Hud Hpf.
  rewrite createNoteForRepo_eq. cbv zeta. unfold present. rewrite Hfile.
  cbv beta iota zeta delta
    [writeRepoNote writeNote tryCatch bind getAbstractFileByPath getVault setVault ret
     throw emit processFrontMatter consoleError world trace result].
  rewrite Hud. cbv beta iota zeta. rewrite Hfile. cbv beta iota zeta.
  rewrite Hpf. cbv beta iota zeta. rewrite Hfile. cbn [fst snd vault].
  eexists. split; [apply lookup_insert_eq|]. cbn [body frontmatter].
  split; [reflexivity|]. split.
  - intros k v Hin. apply lookupField_setFields_in; [apply repoFrontMatter_NoDup | exact Hin].
  - intros k Hk. apply lookupField_setFields_notin, Hk.
Qed.

Lemma refresh_keeps_foreign_metadata_witness :
  exists n',
    vault (world (createNoteForRepo (demoHost [] []) rustRepo rustWorld))
      !! repoFileName (settings rustWorld) rustRepo
    = Some (TFile n') /\
    body n' = body editedNote /\
    (forall k v, In (k, v) (repoFrontMatter (demoHost [] []) rustRepo) ->
                 lookupField k (frontmatter n') = Some v) /\
    (forall k, ~ In k (keysOf (repoFrontMatter (demoHost [] []) rustRepo)) ->
               lookupField k (frontmatter n') = lookupField k (frontmatter editedNote)).
Proof.
  apply (refresh_keeps_foreign_metadata (demoHost [] []) rustRepo rustWorld editedNote).
  - vm_compute. reflexivity.
  - reflexivity.
  - reflexivity.
Defined.

Section WriteNoteAgain.

Variable h : Host.
Variable fileName : string.
Variable useDefault : bool.
Variable render : M string.
Variable fields : list (string * FMValue).
Variable msg : string.
Hypothesis render_ReadOnly : ReadOnly render.

Local Abbreviation attempt here :=
  (tryCatch (writeNote h fileName here useDefault render fields)
     (fun error => consoleError msg error)).

Ltac run_attempt :=
  cbv beta iota zeta delta
    [writeNote tryCatch bind getAbstractFileByPath getVault setVault ret throw emit
     vaultCreate processFrontMatter consoleError world trace result];
  simpl.

(** On a file whose metadata block already holds the fields, the [try]
    block changes nothing. *)
Lemma attempt_settled w n :
  vault w !! fileName = Some (TFile n) ->
  (useDefault = true -> processFrontMatterFails h fileName = false ->
   setFields fields (frontmatter n) = frontmatter n) ->
  world (attempt true w) = w.
Proof.
  intros Hfile Hfm. run_attempt. rewrite Hfile. simpl.
  destruct useDefault; simpl; [|reflexivity].
  destruct (processFrontMatterFails h fileName); simpl; [reflexivity|].
  rewrite Hfile. simpl. rewrite Hfm by reflexivity.
  destruct w as [s d v]. simpl in *. f_equal.
  destruct n as [fm b]. simpl. apply insert_id. exact Hfile.
Qed.

(** A [try] block that logged no error leaves a file at the path, and the
    file holds the fields when the built-in template is selected. *)
Lemma attempt_clean w :
  consoleErrors (trace (attempt (present w fileName) w)) = [] ->
  exists n1,
    vault (world (attempt (present w fileName) w)) !! fileName = Some (TFile n1) /\
    (useDefault = true -> exists fm0, frontmatter n1 = setFields fields fm0).
Proof.
  destruct (render_ReadOnly w) as [Hw Ht].
  apply notices_no_console in Ht as [Hce _].
  unfold present.
  destruct (vault w !! fileName) as [[n|]|] eqn:Hfile;
    run_attempt; unfold result, world, trace in *; rewrite ?Hfile; simpl.
  - destruct useDefault; simpl.
    + destruct (processFrontMatterFails h fileName); simpl; [discriminate|].
      rewrite Hfile. simpl. intros _. eexists. split; [apply lookup_insert_eq|].
      intros _. eexists. reflexivity.
    + intros _. exists n. split; [exact Hfile | discriminate].
  - discriminate.
  - destruct (render w) as [[[text|e] w1] t1]; simpl in *; subst w1.
    + destruct (createFails h fileName); simpl.
      * rewrite !consoleErrors_app, Hce. discriminate.
      * rewrite Hfile. simpl. destruct useDefault; simpl.
        -- destruct (processFrontMatterFails h fileName); simpl.
           ++ rewrite !consoleErrors_app, Hce. discriminate.
           ++ rewrite lookup_insert_eq. simpl. intros _. eexists.
              split; [apply lookup_insert_eq|]. intros _. eexists. reflexivity.
        -- intros _. eexists. split; [apply lookup_insert_eq | discriminate].
    + rewrite !consoleErrors_app, Hce. discriminate.
Qed.

End WriteNoteAgain.

(** Of the metadata of a star note, only the stamps depend on the host. *)
Lemma repoFrontMatter_stamps h1 h2 repo k v :
  In (k, v) (repoFrontMatter h2 repo) -> ~ In k stampKeys ->
  In (k, v) (repoFrontMatter h1 repo).
Proof.
  unfold repoFrontMatter, stampKeys. simpl. intros H Hk.
  repeat (destruct H as [H|H];
          [inversion H; subst; try (exfalso; apply Hk; tauto); tauto|]).
  destruct H.
Qed.

Lemma refreshed_lookup h1 h2 repo fm0 k :
  ~ In k stampKeys ->
  lookupField k (setFields (repoFrontMatter h2 repo)
                   (setFields (repoFrontMatter h1 repo) fm0))
  = lookupField k (setFields (repoFrontMatter h1 repo) fm0).
Proof.
  intros Hk.
  destruct (in_dec String.string_dec k (keysOf (repoFrontMatter h2 repo))) as [Hin|Hout].
  - apply in_map_iff in Hin as [[k' v] [Hkv Hin]]. simpl in Hkv. subst k'.
    rewrite (lookupField_setFields_in k v _ (repoFrontMatter_NoDup h2 repo) Hin).
    symmetry. apply lookupField_setFields_in; [apply repoFrontMatter_NoDup|].
    apply (repoFrontMatter_stamps h1 h2); assumption.
  - apply lookupField_setFields_notin, Hout.
Qed.

(** X17: Materializing a repository again only refreshes its stamps. After a
    call of [createNoteForRepo] that logged no error, a second call for the
    same repository, at a later time and whatever fails then, returns false
    (the note exists), creates no file and touches no other path; the note
    keeps its body and every metadata key other than [created], [modified]
    and [lastUpdated] keeps its value. When the second call computes the
    metadata the first one wrote (same day, same time string), the world
    after it is the world before it. *)
Theorem second_materialization_refreshes_stamps_only h1 h2 repo w :
  let P := repoFileName (settings w) repo in
  let o1 := createNoteForRepo h1 repo w in
  let o2 := createNoteForRepo h2 repo (world o1) in
  consoleErrors (trace o1) = [] ->
  result o2 = Ok false /\
  createdFiles (trace o2) = [] /\
  (forall p, p <> P -> vault (world o2) !! p = vault (world o1) !! p) /\
  (exists n1 n2,
     vault (world o1) !! P = Some (TFile n1) /\
     vault (world o2) !! P = Some (TFile n2) /\
     body n2 = body n1 /\
     forall k, ~ In k stampKeys ->
               lookupField k (frontmatter n2) = lookupField k (frontmatter n1)) /\
  (repoFrontMatter h2 repo = repoFrontMatter h1 repo -> world o2 = world o1).
Proof.
  intros P o1 o2 Hclean. subst o1 o2.
  pose proof (createNoteForRepo_settings h1 repo w) as Hs.
  rewrite (createNoteForRepo_eq h2 repo (world (createNoteForRepo h1 repo w))).
  cbv zeta. rewrite Hs. fold P.
  clear Hs.
  rewrite (createNoteForRepo_eq h1 repo w) in Hclean |- *. cbv zeta in Hclean |- *.
  fold P in Hclean |- *.
  rewrite ?world_of, ?trace_of in Hclean. rewrite ?world_of, ?trace_of.
  unfold writeRepoNote in Hclean |- *. fold P in Hclean |- *.
  destruct (attempt_clean h1 P (useDefaultTemplateStar (settings w)) _
              (repoFrontMatter h1 repo) (repoErrorMessage repo)
              (ReadOnly_renderTemplate _ _ _ _ _ _) w Hclean) as (n1 & Hf1 & Hfm1).
  set (w1 := world (tryCatch _ _ w)) in *.
  assert (Hhere : present w1 P = true) by (unfold present; rewrite Hf1; reflexivity).
  rewrite Hhere. unfold result at 1. cbn [fst negb].
  destruct (attempt_existing h2 P (useDefaultTemplateStar (settings w))
              (renderTemplate h2 (handlebarsStar h2) (useDefaultTemplateStar (settings w))
                 (templatePathStar (settings w)) ("# {{ name }}" +:+ nl +:+ nl) repo)
              (repoFrontMatter h2 repo) (repoErrorMessage repo) w1 n1 Hf1)
    as (Hcreated & Hworld & _).
  split; [reflexivity|]. split; [exact Hcreated|].
  destruct Hworld as [-> | (Hud & _ & ->)].
  - split; [reflexivity|]. split; [|reflexivity].
    exists n1, n1. repeat split; assumption.
  - split; [|split].
    + intros p Hp. simpl. apply lookup_insert_ne. congruence.
    + exists n1, (withFields (repoFrontMatter h2 repo) n1).
      split; [exact Hf1|]. split; [simpl; apply lookup_insert_eq|].
      split; [reflexivity|]. intros k Hk. destruct (Hfm1 Hud) as [fm0 Hfm0].
      simpl. rewrite Hfm0. apply refreshed_lookup, Hk.
    + intros Hsame. destruct (Hfm1 Hud) as [fm0 Hfm0].
      assert (Hn : withFields (repoFrontMatter h2 repo) n1 = n1).
      { unfold withFields. rewrite Hsame, Hfm0, setFields_idempotent
          by apply repoFrontMatter_NoDup.
        rewrite <- Hfm0. destruct n1; reflexivity. }
      rewrite Hn. unfold setEntry. destruct w1 as [s1 d1 v1]. simpl in *.
      f_equal. apply insert_id. exact Hf1.
Qed.

Lemma second_materialization_refreshes_stamps_only_witness :
  result (createNoteForRepo (nextDayHost [] []) rustRepo
            (world (createNoteForRepo (demoHost [] []) rustRepo (aliceWorld lastWeek ∅))))
  = Ok false /\
  createdFiles
    (trace (createNoteForRepo (nextDayHost [] []) rustRepo
              (world (createNoteForRepo (demoHost [] []) rustRepo (aliceWorld lastWeek ∅)))))
  = [].
Proof.
  destruct (second_materialization_refreshes_stamps_only (demoHost [] []) (nextDayHost [] [])
              rustRepo (aliceWorld lastWeek ∅)) as (H1 & H2 & _).
  - vm_compute. reflexivity.
  - split; [exact H1 | exact H2].
Defined.

(** ** What is sent to GitHub *)

Lemma vaultEvent_noRequest e : vaultEvent e = true -> negb (isRequest e) = true.
Proof. destruct e; simpl; intros H; try reflexivity; discriminate H. Qed.

Lemma noRequest_requestOf ep s t :
  Forall (fun e => negb (isRequest e) = true) t -> Forall (requestOf ep s) t.
Proof.
  intros H. eapply Forall_impl; [exact H|].
  intros e He. destruct e; simpl in *; try exact I. discriminate He.
Qed.

Lemma vaultEvents_requestOf ep s t :
  Forall (fun e => vaultEvent e = true) t -> Forall (requestOf ep s) t.
Proof.
  intros H. apply noRequest_requestOf. eapply Forall_impl; [exact H|].
  apply vaultEvent_noRequest.
Qed.

Section Requests.

Context {Item : Type}.
Variable ep : Endpoint.
Variable getPage : list (Result (list Item)) -> nat -> M (list Item * bool).
Variable createNote : Item -> M bool.
Variable itemName : Item -> string.
Variable fetchedNotice : nat -> string.
Variable firstFetch : bool.

Hypothesis getPage_eq :
  forall listing page w,
    getPage listing page w
    = (match headPage listing with
       | Ok items => Ok (items, length items =? perPage)
       | Throw e => Throw e
       end, w, [requestEvent ep w page]).

Hypothesis Safe_createNote : forall item, Safe vaultEvent (createNote item).

Lemma itemLoop_requestOf items count w :
  settings (world (itemLoop createNote itemName firstFetch items count w)) = settings w /\
  Forall (requestOf ep (settings w))
    (trace (itemLoop createNote itemName firstFetch items count w)).
Proof.
  destruct (Safe_itemLoop createNote itemName firstFetch (fun e => negb (isRequest e))
              (fun _ _ => eq_refl)
              (fun item => Safe_weaken _ _ _ vaultEvent_noRequest (Safe_createNote item))
              items count w) as ((Hs & _) & Ht & _).
  split; [exact Hs | apply noRequest_requestOf, Ht].
Qed.

Lemma pageStep_requestOf listing page count w :
  settings (world (pageStep getPage createNote itemName fetchedNotice firstFetch
                     listing page count w)) = settings w /\
  Forall (requestOf ep (settings w))
    (trace (pageStep getPage createNote itemName fetchedNotice firstFetch
              listing page count w)).
Proof.
  assert (Hreq : requestOf ep (settings w) (requestEvent ep w page))
    by (repeat split).
  rewrite (pageStep_eq ep _ _ _ _ _ getPage_eq).
  destruct (headPage listing) as [items|e].
  - destruct (itemLoop_requestOf items count w) as [Hs Ht]. cbv zeta.
    unfold result, world, trace in *.
    destruct (itemLoop createNote itemName firstFetch items count w)
      as [[[[continueFetch c]|e] w1] t1]; cbn [fst snd] in *.
    + split; [exact Hs|]. constructor; [exact Hreq|].
      apply Forall_app. split; [exact Ht|].
      unfold fetchedEvents. destruct (c =? 0); repeat constructor.
    + split; [exact Hs|]. constructor; [exact Hreq | exact Ht].
  - split; [reflexivity|]. repeat constructor.
Qed.

Lemma pageLoop_requestOf listing :
  forall page count w,
    settings (world (pageLoop getPage createNote itemName fetchedNotice firstFetch
                       listing page count w)) = settings w /\
    Forall (requestOf ep (settings w))
      (trace (pageLoop getPage createNote itemName fetchedNotice firstFetch
                listing page count w)).
Proof.
  induction listing as [|response rest IH]; intros page count w; rewrite pageLoop_eq;
    cbv zeta.
  - destruct (pageStep_requestOf [] page count w) as [Hs Ht].
    unfold result, world, trace in *.
    destruct (pageStep getPage createNote itemName fetchedNotice firstFetch [] page count w)
      as [[[[again c]|e] w1] t1]; cbn [fst snd] in *; split; assumption.
  - destruct (pageStep_requestOf (response :: rest) page count w) as [Hs Ht].
    unfold result, world, trace in *.
    destruct (pageStep getPage createNote itemName fetchedNotice firstFetch
                (response :: rest) page count w) as [[[[again c]|e] w1] t1];
      cbn [fst snd] in *; [|split; assumption].
    destruct again; [|split; assumption].
    destruct (IH (S page) c w1) as [Hs' Ht']. rewrite Hs in *.
    destruct (pageLoop getPage createNote itemName fetchedNotice firstFetch rest
                (S page) c w1) as [[r w2] t2]. cbn [fst snd] in *.
    split; [exact Hs'|]. apply Forall_app. split; assumption.
Qed.

End Requests.

Lemma finishStars_requestOf ep s h o :
  Forall (requestOf ep s) (trace o) -> Forall (requestOf ep s) (trace (finishStars h o)).
Proof.
  destruct o as [[[n|e] w1] t1]; unfold trace; simpl; intros H;
    [destruct (saveDataFails h _); simpl|]; apply Forall_app;
    (split; [exact H|]); [|destruct (n =? 0)|]; repeat constructor.
Qed.

Lemma finishPRs_requestOf ep s h o :
  Forall (requestOf ep s) (trace o) -> Forall (requestOf ep s) (trace (finishPRs h o)).
Proof.
  destruct o as [[[n|e] w1] t1]; unfold trace; simpl; intros H;
    [destruct (saveDataFails h _); simpl|]; apply Forall_app;
    (split; [exact H|]); [|destruct (n =? 0)|]; repeat constructor.
Qed.

(** X18: Whatever the remote answers, every request of a run of [fetchStars]
    goes to the list of starred repositories, and every request of a run of
    [fetchPullRequests] to the search of pull requests, of the user name
    the settings held when the run started; the token is sent when and only
    when those settings have one. *)
Theorem requests_use_the_settings h w :
  Forall (requestOf Starred (settings w)) (trace (fetchStars h w)) /\
  Forall (requestOf SearchPRs (settings w)) (trace (fetchPullRequests h w)).
Proof.
  destruct (valid (settings w)) eqn:Hv.
  - rewrite (fetchStars_eq h w Hv), (fetchPullRequests_eq h w Hv). split.
    + apply finishStars_requestOf. rewrite starsPhase_eq. cbv zeta.
      destruct (Safe_ensureDirectoryExists h (targetDirectory (settings w)) w)
        as ((Hs & _) & Ht & _).
      apply (vaultEvents_requestOf Starred (settings w)) in Ht.
      pose proof (pageLoop_requestOf Starred getStarredRepos (createNoteForRepo h) full_name
                    (fun n => "Fetched " +:+ JS.ofNat n +:+ " GitHub stars")
                    (String.eqb (lastFetchDate (settings w)) "")
                    getStarredRepos_eq (Safe_createNoteForRepo h) (starredPages h) 1 0
                    (world (ensureDirectoryExists h (targetDirectory (settings w)) w)))
        as [_ Hl].
      fold (starsLoop h (String.eqb (lastFetchDate (settings w)) "")) in Hl.
      rewrite Hs in Hl. unfold result, world, trace in *.
      destruct (ensureDirectoryExists h (targetDirectory (settings w)) w)
        as [[[[]|e] w0] t0]; cbn [fst snd] in *; [|exact Ht].
      destruct (starsLoop h (String.eqb (lastFetchDate (settings w)) "") w0)
        as [[r w1] t1]. cbn [fst snd] in *.
      apply Forall_app. split; assumption.
    + apply finishPRs_requestOf. rewrite prsPhase_eq. cbv zeta.
      destruct (Safe_ensureDirectoryExists h
                  (orString (prDirectory (settings w)) (targetDirectory (settings w))) w)
        as ((Hs & _) & Ht & _).
      apply (vaultEvents_requestOf SearchPRs (settings w)) in Ht.
      pose proof (pageLoop_requestOf SearchPRs getPullRequests (createNoteForPR h) prItemName
                    (fun n => "Fetched " +:+ JS.ofNat n +:+ " pull requests")
                    (String.eqb (lastPRFetchDate (settings w)) "")
                    getPullRequests_eq (Safe_createNoteForPR h) (pullRequestPages h) 1 0
                    (world (ensureDirectoryExists h
                              (orString (prDirectory (settings w))
                                 (targetDirectory (settings w))) w)))
        as [_ Hl].
      fold (prsLoop h (String.eqb (lastPRFetchDate (settings w)) "")) in Hl.
      rewrite Hs in Hl. unfold result, world, trace in *.
      destruct (ensureDirectoryExists h
                  (orString (prDirectory (settings w)) (targetDirectory (settings w))) w)
        as [[[[]|e] w0] t0]; cbn [fst snd] in *; [|exact Ht].
      destruct (prsLoop h (String.eqb (lastPRFetchDate (settings w)) "") w0)
        as [[r w1] t1]. cbn [fst snd] in *.
      apply Forall_app. split; assumption.
  - destruct (fetch_invalid h w Hv) as [[m1 ->] [m2 ->]].
    split; repeat constructor.
Qed.

(** ** The notes of pull requests *)

Lemma pretty_N_go_digits x :
  forall s, digits s = true -> digits (pretty_N_go x s) = true.
Proof.
  induction (N.lt_wf_0 x) as [x _ IH]; intros s Hs.
  assert (x = 0 \/ 0 < x)%N as [->|Hx] by lia.
  - rewrite pretty_N_go_0. exact Hs.
  - rewrite pretty_N_go_step by exact Hx. apply IH.
    + apply N.div_lt; lia.
    + unfold digits in *. simpl. rewrite Hs, andb_true_r.
      unfold pretty_N_char. repeat case_match; reflexivity.
Qed.

Lemma ofNat_digits n : digits (JS.ofNat n) = true.
Proof.
  unfold JS.ofNat, pretty, pretty_nat, pretty, pretty_N.
  case_decide; [reflexivity|]. apply pretty_N_go_digits. reflexivity.
Qed.

Lemma digits_prefix_inj d1 :
  forall d2 r1 r2,
    digits d1 = true -> digits d2 = true ->
    d1 +:+ "_" +:+ r1 = d2 +:+ "_" +:+ r2 -> d1 = d2 /\ r1 = r2.
Proof.
  unfold digits.
  induction d1 as [|c d1 IH]; intros [|c' d2] r1 r2 H1 H2 Heq; simpl in *.
  - change ("" +:+ "_" +:+ r1) with (String "_" r1) in Heq.
    change ("" +:+ "_" +:+ r2) with (String "_" r2) in Heq.
    inversion Heq. split; reflexivity.
  - change ("" +:+ "_" +:+ r1) with (String "_" r1) in Heq.
    rewrite app_cons in Heq. inversion Heq. subst c'. discriminate H2.
  - change ("" +:+ "_" +:+ r2) with (String "_" r2) in Heq.
    rewrite app_cons in Heq. inversion Heq. subst c. discriminate H1.
  - rewrite !app_cons in Heq. inversion Heq. subst c'.
    apply andb_true_iff in H1 as [_ H1]. apply andb_true_iff in H2 as [_ H2].
    destruct (IH d2 r1 r2 H1 H2) as [-> ->]; [assumption|]. split; reflexivity.
Qed.

Lemma noneOf_app f s t : noneOf f (s +:+ t) = noneOf f s && noneOf f t.
Proof. unfold noneOf. rewrite list_ascii_app, forallb_app. reflexivity. Qed.

Lemma slash_in_tail a y : noneOf isSlash (a +:+ "/" +:+ y) = false.
Proof.
  rewrite noneOf_app. change ("/" +:+ y) with (String "/" y).
  unfold noneOf at 2. simpl. apply andb_false_r.
Qed.

(** A path is cut in one way only at its last slash. *)
Lemma last_slash_inj a :
  forall b x y,
    noneOf isSlash x = true -> noneOf isSlash y = true ->
    a +:+ "/" +:+ x = b +:+ "/" +:+ y -> a = b /\ x = y.
Proof.
  induction a as [|c a IH]; intros [|c' b] x y Hx Hy Heq.
  - change ("" +:+ "/" +:+ x) with (String "/" x) in Heq.
    change ("" +:+ "/" +:+ y) with (String "/" y) in Heq.
    inversion Heq. split; reflexivity.
  - change ("" +:+ "/" +:+ x) with (String "/" x) in Heq.
    rewrite app_cons in Heq. inversion Heq. subst.
    rewrite slash_in_tail in Hx. discriminate Hx.
  - change ("" +:+ "/" +:+ y) with (String "/" y) in Heq.
    rewrite app_cons in Heq. inversion Heq. subst.
    rewrite slash_in_tail in Hy. discriminate Hy.
  - rewrite !app_cons in Heq. inversion Heq. subst c'.
    destruct (IH b x y Hx Hy) as [-> ->]; [assumption|]. split; reflexivity.
Qed.

Lemma digits_no_slash s : digits s = true -> noneOf isSlash s = true.
Proof.
  unfold digits, noneOf. induction s as [|c s IH]; [reflexivity|]. simpl.
  intros H. apply andb_true_iff in H as [Hc Hs]. rewrite (IH Hs), andb_true_r.
  revert Hc. unfold isDigit, isSlash, JS.between.
  destruct (JS.code c =? 47) eqn:E; [|reflexivity].
  apply Nat.eqb_eq in E. rewrite E. discriminate.
Qed.

Lemma unsafe_no_slash s : noneOf unsafeFileChar s = true -> noneOf isSlash s = true.
Proof.
  unfold noneOf. induction s as [|c s IH]; [reflexivity|]. simpl.
  intros H. apply andb_true_iff in H as [Hc Hs]. rewrite (IH Hs), andb_true_r.
  revert Hc. unfold unsafeFileChar, isSlash. simpl.
  destruct (JS.code c =? 47); [|reflexivity].
  rewrite orb_true_r. discriminate.
Qed.

Lemma prLeaf_no_slash pr :
  noneOf isSlash (JS.ofNat (pr_number pr) +:+ "_" +:+ safePrTitle pr +:+ ".md") = true.
Proof.
  rewrite !noneOf_app, (digits_no_slash _ (ofNat_digits _)).
  rewrite (unsafe_no_slash (safePrTitle pr)); [reflexivity|].
  unfold safePrTitle.
  apply substring0_noneOf, replaceSpaceRuns_noneOf; [reflexivity | apply dashed_noneOf_unsafe].
Qed.

Lemma prFileName_inj s pr1 pr2 :
  prFileName s pr1 = prFileName s pr2 ->
  prRepoDir s pr1 = prRepoDir s pr2 /\ pr_number pr1 = pr_number pr2.
Proof.
  unfold prFileName. intros Heq.
  apply last_slash_inj in Heq as [Hdir Hleaf]; try apply prLeaf_no_slash.
  split; [exact Hdir|].
  apply digits_prefix_inj in Hleaf as [Hnum _]; try apply ofNat_digits.
  unfold JS.ofNat in Hnum. apply (inj pretty) in Hnum. exact Hnum.
Qed.

(** X19: Two pull requests never share a note unless they have the same number
    and the same folder: pull requests with different numbers, or of
    repositories with different folders, have different note paths,
    whatever their titles. *)
Theorem pr_notes_do_not_collide s pr1 pr2 :
  pr_number pr1 <> pr_number pr2 \/ prRepoDir s pr1 <> prRepoDir s pr2 ->
  prFileName s pr1 <> prFileName s pr2.
Proof.
  intros Hdiff Heq. apply prFileName_inj in Heq as [Hdir Hnum].
  destruct Hdiff as [H|H]; [apply H, Hnum | apply H, Hdir].
Qed.

Lemma pr_notes_do_not_collide_witness :
  prFileName (aliceSettings lastWeek) toolPR
  <> prFileName (aliceSettings lastWeek)
       (mkPR "alice" "tool" 13 "Fix: the <thing>  now" "OPEN" ["Bug Fix!"]).
Proof.
  apply (pr_notes_do_not_collide (aliceSettings lastWeek) toolPR
           (mkPR "alice" "tool" 13 "Fix: the <thing>  now" "OPEN" ["Bug Fix!"])).
  left. simpl. lia.
Defined.

(** ** The properties above on examples *)

Lemma ensureDirectoryExists_only_adds_folders_witness :
  TFolder = TFolder /\
  In "GitHub" (dirsOf "GitHub/Stars") /\
  In (EvCreateFolder "GitHub")
     (trace (ensureDirectoryExists (demoHost [] []) "GitHub/Stars" freshWorld)).
Proof.
  apply (proj2 (proj2 (proj2
           (ensureDirectoryExists_only_adds_folders (demoHost [] []) "GitHub/Stars"
              freshWorld))) "GitHub" TFolder).
  - vm_compute. reflexivity.
  - vm_compute. reflexivity.
Defined.

Lemma background_sync_is_stars_then_prs_witness :
  world (backgroundSync (demoHost [Ok threeRepos] [Ok [toolPR]]) (aliceWorld lastWeek ∅))
  = world (fetchPullRequests (demoHost [Ok threeRepos] [Ok [toolPR]])
             (world (fetchStars (demoHost [Ok threeRepos] [Ok [toolPR]])
                       (aliceWorld lastWeek ∅)))) /\
  trace (backgroundSync (demoHost [Ok threeRepos] [Ok [toolPR]]) (aliceWorld lastWeek ∅))
  = trace (fetchStars (demoHost [Ok threeRepos] [Ok [toolPR]]) (aliceWorld lastWeek ∅))
    ++ trace (fetchPullRequests (demoHost [Ok threeRepos] [Ok [toolPR]])
                (world (fetchStars (demoHost [Ok threeRepos] [Ok [toolPR]])
                          (aliceWorld lastWeek ∅)))).
Proof.
  apply (proj2 (proj2 (proj2
           (background_sync_is_stars_then_prs (demoHost [Ok threeRepos] [Ok [toolPR]])
              (aliceWorld lastWeek ∅))))).
  - reflexivity.
  - reflexivity.
Defined.
